(* ===== verification/_CoqProject ===== *)
-Q . S2P
Prelude.v
Json.v
Rules.v
Tables.v
Models.v
Names.v
JsonText.v
Config.v
Serializer.v
Payloads.v
App.v
Bodies.v
Machine.v
ApiSpec.v
Requests.v
