(* ===== verification/Prelude.v ===== *)
(** * A verification development of the heroes/powers Flask service

    The program ([src/server/models.py], [src/server/app.py]) is a Flask +
    SQLAlchemy service over three SQLite tables, [heroes], [powers] and the
    join table [hero_powers].  Its parts and how they interact: a request
    handler of [app.py] reads rows through [Model.query.get]/[.all()]; a
    write assigns an attribute guarded by a [@validates] hook of
    [models.py] (which raises [ValueError]), adds a row, and commits the
    session; the answer is built by [SerializerMixin.to_dict], which
    follows the [serialize_rules] of each model class and the [rules=] or
    [only=] of the call; Flask turns an exception the handler does not
    catch into a 500 and the session is rolled back; the [dict] or
    [list] a handler returns is turned into the text of the body by
    Flask's JSON provider, configured by [app.json.compact = False].

    Files, in the order of [_CoqProject]:

    - [Prelude] (this file): the Python exceptions [exn], the exception
      monad [result] with its notation [x <- c ;; k] in [py_scope],
      monadic map [mapR], list helpers, the hint databases [heroes], the
      tactics [peel], [destruct_In], [py_simp].
    - [Json]: the request [body] and its decoding [request_json]
      (Werkzeug's [request.json], 400 or 415 when it cannot decode), the
      decoded value [json] and the Python operations the code applies to
      it ([not x], [len], [k in x], [x[k]], [x in list]), each raising
      what CPython raises.
    - [Rules]: the rule strings of [serialize_rules]/[rules=] ("-a.b"),
      their parser [parse_rule] and printer, the schema of a [to_dict]
      call, [is_included], [fork] into a nested key and [merge] of a
      model's own rules (library code, modelled from the specification).
    - [Tables]: a table as the list of its rows in rowid order through the
      typeclass [Row] (primary key); [query_get] (the lookup by key),
      [next_rowid] (SQLite's max+1 for an INTEGER PRIMARY KEY without
      AUTOINCREMENT) and [rowid_choice] (SQLite's rule with its 64-bit
      limit [max_rowid] and random fallback), [table_insert],
      [delete_id], [update_row]; the signed 64-bit range [in_int64] of a
      SQLite [INTEGER]; the invariant [ids_wf]; the abstract
      specification [to_map] (a stdpp [gmap]) and the refinement lemmas
      of each operation.
    - [Models]: Modules [Hero], [Power], [HeroPower] (row Record and class
      [serialize_rules]); the store [db]; the relationships
      ([Hero_hero_powers], [HeroPower_hero], ...) and association proxies;
      the validators [validate_description], [validate_strength]; the
      [sqlite3] conversion of an [int] parameter ([bind_int], which raises
      [OverflowError] outside 64 bits), [Model.query.get] as a bound
      [SELECT] ([session_get]); column binding at flush ([bind_string],
      [bind_int_ref]); the writes
      [insert_hero_power], [set_power_description] and the cascading
      deletes [delete_hero], [delete_power]; the invariants [db_wf] and
      [refs_ok], [fks_in_int64] and the lemmas that each write keeps
      them.
    - [Names]: the [MetaData] naming convention of foreign-key
      constraints ([fk_name], [constraint_names]) and the [__repr__]
      methods ([Hero_repr], ...) with Python's [str] of an [int]
      ([py_str_int], on the Standard Library's [Z.to_int]).
    - [JsonText]: the text of a JSON body: CPython's [json.dumps] encoder
      [dumps_at] (any [indent] and [separators], the [layout];
      [sort_keys], [ensure_ascii]), the decoder [loads] with fuel, Flask's
      [DefaultJSONProvider] ([provider_layout], [provider_response_text])
      and [app_json_compact]; a nested induction principle for [json];
      the round trip, printable output and independence from the order of
      a [dict]'s entries.
    - [Config]: the database URI of [app.py] ([DB_URI] or the SQLite
      file [app.db] beside the program).
    - [Serializer]: [to_dict_fuel], the serializer over the store with
      fuel for the recursion depth, and [to_dict], the program's
      serializer; termination and payload shapes.
    - [Payloads]: the per-endpoint projections the [to_dict] calls of
      [app.py] amount to ([hero_detail], [power_full],
      [hero_power_detail]), the JSON types [jty] of the answers and the
      boolean check [has_type].
    - [App]: the six routes ([index], [get_heroes], [get_hero],
      [get_powers], [get_power], [update_power], [create_hero_power]) as
      handlers [db -> result (response * db)], the [try/except ValueError]
      block, and [handle], Flask's dispatch: the status of an HTTP error,
      500 for any other exception, and rollback.
    - [Bodies]: what the handlers do with bodies the specification's
      table does not describe (a body that is not JSON, [null] and
      boolean references, a [PATCH] body that is an array or a scalar)
      and with a [PATCH] body without [description].
    - [Machine]: the service as a step relation (a request, or an
      administrative [session.delete]) and [reachable]; invariants by
      induction on reachability.
    - [ApiSpec]: the contract of section 6 and 7 of the specification as
      a relation [api_spec] between request, store, answer and store,
      stated on the abstract tables [to_map] (stdpp [gmap]s) and the
      projections of [Payloads]; its refinement by [handle]; the JSON
      types of all answers; a liveness guarantee proved against the
      contract only.
    - [Requests]: the HTTP level: the [@app.route] rules ([url_map], one
      definition per decorator) under Werkzeug's matching ([dispatch]:
      [int:] converter, 404, 405, [HEAD], [OPTIONS]), [request.json] on
      the raw body ([decode_body], with [loads]), and [serve], which
      composes them with [handle]; the handlers answer a body and its
      normal form alike.

    How the parts interact in the proofs: [App] composes [Json] (Python
    operations on the body), [Models] (validators, binding, writes) and
    [Serializer] (answers); [ApiSpec] is the interface a client of the
    service relies on: [handle_spec_routes] discharges it from the
    handlers, and [hero_can_always_gain_power] uses nothing but the
    contract and [Machine]'s step relation; [Requests] puts [JsonText]'s
    reader in front of [App]: a request arrives as a method, a path and
    a text, and [serve_client_json_text] shows the text level refines
    the value level.

    What the theorems show (claims C1-C36 of the manifest):
    - routes: a missing id answers 404 on [GET /heroes/<id>] and
      [GET /powers/<id>] up to [2^63 - 1] and 500 above it (C6, C7); the
      400 of a short description and the 200 that stores a valid one; a
      [PATCH] without [description] answers 200 and writes nothing (C24);
      the 400 of an invalid strength and the exact 200 payload of a valid
      [POST /hero_powers] (nested hero and power without [hero_powers]);
      the flat list payloads; the single-row payloads; every non-200
      answer leaves the store unchanged;
    - the contract: [handle] refines [api_spec] for every configuration,
      request and store (C27); in a well-formed store every answer has
      the JSON type of its route and status (C28); from every reachable
      store a hero can always be linked to an existing power (C29);
    - the models: the complete behaviour of both validators; the cascade
      of a hero deletion and its effect on a power's [heroes]; [__repr__]
      reads back to the id;
    - the serializer: with the [serialize_rules] of [models.py] every
      serialization finishes within nesting depth 3 and does not depend
      on the bound beyond it; every [to_dict] call of [app.py] equals its
      endpoint's projection (C26);
    - the store: [db_wf] in every reachable store; [refs_ok] in every
      reachable store when foreign keys are enforced, and not under
      SQLite's default, which is what [app.py] runs on when [DB_URI] is
      not set; every stored foreign key is NULL or a 64-bit integer in
      every reachable store (C36); rowids fresh but reused after deleting
      the newest row;
    - 64-bit integers: [app.py] passes route ids and body references to
      SQLite unchecked, and the [sqlite3] module refuses an [int] outside
      [[-2^63, 2^63 - 1]] with [OverflowError], which no handler
      catches: a [GET] or [PATCH] of an id above [2^63 - 1] answers 500
      (C6, C7, C35), and so does a [POST] whose [hero_id] does not fit,
      with nothing stored, whatever the foreign-key setting (C14);
    - findings: a dangling [hero_id] is stored and answered 200 (not 400);
      a [null] [hero_id] is stored and answered 200 even with foreign keys
      enforced; a missing body key answers 500 whatever the strength; a
      list-valued description passes validation and fails at commit with
      500; a [PATCH] body that is an array answers 200, one that is a
      string is searched for the substring ["description"] (C34); a body
      that is not JSON answers 415 (after the 404 check of [PATCH],
      before any validation of [POST]);
    - the HTTP level: the route table of the [@app.route] declarations,
      every method of every path (C25); a client that sends [json.dumps]
      of a body, in any layout with comma and colon separators, to
      [POST /hero_powers] or [PATCH /powers/<id>] is answered exactly as
      [handle] answers the decoded value (C31).

    Bounds and fuel: [max_depth] (100) stands for CPython's recursion
    limit; [to_dict_terminates] shows that 3 levels suffice for every
    serialization of the program and that every bound from 3 on gives the
    same result, so the choice of 100 does not matter.  Integers are
    [Z], and the machine-width integers of the program are SQLite's
    signed 64-bit [INTEGER]s: a Python [int] is checked against
    [in_int64] where the [sqlite3] module binds it ([bind_int]: the id of
    [Model.query.get], the foreign keys at commit), and rowids are
    assigned by [next_rowid], which is SQLite's key while the largest key
    is below [2^63 - 1] ([next_rowid_choice]; the random choice above it
    is the relation [rowid_choice], not a function, and every key it
    allows is free and in range, [rowid_choice_fresh]).  [loads] runs on
    fuel: it is given the length of the text, and [json_size_le_length]
    shows that the text of a value is never shorter than the fuel
    [parse_dumps] needs ([json_size]), so the round trip [loads_dumps]
    holds with no bound on the value.

    Not modelled: Flask-Migrate (schema migrations, run offline),
    [SQLALCHEMY_TRACK_MODIFICATIONS] (event bookkeeping of the session),
    [db.init_app] (binding the extension to the app) and [app.run] (the
    server loop; its [debug=True] only matters to the JSON layout when
    [compact] is unset, and [app.py] sets it);
    floats and code points above 255 in JSON (a [\uXXXX] escape above
    255 is outside [loads]); text bound to an INTEGER column (SQLite type
    affinity, raised as [Unsupported]); in a raw request, bytes above
    127 (UTF-8 text) and a path with an empty segment ([//], which
    Werkzeug merges and redirects), on which [serve] gives [None];
    request headers other than the mimetype (Werkzeug before 2.3
    answers 400 where the model answers 415); an id that is [None] in
    [__repr__] before the first flush; [delete-orphan] on removal from a
    collection, which no route of [app.py] performs. *)

From Stdlib Require Import String ZArith Lia.
From stdpp Require Import base list.

Declare Scope py_scope.
Delimit Scope py_scope with py.
Open Scope py_scope.

Create HintDb heroes.
Create Rewrite HintDb heroes.

(** ** Python exceptions *)

(** The exceptions the modelled code can raise.  [ValueError] is the
    only one the handlers of [app.py] catch; an [HTTPException] (raised
    by [request.json]) is answered by Flask with its own status code. *)
Inductive exn : Type :=
| ValueError (msg : string)
| TypeError (msg : string)
| KeyError (key : string)
| IntegrityError (msg : string)
| InterfaceError (msg : string)
| OverflowError (msg : string)         (** an [int] outside SQLite's 64 bits *)
| RecursionError
| Unsupported (what : string)
| HTTPException (code : Z) (name : string).

(** A computation that returns a value or raises an exception. *)
Inductive result (A : Type) : Type :=
| Ok (a : A)
| Raise (e : exn).
Arguments Ok {A} a.
Arguments Raise {A} e.

Definition rbind {A B} (c : result A) (k : A -> result B) : result B :=
  match c with
  | Ok a => k a
  | Raise e => Raise e
  end.

Definition rmap {A B} (f : A -> B) (c : result A) : result B :=
  rbind c (fun a => Ok (f a)).

Notation "x <- c ;; k" := (rbind c (fun x => k))
  (at level 60, c at next level, right associativity) : py_scope.

Definition is_ok {A} (c : result A) : bool :=
  match c with Ok _ => true | Raise _ => false end.

(** Monadic map: apply [f] to each element, stop at the first exception. *)
Fixpoint mapR {A B} (f : A -> result B) (l : list A) : result (list B) :=
  match l with
  | [] => Ok []
  | x :: l' => y <- f x ;; ys <- mapR f l' ;; Ok (y :: ys)
  end.

(** The largest of a list of integers, [None] for the empty list. *)
Fixpoint list_maxZ (l : list Z) : option Z :=
  match l with
  | [] => None
  | x :: l' =>
      match list_maxZ l' with
      | None => Some x
      | Some m => Some (Z.max x m)
      end
  end.

(** ** Generic lemmas *)

Lemma rbind_Ok {A B} (a : A) (k : A -> result B) : rbind (Ok a) k = k a.
Proof. reflexivity. Qed.

Lemma rbind_Raise {A B} (e : exn) (k : A -> result B) : rbind (Raise e) k = Raise e.
Proof. reflexivity. Qed.

Lemma rbind_eq_Ok {A B} (c : result A) (k : A -> result B) b :
  rbind c k = Ok b -> exists a, c = Ok a /\ k a = Ok b.
Proof. destruct c; simpl; [eauto | discriminate]. Qed.

#[export] Hint Rewrite @rbind_Ok @rbind_Raise : heroes.

(** [mapR] succeeds exactly when [f] succeeds on every element. *)
Lemma mapR_Ok_Forall {A B} (f : A -> result B) l :
  Forall (fun x => is_ok (f x) = true) l -> is_ok (mapR f l) = true.
Proof.
  induction 1 as [|x l Hx _ IH]; simpl; [done|].
  destruct (f x); [|discriminate]; simpl.
  destruct (mapR f l); [done|discriminate].
Qed.

Lemma mapR_map {A B C} (g : A -> B) (f : B -> result C) l :
  mapR f (map g l) = mapR (fun x => f (g x)) l.
Proof. induction l as [|x l IH]; simpl; [done|]. by rewrite IH. Qed.

Lemma mapR_ext {A B} (f g : A -> result B) l :
  (forall x, In x l -> f x = g x) -> mapR f l = mapR g l.
Proof.
  induction l as [|x l IH]; simpl; intros H; [done|].
  rewrite (H x) by auto. by rewrite IH by auto.
Qed.

Lemma mapR_Ok_mono {A B} (f g : A -> result B) l r :
  (forall x b, f x = Ok b -> g x = Ok b) -> mapR f l = Ok r -> mapR g l = Ok r.
Proof.
  intros Hfg. revert r; induction l as [|x l IH]; simpl; intros r; [done|].
  destruct (f x) as [b|] eqn:Ef; simpl; [|discriminate].
  rewrite (Hfg x b Ef); simpl.
  destruct (mapR f l) as [r'|] eqn:El; simpl; [|discriminate].
  by rewrite (IH r' eq_refl).
Qed.

Lemma is_ok_rbind {A B} (c : result A) (k : A -> result B) :
  is_ok c = true -> (forall a, is_ok (k a) = true) -> is_ok (rbind c k) = true.
Proof. destruct c; simpl; auto. Qed.

Lemma is_ok_true {A} (c : result A) : is_ok c = true -> exists a, c = Ok a.
Proof. destruct c; simpl; [eauto|discriminate]. Qed.

(** [mapR] of a function that always succeeds is [map]. *)
Lemma mapR_Ok_map {A B} (f : A -> B) l :
  mapR (fun x => Ok (f x)) l = Ok (map f l).
Proof. induction l as [|x l IH]; simpl; [done|]. by rewrite IH. Qed.

#[export] Hint Rewrite @mapR_map @mapR_Ok_map : heroes.

Lemma Forall_list_filter {A} (P : A -> Prop) (f : A -> bool) l :
  Forall P l -> Forall P (List.filter f l).
Proof.
  induction 1 as [|x l Hx _ IH]; simpl; [constructor|].
  destruct (f x); [by constructor|done].
Qed.

Lemma Forall_list_filter_iff {A} (P : A -> Prop) (f : A -> bool) l :
  Forall P (List.filter f l) <-> Forall (fun x => f x = true -> P x) l.
Proof.
  induction l as [|x l IH]; simpl; [split; constructor|].
  destruct (f x) eqn:E; split; intros H.
  - inversion H; subst. constructor; [auto|by apply IH].
  - inversion H; subst. constructor; [auto|by apply IH].
  - constructor; [congruence|by apply IH].
  - inversion H; subst. by apply IH.
Qed.

(** Keeping the elements a filter removed leaves nothing. *)
Lemma filter_negb_filter {A} (f : A -> bool) l :
  List.filter f (List.filter (fun x => negb (f x)) l) = [].
Proof.
  induction l as [|x l IH]; simpl; [done|].
  destruct (f x) eqn:E; simpl; [done|]. by rewrite E.
Qed.

#[export] Hint Resolve Forall_list_filter : heroes.


Lemma list_maxZ_In l m : list_maxZ l = Some m -> In m l.
Proof.
  revert m; induction l as [|x l IH]; simpl; intros m H; [discriminate|].
  destruct (list_maxZ l) as [m'|]; injection H as <-; [|by left].
  destruct (Z.max_spec x m') as [[_ ->]|[_ ->]]; [right; auto|by left].
Qed.

Lemma list_maxZ_ge l m : list_maxZ l = Some m -> Forall (fun x => x <= m)%Z l.
Proof.
  revert m; induction l as [|x l IH]; simpl; intros m H; [discriminate|].
  destruct (list_maxZ l) as [m'|] eqn:E; inversion H; subst.
  - constructor; [lia|]. eapply Forall_impl; [apply IH; reflexivity|]. simpl; lia.
  - destruct l; [constructor; [lia|constructor]|]. simpl in E.
    destruct (list_maxZ l); discriminate.
Qed.

Lemma list_maxZ_None l : list_maxZ l = None <-> l = [].
Proof.
  split; [|intros ->; done].
  destruct l as [|x l]; simpl; [done|]. destruct (list_maxZ l); discriminate.
Qed.

(** ** Tactics *)

(** Peel the binds of a successful computation in hypothesis [H]. *)
Ltac peel H :=
  repeat match type of H with
         | rbind _ _ = Ok _ =>
             let a := fresh "a" in let Ha := fresh "Ha" in
             apply rbind_eq_Ok in H as [a [Ha H]]
         | (let (_, _) := ?p in _) = Ok _ => destruct p
         | Ok _ = Ok _ => injection H as <- <-
         end.

(** Split a hypothesis [In x [a; b; ...]] into one goal per element. *)
Ltac destruct_In H :=
  simpl in H; repeat (destruct H as [<-|H]); try contradiction.

(** Simplify the exception monad with the database [heroes]. *)
Ltac py_simp := repeat (simpl; autorewrite with heroes in *).
