(* ===== verification/Json.v ===== *)
(** * JSON values and the Python operations the handlers apply to them

    A request body is a [body]: JSON that parses, JSON that does not, or
    another mimetype; [request_json] is Werkzeug's [request.json], which
    decodes the first and raises an HTTP error for the others.  The
    decoded value is a [json]: Flask decodes the body with the
    [json] module, so an object is a Python [dict], an array a [list], a
    string a [str], [true]/[false] a [bool], [null] [None].  Numbers are
    modelled as integers ([int]); floats are not modelled.  Strings are
    Rocq strings, one [ascii] per Python code point (the model covers
    ASCII text; [len] counts characters).

    The Python operations the handlers perform on these values are
    defined with the exception CPython raises on every type:
    [py_truthy] ([not x]), [py_len] ([len(x)]), [py_contains]
    ([k in x]), [py_getitem] ([x[k]]) and [py_in_strs] ([x in list]). *)

From Stdlib Require Import String Ascii ZArith Lia.
From stdpp Require Import base list strings.
From S2P Require Import Prelude.

Open Scope string_scope.

#[local] Set Warnings "-register-all".
Inductive json : Type :=
| JNull
| JBool (b : bool)
| JInt (z : Z)
| JStr (s : string)
| JArr (items : list json)
| JObj (fields : list (string * json)).

(** [bool(x)]: [None], [False], [0], [""], [[]] and [{}] are falsy. *)
Definition py_truthy (v : json) : bool :=
  match v with
  | JNull => false
  | JBool b => b
  | JInt z => negb (Z.eqb z 0)
  | JStr s => negb (String.eqb s "")
  | JArr l => negb (bool_decide (l = []))
  | JObj l => negb (bool_decide (l = []))
  end.

(** The keys of a decoded object: the decoder keeps one entry per key. *)
Definition obj_keys (kvs : list (string * json)) : list string :=
  remove_dups (map fst kvs).

(** [d[k]] on a decoded object: a duplicated key keeps its last value. *)
Fixpoint obj_lookup (k : string) (kvs : list (string * json)) : option json :=
  match kvs with
  | [] => None
  | (k', v) :: kvs' =>
      match obj_lookup k kvs' with
      | Some v' => Some v'
      | None => if String.eqb k k' then Some v else None
      end
  end.

(** [len(x)]. *)
Definition py_len (v : json) : result nat :=
  match v with
  | JStr s => Ok (String.length s)
  | JArr l => Ok (length l)
  | JObj kvs => Ok (length (obj_keys kvs))
  | JNull => Raise (TypeError "object of type 'NoneType' has no len()")
  | JBool _ => Raise (TypeError "object of type 'bool' has no len()")
  | JInt _ => Raise (TypeError "object of type 'int' has no len()")
  end.

(** [p] occurs in [s] as a contiguous substring ([p in s] on [str]). *)
Fixpoint is_substring (p s : string) : bool :=
  String.prefix p s ||
  match s with
  | EmptyString => false
  | String _ s' => is_substring p s'
  end.

(** [v == k] for a string [k]: only a [str] equal to [k] compares equal. *)
Definition py_eq_str (v : json) (k : string) : bool :=
  match v with
  | JStr s => String.eqb s k
  | _ => false
  end.

(** [k in x] for a string [k]. *)
Definition py_contains (k : string) (x : json) : result bool :=
  match x with
  | JObj kvs => Ok (existsb (String.eqb k) (map fst kvs))
  | JArr l => Ok (existsb (fun v => py_eq_str v k) l)
  | JStr s => Ok (is_substring k s)
  | JNull => Raise (TypeError "argument of type 'NoneType' is not iterable")
  | JBool _ => Raise (TypeError "argument of type 'bool' is not iterable")
  | JInt _ => Raise (TypeError "argument of type 'int' is not iterable")
  end.

(** [x[k]] for a string [k]. *)
Definition py_getitem (x : json) (k : string) : result json :=
  match x with
  | JObj kvs =>
      match obj_lookup k kvs with
      | Some v => Ok v
      | None => Raise (KeyError k)
      end
  | JArr _ => Raise (TypeError "list indices must be integers or slices, not str")
  | JStr _ => Raise (TypeError "string indices must be integers")
  | JNull => Raise (TypeError "'NoneType' object is not subscriptable")
  | JBool _ => Raise (TypeError "'bool' object is not subscriptable")
  | JInt _ => Raise (TypeError "'int' object is not subscriptable")
  end.

(** [x in l] for a list [l] of [str] literals. *)
Definition py_in_strs (x : json) (l : list string) : bool :=
  existsb (py_eq_str x) l.

(** The body of a request as Werkzeug sees it. *)
Inductive body : Type :=
| BodyJson (j : json)   (** a JSON mimetype and a body that parses *)
| BodyBadJson           (** a JSON mimetype and a body that does not parse *)
| BodyNotJson.          (** another mimetype, or none *)

(** [request.json], Werkzeug's [Request.get_json()]: a body that does not
    parse is a [400 Bad Request]; a request whose mimetype is not JSON is
    a [415 Unsupported Media Type] (Werkzeug 2.3 and later). *)
Definition request_json (b : body) : result json :=
  match b with
  | BodyJson j => Ok j
  | BodyBadJson => Raise (HTTPException 400 "Bad Request")
  | BodyNotJson => Raise (HTTPException 415 "Unsupported Media Type")
  end.

(** ** Lemmas *)

Lemma obj_lookup_Some_key k kvs v :
  obj_lookup k kvs = Some v -> In k (map fst kvs).
Proof.
  induction kvs as [|[k' v'] kvs IH]; simpl; [discriminate|].
  destruct (obj_lookup k kvs) eqn:E; intros H.
  - right; eauto.
  - destruct (String.eqb_spec k k'); [left; congruence|discriminate].
Qed.

Lemma obj_lookup_key_Some k kvs :
  In k (map fst kvs) -> exists v, obj_lookup k kvs = Some v.
Proof.
  induction kvs as [|[k' v'] kvs IH]; simpl; [done|].
  destruct (obj_lookup k kvs) eqn:E; [eauto|].
  intros [<-|Hin]; [rewrite String.eqb_refl; eauto|].
  destruct (IH Hin); discriminate.
Qed.

Lemma py_len_raise v e : py_len v = Raise e -> exists m, e = TypeError m.
Proof. destruct v; simpl; intros H; inversion H; eauto. Qed.

Lemma py_contains_lookup k kvs v :
  obj_lookup k kvs = Some v -> py_contains k (JObj kvs) = Ok true.
Proof.
  intros H. apply obj_lookup_Some_key in H. simpl. f_equal.
  apply existsb_exists. exists k. split; [done|apply String.eqb_refl].
Qed.

Lemma py_contains_lookup_None k kvs :
  obj_lookup k kvs = None -> py_contains k (JObj kvs) = Ok false.
Proof.
  intros H. simpl. f_equal. apply not_true_is_false. intros (k' & Hin & Heq)%existsb_exists.
  apply String.eqb_eq in Heq as <-. destruct (obj_lookup_key_Some _ _ Hin). congruence.
Qed.

Lemma py_getitem_lookup k kvs v :
  obj_lookup k kvs = Some v -> py_getitem (JObj kvs) k = Ok v.
Proof. simpl. by intros ->. Qed.

Lemma py_getitem_missing k kvs :
  obj_lookup k kvs = None -> py_getitem (JObj kvs) k = Raise (KeyError k).
Proof. simpl. by intros ->. Qed.

Lemma py_getitem_Ok x k v :
  py_getitem x k = Ok v -> exists kvs, x = JObj kvs /\ obj_lookup k kvs = Some v.
Proof.
  destruct x as [| | | | |kvs]; simpl; try discriminate.
  destruct (obj_lookup k kvs) eqn:E; intros H; inversion H; subst; eauto.
Qed.

#[export] Hint Rewrite py_contains_lookup py_contains_lookup_None py_getitem_lookup py_getitem_missing
  using assumption : heroes.

Lemma py_in_strs_iff x l : py_in_strs x l = true <-> exists s, x = JStr s /\ In s l.
Proof.
  unfold py_in_strs; rewrite existsb_exists; split.
  - intros [s [Hin Heq]]. destruct x; try discriminate.
    apply String.eqb_eq in Heq; subst; eauto.
  - intros [s [-> Hin]]. exists s; split; [done|]. apply String.eqb_refl.
Qed.
