(* ===== verification/Rules.v ===== *)
(** * Serialization rules of [SerializerMixin]

    A rule is a string of the class attribute [serialize_rules] or of the
    [rules=] argument of [to_dict]: ["-hero_powers.hero"] excludes the
    key [hero] reached through [hero_powers]; a rule without the leading
    ["-"] extends the output.  [only=] names the keys to emit.  This file
    holds the parser and printer of rule strings (the dotted path is
    split on ["."]), the schema a serialization carries ([only] paths and
    rules), the test whether a key is emitted, and [fork], the schema
    passed to the value of a nested key.  The serializer is the library
    [sqlalchemy_serializer], outside the repository: these definitions
    follow the specification (section 4.3). *)

From Stdlib Require Import String Ascii List Lia.
From stdpp Require Import base list strings.
From S2P Require Import Prelude.

Open Scope string_scope.

Definition path := list string.

Inductive rule : Type :=
| Exclude (p : path)
| Extend (p : path).

(** [s.split(".")]. *)
Fixpoint split_dot (s : string) : list string :=
  match s with
  | EmptyString => [""]
  | String c s' =>
      let ws := split_dot s' in
      if Ascii.eqb c "." then "" :: ws
      else match ws with
           | [] => [String c EmptyString]
           | w :: ws' => String c w :: ws'
           end
  end.

(** [".".join(ws)]. *)
Fixpoint join_dot (ws : list string) : string :=
  match ws with
  | [] => ""
  | [w] => w
  | w :: ws' => w ++ String "." (join_dot ws')
  end.

Definition parse_rule (s : string) : rule :=
  match s with
  | String "-" s' => Exclude (split_dot s')
  | _ => Extend (split_dot s)
  end.

Definition print_rule (r : rule) : string :=
  match r with
  | Exclude p => String "-" (join_dot p)
  | Extend p => join_dot p
  end.

(** The schema of one [to_dict] call at one node of the output. *)
Record schema : Type := mk_schema {
  sc_only : list path;
  sc_rules : list rule
}.

Definition strict (sc : schema) : bool := negb (bool_decide (sc_only sc = [])).

(** Key [k] is excluded by a rule ["-k"] of the schema. *)
Definition excluded (sc : schema) (k : string) : bool :=
  existsb (fun r => match r with
                    | Exclude [k'] => String.eqb k k'
                    | _ => false
                    end) (sc_rules sc).

(** Key [k] heads a path of [only]. *)
Definition only_has (sc : schema) (k : string) : bool :=
  existsb (fun p => match p with
                    | k' :: _ => String.eqb k k'
                    | [] => false
                    end) (sc_only sc).

(** Key [k] is emitted: not excluded, and listed in [only] in strict mode. *)
Definition is_included (sc : schema) (k : string) : bool :=
  negb (excluded sc k) && (if strict sc then only_has sc k else true).

(** The rest of path [p] below key [k], when [p] goes through [k]. *)
Definition fork_path (k : string) (p : path) : option path :=
  match p with
  | k' :: (_ :: _) as rest => if String.eqb k k' then Some rest else None
  | _ => None
  end.

Definition fork_rule (k : string) (r : rule) : option rule :=
  match r with
  | Exclude p => Exclude <$> fork_path k p
  | Extend p => Extend <$> fork_path k p
  end.

(** The schema of the value of key [k]. *)
Definition fork (sc : schema) (k : string) : schema :=
  {| sc_only := omap (fork_path k) (sc_only sc);
     sc_rules := omap (fork_rule k) (sc_rules sc) |}.

(** The schema after a model's own [serialize_rules] are added. *)
Definition merge (sc : schema) (rs : list string) : schema :=
  {| sc_only := sc_only sc; sc_rules := sc_rules sc ++ map parse_rule rs |}.

(** The schema of [to_dict(only=only, rules=rules)]. *)
Definition schema_of (only rules : list string) : schema :=
  {| sc_only := map split_dot only; sc_rules := map parse_rule rules |}.

(** A key of a dotted path contains no dot. *)
Definition dot_free (w : string) : Prop := ~ In "."%char (list_ascii_of_string w).

(** A rule as the program writes it: a non-empty dotted path of
    dot-free keys, and an extending rule whose path does not start
    with ["-"]. *)
Definition rule_wf (r : rule) : Prop :=
  match r with
  | Exclude p => p <> [] /\ Forall dot_free p
  | Extend p => p <> [] /\ Forall dot_free p /\
               match join_dot p with String "-" _ => False | _ => True end
  end.

(** ** Lemmas *)


Lemma split_dot_nonempty s : split_dot s <> [].
Proof.
  induction s as [|c s IH]; simpl; [done|].
  destruct (Ascii.eqb c "."); [done|]. destruct (split_dot s); done.
Qed.

Lemma split_dot_dot_free w : dot_free w -> split_dot w = [w].
Proof.
  unfold dot_free; induction w as [|c w IH]; simpl; intros H; [done|].
  destruct (Ascii.eqb_spec c "."); [exfalso; auto|].
  rewrite IH by auto. done.
Qed.

Lemma split_dot_app w s :
  dot_free w -> split_dot (w ++ String "." s) = w :: split_dot s.
Proof.
  unfold dot_free; induction w as [|c w IH]; simpl; intros H; [done|].
  destruct (Ascii.eqb_spec c "."); [exfalso; auto|].
  rewrite IH by auto. done.
Qed.

Lemma join_dot_cons_char c w ws :
  join_dot (String c w :: ws) = String c (join_dot (w :: ws)).
Proof. destruct ws; done. Qed.

#[export] Hint Resolve split_dot_nonempty : heroes.

Lemma join_split_dot s : join_dot (split_dot s) = s.
Proof.
  induction s as [|c s IH]; simpl; [done|].
  destruct (Ascii.eqb_spec c "."); subst.
  - destruct (split_dot s) eqn:E; [by destruct (split_dot_nonempty s)|].
    simpl; by rewrite <- IH.
  - destruct (split_dot s) as [|w ws] eqn:E; [by destruct (split_dot_nonempty s)|].
    by rewrite join_dot_cons_char, IH.
Qed.

Lemma split_join_dot ws :
  ws <> [] -> Forall dot_free ws -> split_dot (join_dot ws) = ws.
Proof.
  induction ws as [|w ws IH]; intros Hne Hf; [done|].
  inversion Hf as [|? ? Hw Hws]; subst.
  destruct ws as [|w' ws'].
  - by apply split_dot_dot_free.
  - change (join_dot (w :: w' :: ws')) with (w ++ String "." (join_dot (w' :: ws'))).
    rewrite split_dot_app by done. by rewrite IH.
Qed.


(** Printing a parsed rule string gives back the string, for every
    string: the parser loses nothing of a rule. *)
Theorem print_parse_rule s : print_rule (parse_rule s) = s.
Proof.
  destruct s as [|c s]; [done|].
  unfold parse_rule.
  destruct (Ascii.eqb_spec c "-"); [subst; simpl; by rewrite join_split_dot|].
  assert (print_rule (Extend (split_dot (String c s))) = String c s)
    by exact (join_split_dot (String c s)).
  destruct c as [[] [] [] [] [] [] [] []]; try exact H; exfalso; apply n; reflexivity.
Qed.

(** Parsing the printed form of a well-formed rule (a non-empty dotted
    path of dot-free keys) gives back the rule. *)
Theorem parse_print_rule r : rule_wf r -> parse_rule (print_rule r) = r.
Proof.
  destruct r as [p|p]; simpl.
  - intros [Hne Hf]. by rewrite split_join_dot.
  - intros (Hne & Hf & Hd).
    assert (parse_rule (join_dot p) = Extend (split_dot (join_dot p))) as ->.
    { destruct (join_dot p) as [|c s]; [reflexivity|].
      destruct c as [[] [] [] [] [] [] [] []]; try reflexivity; contradiction. }
    by rewrite split_join_dot.
Qed.

Lemma excluded_merge_l sc rs k : excluded sc k = true -> excluded (merge sc rs) k = true.
Proof. unfold excluded, merge; simpl. rewrite existsb_app. by intros ->. Qed.

(** A class rule ["-k.k'"] excludes [k'] below [k], whatever the caller's
    schema. *)
Lemma excluded_fork_merge sc rs k k' :
  In (Exclude [k; k']) (map parse_rule rs) -> excluded (fork (merge sc rs) k) k' = true.
Proof.
  intros Hin. unfold excluded, fork, merge; simpl.
  apply existsb_exists. exists (Exclude [k']). split; [|apply String.eqb_refl].
  apply list_elem_of_In, list_elem_of_omap. exists (Exclude [k; k']).
  split; [apply list_elem_of_In, in_or_app; by right|].
  simpl. by rewrite String.eqb_refl.
Qed.
