(* ===== verification/Tables.v ===== *)
(** * SQLite tables through the SQLAlchemy session

    A table is the list of its rows in rowid order (the order in which
    [Model.query.all()] returns them from SQLite, which scans the table by
    rowid).  The typeclass [Row] gives the primary key of a row type; the
    three model classes are its instances (file [Models]).  Operations:

    - [query_get]: the row with a key or [None], what [Model.query.get(id)]
      returns once the id is bound ([Models.session_get]; [in_int64] is
      the signed 64-bit range the binding accepts);
    - [next_rowid]: the key SQLite gives an [INTEGER PRIMARY KEY] row
      inserted without one: one more than the largest key, [1] in an empty
      table (the tables are declared without [AUTOINCREMENT]);
    - [table_insert]: [session.add(row)] then [commit], the row at the end;
    - [delete_where]: the rows a cascade or a [session.delete] removes;
    - [update_row]: an attribute assignment on a loaded row, committed.

    The abstract specification of a table is a finite map from keys to
    rows ([to_map], a stdpp [gmap]); the refinement lemmas show that each
    list operation implements the corresponding map operation, and
    [rowid_choice_fresh], [next_rowid_choice] relate [next_rowid] to
    SQLite's documented rule [rowid_choice].
    [ids_wf] is the table invariant: keys positive and strictly
    increasing along the list. *)

From Stdlib Require Import ZArith List Lia Sorted.
From stdpp Require Import base list gmap.
From S2P Require Import Prelude.

(** The largest rowid, [2^63 - 1]: SQLite keys are signed 64-bit. *)
Definition max_rowid : Z := 9223372036854775807.

(** The smallest signed 64-bit integer, [-2^63]. *)
Definition min_int64 : Z := -9223372036854775808.

(** The Python [int]s a SQLite [INTEGER] holds: the range the [sqlite3]
    module accepts when it binds a parameter. *)
Definition in_int64 (z : Z) : Prop := (min_int64 <= z <= max_rowid)%Z.

#[export] Instance in_int64_dec z : Decision (in_int64 z).
Proof. unfold in_int64. apply _. Defined.

Class Row (R : Type) := row_id : R -> Z.

Section Table.
Context {R : Type} `{Row R}.
Implicit Types (t : list R) (r : R).

Definition query_get t (id : Z) : option R :=
  find (fun r => Z.eqb (row_id r) id) t.

Definition next_rowid t : Z :=
  match list_maxZ (map row_id t) with
  | None => 1
  | Some m => m + 1
  end%Z.

Definition table_insert t r : list R := t ++ [r].

Definition delete_where (p : R -> bool) t : list R :=
  List.filter (fun r => negb (p r)) t.

(** [session.delete(row)] for the row with key [id]. *)
Definition delete_id t (id : Z) : list R :=
  delete_where (fun r => Z.eqb (row_id r) id) t.

Definition update_row (id : Z) (f : R -> R) t : list R :=
  map (fun r => if Z.eqb (row_id r) id then f r else r) t.

Definition ids_wf t : Prop :=
  StronglySorted (fun a b => row_id a < row_id b)%Z t /\
  Forall (fun r => 1 <= row_id r)%Z t.

(** [ids_wf] as a boolean test. *)
Fixpoint sorted_ids (ids : list Z) : bool :=
  match ids with
  | [] => true
  | x :: l => forallb (fun y => Z.ltb x y) l && sorted_ids l
  end.

Definition ids_wfb t : bool :=
  sorted_ids (map row_id t) && forallb (fun r => Z.leb 1 (row_id r)) t.

(** The abstract table: a map from primary keys to rows. *)
Definition to_map t : gmap Z R :=
  list_to_map (map (fun r => (row_id r, r)) t).

(** The keys SQLite may give a new row (section "ROWIDs and the INTEGER
    PRIMARY KEY" of its documentation): one more than the largest key,
    [1] in an empty table, and, once the largest key is [max_rowid], any
    unused positive key (chosen at random). *)
Definition rowid_choice t (id : Z) : Prop :=
  match list_maxZ (map row_id t) with
  | None => id = 1%Z
  | Some m =>
      if Z.ltb m max_rowid then id = (m + 1)%Z
      else (1 <= id <= max_rowid)%Z /\ query_get t id = None
  end.

(** ** Lemmas on the concrete table *)

Lemma ids_wfb_sound t : ids_wfb t = true -> ids_wf t.
Proof.
  unfold ids_wfb. intros [Hs Hp]%andb_prop. split.
  - clear Hp. induction t as [|r t IH]; simpl in *; [constructor|].
    apply andb_prop in Hs as [Hall Hs]. constructor; [by apply IH|].
    rewrite forallb_forall in Hall. apply List.Forall_forall. intros x Hx.
    apply Z.ltb_lt, Hall, in_map, Hx.
  - rewrite forallb_forall in Hp. apply List.Forall_forall. intros x Hx.
    by apply Z.leb_le, Hp.
Qed.

Lemma query_get_Some t id r :
  query_get t id = Some r -> In r t /\ row_id r = id.
Proof.
  unfold query_get; intros Hf. apply find_some in Hf as [Hin Heq].
  split; [done|]. by apply Z.eqb_eq.
Qed.

Lemma query_get_not_in t id :
  Forall (fun r => row_id r <> id) t -> query_get t id = None.
Proof.
  unfold query_get; induction 1 as [|r t Hr _ IH]; simpl; [done|].
  destruct (Z.eqb_spec (row_id r) id); [contradiction|done].
Qed.

Lemma next_rowid_gt t : Forall (fun r => row_id r < next_rowid t)%Z t.
Proof.
  unfold next_rowid. destruct (list_maxZ (map row_id t)) as [m|] eqn:E.
  - apply list_maxZ_ge in E. rewrite (List.Forall_map row_id (fun x => (x <= m)%Z)) in E.
    eapply Forall_impl; [exact E|]. simpl; lia.
  - apply list_maxZ_None in E. destruct t; [constructor|discriminate].
Qed.

Lemma next_rowid_fresh t : query_get t (next_rowid t) = None.
Proof.
  apply query_get_not_in. eapply Forall_impl; [apply next_rowid_gt|]. simpl; lia.
Qed.

Lemma next_rowid_pos t : ids_wf t -> (1 <= next_rowid t)%Z.
Proof.
  intros [_ Hpos]. unfold next_rowid.
  destruct (list_maxZ (map row_id t)) as [m|] eqn:E; [|lia].
  destruct t as [|r t]; [discriminate|].
  apply list_maxZ_ge in E. inversion E; inversion Hpos; lia.
Qed.

Lemma StronglySorted_filter (P : R -> R -> Prop) (f : R -> bool) t :
  StronglySorted P t -> StronglySorted P (List.filter f t).
Proof.
  induction 1 as [|r t _ IH Hall]; simpl; [constructor|].
  destruct (f r); [|done]. constructor; [done|].
  apply List.Forall_forall; intros x Hx. apply (proj1 (List.Forall_forall _ _) Hall).
  by apply filter_In in Hx as [Hx _].
Qed.

Lemma StronglySorted_snoc (P : R -> R -> Prop) t r :
  StronglySorted P t -> Forall (fun x => P x r) t -> StronglySorted P (t ++ [r]).
Proof.
  induction 1 as [|x t _ IH Hall]; simpl; intros Hr.
  - repeat constructor.
  - inversion Hr; subst. constructor; [by apply IH|].
    apply Forall_app; split; [done|by constructor].
Qed.

Lemma ids_wf_insert t r :
  ids_wf t -> row_id r = next_rowid t -> ids_wf (table_insert t r).
Proof.
  intros [Hs Hpos] Hid. pose proof (next_rowid_pos t (conj Hs Hpos)).
  split.
  - apply StronglySorted_snoc; [done|]. rewrite Hid. apply next_rowid_gt.
  - apply Forall_app; split; [done|]. constructor; [lia|constructor].
Qed.

Lemma ids_wf_delete p t : ids_wf t -> ids_wf (delete_where p t).
Proof.
  intros [Hs Hpos]. split; [by apply StronglySorted_filter|].
  by apply Forall_list_filter.
Qed.

Lemma ids_wf_update id f t :
  (forall r, row_id (f r) = row_id r) -> ids_wf t -> ids_wf (update_row id f t).
Proof.
  intros Hf [Hs Hpos]. unfold update_row. split; [clear Hpos|clear Hs].
  - induction Hs as [|r t _ IH Hall]; simpl; [constructor|]. constructor; [done|].
    apply List.Forall_map. eapply Forall_impl; [exact Hall|]. intros x Hx.
    destruct (Z.eqb (row_id r) id), (Z.eqb (row_id x) id); rewrite ?Hf; done.
  - apply List.Forall_map. eapply Forall_impl; [exact Hpos|]. intros x Hx.
    destruct (Z.eqb (row_id x) id); rewrite ?Hf; done.
Qed.

(** Under the invariant, a row is found by its own key. *)
Lemma query_get_In t r : ids_wf t -> In r t -> query_get t (row_id r) = Some r.
Proof.
  intros [Hs _]. unfold query_get.
  induction Hs as [|x t _ IH Hall]; simpl; [done|]. intros [->|Hin].
  - by rewrite Z.eqb_refl.
  - pose proof (proj1 (List.Forall_forall _ _) Hall r Hin) as Hlt; simpl in Hlt.
    destruct (Z.eqb_spec (row_id x) (row_id r)); [lia|]. auto.
Qed.

(** ** Refinement: the list operations implement the map operations *)

Lemma to_map_lookup t id : to_map t !! id = query_get t id.
Proof.
  unfold to_map, query_get. induction t as [|r t IH]; simpl; [done|].
  destruct (Z.eqb_spec (row_id r) id) as [<-|Hne].
  - apply lookup_insert_eq.
  - by rewrite lookup_insert_ne.
Qed.

Lemma query_get_app t t' id :
  query_get (t ++ t') id =
  match query_get t id with Some r => Some r | None => query_get t' id end.
Proof.
  unfold query_get. induction t as [|r t IH]; simpl; [done|].
  by destruct (Z.eqb (row_id r) id).
Qed.

Lemma query_get_delete_id t id k :
  query_get (delete_id t id) k = if Z.eqb k id then None else query_get t k.
Proof.
  unfold query_get, delete_id, delete_where.
  induction t as [|r t IH]; simpl; [by destruct (Z.eqb k id)|].
  destruct (Z.eqb_spec (row_id r) id) as [Hr|Hr]; simpl.
  - rewrite IH. destruct (Z.eqb_spec k id); [done|].
    destruct (Z.eqb_spec (row_id r) k); [lia|done].
  - destruct (Z.eqb_spec (row_id r) k) as [<-|]; [|done].
    destruct (Z.eqb_spec (row_id r) id); [lia|done].
Qed.

Lemma query_get_insert t r k :
  query_get (table_insert t r) k =
  match query_get t k with
  | Some r' => Some r'
  | None => if Z.eqb (row_id r) k then Some r else None
  end.
Proof. unfold table_insert. rewrite query_get_app. done. Qed.

Lemma query_get_update id f t k :
  (forall r, row_id (f r) = row_id r) ->
  query_get (update_row id f t) k =
  if Z.eqb k id then f <$> query_get t k else query_get t k.
Proof.
  intros Hf. unfold query_get, update_row.
  induction t as [|r t IH]; simpl; [by destruct (Z.eqb k id)|].
  destruct (Z.eqb_spec (row_id r) id) as [Hr|Hr]; simpl; rewrite ?Hf.
  - destruct (Z.eqb_spec (row_id r) k), (Z.eqb_spec k id); try lia; done.
  - destruct (Z.eqb_spec (row_id r) k), (Z.eqb_spec k id); try lia; done.
Qed.

(** Inserting a row with a fresh key refines [<[key := row]>]. *)
Lemma to_map_insert t r :
  query_get t (row_id r) = None ->
  to_map (table_insert t r) = <[row_id r := r]> (to_map t).
Proof.
  intros Hfresh. apply map_eq; intros k.
  rewrite to_map_lookup, query_get_insert.
  destruct (Z.eqb_spec (row_id r) k) as [<-|Hne].
  - by rewrite Hfresh, lookup_insert_eq.
  - rewrite lookup_insert_ne by done. rewrite to_map_lookup.
    by destruct (query_get t k).
Qed.

(** Deleting by key refines [delete key]. *)
Lemma to_map_delete t id : to_map (delete_id t id) = delete id (to_map t).
Proof.
  apply map_eq; intros k. rewrite to_map_lookup, query_get_delete_id.
  destruct (Z.eqb_spec k id) as [->|Hne].
  - by rewrite lookup_delete_eq.
  - by rewrite lookup_delete_ne, to_map_lookup.
Qed.

(** Updating a row in place refines [alter]. *)
Lemma to_map_update id f t :
  (forall r, row_id (f r) = row_id r) ->
  to_map (update_row id f t) = alter f id (to_map t).
Proof.
  intros Hf. apply map_eq; intros k.
  rewrite to_map_lookup, query_get_update by done.
  destruct (Z.eqb_spec k id) as [->|Hne].
  - by rewrite lookup_alter_eq, to_map_lookup.
  - by rewrite lookup_alter_ne, to_map_lookup.
Qed.

Lemma Forall_update_row (P : R -> Prop) id f t :
  Forall P t -> (forall r, P (f r)) -> Forall P (update_row id f t).
Proof.
  intros Ht Hf. apply List.Forall_map. eapply Forall_impl; [exact Ht|].
  intros r Hr. by destruct (Z.eqb (row_id r) id).
Qed.

Lemma Forall_delete_where (P : R -> Prop) p t :
  Forall P t -> Forall P (delete_where p t).
Proof. apply Forall_list_filter. Qed.

Lemma Forall_delete_id (P : R -> Prop) t id : Forall P t -> Forall P (delete_id t id).
Proof. apply Forall_list_filter. Qed.

Lemma ids_wf_delete_id t id : ids_wf t -> ids_wf (delete_id t id).
Proof. apply ids_wf_delete. Qed.
Lemma rowid_choice_fresh t id :
  Forall (fun r => 1 <= row_id r <= max_rowid)%Z t -> rowid_choice t id ->
  (1 <= id <= max_rowid)%Z /\ query_get t id = None.
Proof.
  intros Hb. unfold rowid_choice.
  destruct (list_maxZ (map row_id t)) as [m|] eqn:E.
  - destruct (Z.ltb_spec m max_rowid) as [Hlt|_]; [intros ->|done].
    apply list_maxZ_In in E as Hin. apply list_maxZ_ge in E.
    apply in_map_iff in Hin as (r & <- & Hr).
    pose proof (proj1 (List.Forall_forall _ _) Hb r Hr). cbn beta in *. split; [lia|].
    apply query_get_not_in. apply List.Forall_forall. intros x Hx.
    rewrite (List.Forall_map row_id (fun z => z <= row_id r)%Z) in E.
    pose proof (proj1 (List.Forall_forall _ _) E x Hx). simpl in *. lia.
  - apply list_maxZ_None, map_eq_nil in E as ->. intros ->. split; [|done]. unfold max_rowid; lia.
Qed.

Lemma next_rowid_choice t :
  Forall (fun r => row_id r < max_rowid)%Z t -> rowid_choice t (next_rowid t).
Proof.
  intros Hb. unfold rowid_choice, next_rowid.
  destruct (list_maxZ (map row_id t)) as [m|] eqn:E; [|done].
  apply list_maxZ_In, in_map_iff in E as (r & <- & Hr).
  pose proof (proj1 (List.Forall_forall _ _) Hb r Hr). simpl in *.
  destruct (Z.ltb_spec (row_id r) max_rowid); [done|lia].
Qed.
End Table.

#[export] Hint Resolve next_rowid_fresh ids_wf_insert ids_wf_delete ids_wf_delete_id
  Forall_delete_where Forall_delete_id : heroes.

Section TableClaims.
Context {R : Type} `{Row R}.
Implicit Types (t : list R) (r : R).

Lemma delete_id_absent t id :
  Forall (fun r => row_id r <> id) t -> delete_id t id = t.
Proof.
  unfold delete_id, delete_where.
  induction 1 as [|r t Hr _ IH]; simpl; [done|].
  destruct (Z.eqb_spec (row_id r) id); [contradiction|]. simpl. by rewrite IH.
Qed.

(** C23: the key SQLite gives a new row is free among the live rows, but
    keys are not monotonic over time: when the newest row is deleted,
    the next insert gets the deleted row's key again. *)
Theorem rowid_fresh_not_monotonic t r :
  row_id r = next_rowid t ->
  query_get t (row_id r) = None /\
  next_rowid (delete_id (table_insert t r) (row_id r)) = row_id r.
Proof.
  intros Hid. rewrite Hid. split; [apply next_rowid_fresh|].
  unfold delete_id, delete_where, table_insert. rewrite List.filter_app.
  fold (delete_where (fun x => Z.eqb (row_id x) (next_rowid t)) t).
  fold (delete_id t (next_rowid t)).
  rewrite delete_id_absent.
  - simpl. rewrite Hid, Z.eqb_refl. simpl. by rewrite app_nil_r.
  - eapply Forall_impl; [apply next_rowid_gt|]. simpl; lia.
Qed.

End TableClaims.
