(* ===== verification/Models.v ===== *)
(** * The model classes of [models.py] and the store

    [Hero], [Power] and [HeroPower] are the three [db.Model] classes; each
    Module holds the record of a row (its [db.Column]s, [String] columns
    nullable as [option string]) and the class attribute
    [serialize_rules].  The store [db] holds the three tables.  The
    relationships are functions of the store: [Hero_hero_powers] and
    [Power_hero_powers] (the [db.relationship] collections, the rows of
    [hero_powers] whose foreign key is the row's id), [HeroPower_hero] and
    [HeroPower_power] (the scalar side), and the association proxies
    [Hero_powers], [Power_heroes].  The validators are the [@validates]
    methods; [bind_string] and [bind_int_ref] are what the DB-API does
    with the validated Python value when the row is flushed, and
    [bind_int] the signed 64-bit conversion of an [int] parameter, which
    [session_get] ([Model.query.get]) also goes through.  The
    cascades [cascade="all, delete-orphan"] are [delete_hero] and
    [delete_power].  [db_wf] is the store invariant. *)

From Stdlib Require Import String ZArith List Lia.
From stdpp Require Import base list strings.
From S2P Require Import Prelude Json Tables.

Open Scope string_scope.

Module Hero.
Record t : Type := mk {
  id : Z;
  name : option string;
  super_name : option string
}.
Definition serialize_rules : list string := ["-hero_powers.hero"].
End Hero.

Module Power.
Record t : Type := mk {
  id : Z;
  name : option string;
  description : option string
}.
Definition serialize_rules : list string := ["-hero_powers.power"].
End Power.

Module HeroPower.
Record t : Type := mk {
  id : Z;
  strength : string;
  hero_id : option Z;
  power_id : option Z
}.
Definition serialize_rules : list string :=
  ["-hero.hero_powers"; "-power.hero_powers"].
End HeroPower.

#[export] Instance Hero_row : Row Hero.t := Hero.id.
#[export] Instance Power_row : Row Power.t := Power.id.
#[export] Instance HeroPower_row : Row HeroPower.t := HeroPower.id.

(** The three tables. *)
Record db : Type := mk_db {
  heroes : list Hero.t;
  powers : list Power.t;
  hero_powers : list HeroPower.t
}.

(** Whether the database enforces foreign keys: SQLite does not unless
    [PRAGMA foreign_keys=ON] is issued, which [app.py] does not do; the
    database URI comes from the environment ([DB_URI]). *)
Record config : Type := mk_config { foreign_keys : bool }.

Definition sqlite_default : config := {| foreign_keys := false |}.

(** The foreign key [fk] refers to key [id]. *)
Definition fk_is (fk : option Z) (id : Z) : bool :=
  match fk with Some k => Z.eqb k id | None => false end.

(** ** Relationships and association proxies *)

Definition Hero_hero_powers (st : db) (h : Hero.t) : list HeroPower.t :=
  List.filter (fun hp => fk_is (HeroPower.hero_id hp) (Hero.id h)) (hero_powers st).

Definition Power_hero_powers (st : db) (p : Power.t) : list HeroPower.t :=
  List.filter (fun hp => fk_is (HeroPower.power_id hp) (Power.id p)) (hero_powers st).

Definition HeroPower_hero (st : db) (hp : HeroPower.t) : option Hero.t :=
  match HeroPower.hero_id hp with
  | Some k => query_get (heroes st) k
  | None => None
  end.

Definition HeroPower_power (st : db) (hp : HeroPower.t) : option Power.t :=
  match HeroPower.power_id hp with
  | Some k => query_get (powers st) k
  | None => None
  end.

(** [association_proxy("hero_powers", "power")]: [[hp.power for hp in
    hero.hero_powers]], [None] where a row's power is missing. *)
Definition Hero_powers (st : db) (h : Hero.t) : list (option Power.t) :=
  map (HeroPower_power st) (Hero_hero_powers st h).

Definition Power_heroes (st : db) (p : Power.t) : list (option Hero.t) :=
  map (HeroPower_hero st) (Power_hero_powers st p).

(** ** Validators *)

Definition description_error : string :=
  "Description must be at least 20 characters long.".

(** [Power.validate_description]:
    [if not description or len(description) < 20: raise ValueError]. *)
Definition validate_description (description : json) : result json :=
  fails <- (if negb (py_truthy description) then Ok true
            else n <- py_len description ;; Ok (Nat.ltb n 20)) ;;
  if fails then Raise (ValueError description_error) else Ok description.

Definition valid_strengths : list string := ["Strong"; "Weak"; "Average"].

Definition strength_error : string :=
  "Strength must be 'Strong', 'Weak', or 'Average'.".

(** [HeroPower.validate_strength]: [if strength not in valid_strengths]. *)
Definition validate_strength (strength : json) : result json :=
  if negb (py_in_strs strength valid_strengths)
  then Raise (ValueError strength_error)
  else Ok strength.

(** ** Binding Python values to columns at flush time *)

(** A [String] column: [str] and [None] bind; a [list] or [dict] is
    refused by the DB-API.  Numbers never reach a [String] column of this
    program (both validators reject them), and are outside the model. *)
Definition bind_string (v : json) : result (option string) :=
  match v with
  | JStr s => Ok (Some s)
  | JNull => Ok None
  | JArr _ | JObj _ => Raise (InterfaceError "Error binding parameter")
  | JInt _ | JBool _ => Raise (Unsupported "number bound to a String column")
  end.

Definition int64_error : string := "Python int too large to convert to SQLite INTEGER".

(** An [int] bound as a parameter: the [sqlite3] module converts it to a
    signed 64-bit integer and raises [OverflowError] outside that range
    (an exception that is neither a [ValueError] nor an HTTP error). *)
Definition bind_int (z : Z) : result Z :=
  if decide (in_int64 z) then Ok z else Raise (OverflowError int64_error).

(** An [Integer] foreign-key column: [int] binds (within 64 bits), [bool]
    binds as [0]/[1], [None] as NULL; a [list] or [dict] is refused; a
    [str] is stored under SQLite's type affinity, which the model does
    not cover. *)
Definition bind_int_ref (v : json) : result (option Z) :=
  match v with
  | JNull => Ok None
  | JInt z => k <- bind_int z ;; Ok (Some k)
  | JBool b => Ok (Some (if b then 1 else 0)%Z)
  | JStr _ => Raise (Unsupported "text bound to an Integer column")
  | JArr _ | JObj _ => Raise (InterfaceError "Error binding parameter")
  end.

(** A foreign key SQLite can hold: NULL or a 64-bit integer. *)
Definition ref_in_int64 (fk : option Z) : Prop :=
  match fk with None => True | Some k => in_int64 k end.

(** ** Storage operations *)

(** [Model.query.get(id)]: the session of a request starts empty, so
    [Session.get] runs [SELECT ... WHERE id = ?] with the id bound as a
    parameter, and returns the row with that key or [None]. *)
Definition session_get {R} `{Row R} (t : list R) (id : Z) : result (option R) :=
  k <- bind_int id ;; Ok (query_get t k).

(** The foreign key is NULL or refers to an existing row. *)
Definition ref_ok {R} `{Row R} (t : list R) (fk : option Z) : bool :=
  match fk with
  | None => true
  | Some k => match query_get t k with Some _ => true | None => false end
  end.

(** [session.add(HeroPower(...))] then [session.commit()]: the row gets
    the next rowid; with foreign keys enforced, a dangling reference makes
    the INSERT fail. *)
Definition insert_hero_power (cfg : config) (strength : string)
    (hero_id power_id : option Z) (st : db) : result (HeroPower.t * db) :=
  let hp := HeroPower.mk (next_rowid (hero_powers st)) strength hero_id power_id in
  if foreign_keys cfg && negb (ref_ok (heroes st) hero_id && ref_ok (powers st) power_id)
  then Raise (IntegrityError "FOREIGN KEY constraint failed")
  else Ok (hp, {| heroes := heroes st; powers := powers st;
                  hero_powers := table_insert (hero_powers st) hp |}).

(** [power.description = v] then [session.commit()]. *)
Definition set_power_description (id : Z) (d : option string) (st : db) : db :=
  {| heroes := heroes st;
     powers := update_row id (fun p => Power.mk (Power.id p) (Power.name p) d) (powers st);
     hero_powers := hero_powers st |}.

(** [session.delete(hero)]: the cascade deletes [hero.hero_powers]. *)
Definition delete_hero (id : Z) (st : db) : db :=
  match query_get (heroes st) id with
  | None => st
  | Some _ =>
      {| heroes := delete_id (heroes st) id;
         powers := powers st;
         hero_powers := delete_where (fun hp => fk_is (HeroPower.hero_id hp) id)
                                     (hero_powers st) |}
  end.

(** [session.delete(power)]: the cascade deletes [power.hero_powers]. *)
Definition delete_power (id : Z) (st : db) : db :=
  match query_get (powers st) id with
  | None => st
  | Some _ =>
      {| heroes := heroes st;
         powers := delete_id (powers st) id;
         hero_powers := delete_where (fun hp => fk_is (HeroPower.power_id hp) id)
                                     (hero_powers st) |}
  end.

(** [session.delete(hero_power)]. *)
Definition delete_hero_power (id : Z) (st : db) : db :=
  {| heroes := heroes st; powers := powers st;
     hero_powers := delete_id (hero_powers st) id |}.

(** ** The store invariant *)

Definition description_ok (d : option string) : Prop :=
  match d with
  | Some s => 20 <= String.length s
  | None => False
  end.

Record db_wf (st : db) : Prop := {
  wf_heroes : ids_wf (heroes st);
  wf_powers : ids_wf (powers st);
  wf_hero_powers : ids_wf (hero_powers st);
  wf_descriptions : Forall (fun p => description_ok (Power.description p)) (powers st);
  wf_strengths : Forall (fun hp => In (HeroPower.strength hp) valid_strengths) (hero_powers st)
}.

(** [db_wf] as a boolean test. *)
Definition db_wfb (st : db) : bool :=
  ids_wfb (heroes st) && ids_wfb (powers st) && ids_wfb (hero_powers st) &&
  forallb (fun p => match Power.description p with
                    | Some s => Nat.leb 20 (String.length s)
                    | None => false
                    end) (powers st) &&
  forallb (fun hp => existsb (String.eqb (HeroPower.strength hp)) valid_strengths)
          (hero_powers st).

(** Referential integrity: every foreign key is NULL or resolves. *)
Definition refs_ok (st : db) : Prop :=
  Forall (fun hp => ref_ok (heroes st) (HeroPower.hero_id hp) = true /\
                    ref_ok (powers st) (HeroPower.power_id hp) = true)
         (hero_powers st).

(** Every foreign key stored is one SQLite can hold. *)
Definition fks_in_int64 (st : db) : Prop :=
  Forall (fun hp => ref_in_int64 (HeroPower.hero_id hp) /\ ref_in_int64 (HeroPower.power_id hp))
         (hero_powers st).

(** A sample store: one hero holding one power through one hero-power
    row. *)
Definition cycle_hero : Hero.t := Hero.mk 1 (Some "Kamala Khan") (Some "Ms. Marvel").
Definition cycle_power : Power.t :=
  Power.mk 1 (Some "super strength") (Some "gives the wielder super-human strengths").
Definition cycle_hero_power : HeroPower.t := HeroPower.mk 1 "Strong" (Some 1%Z) (Some 1%Z).
Definition cycle_db : db :=
  {| heroes := [cycle_hero]; powers := [cycle_power]; hero_powers := [cycle_hero_power] |}.


(** ** The boolean invariant test *)

Lemma db_wfb_sound st : db_wfb st = true -> db_wf st.
Proof.
  unfold db_wfb. intros H.
  apply andb_prop in H as [H Hstr]. apply andb_prop in H as [H Hdesc].
  apply andb_prop in H as [H Hhp]. apply andb_prop in H as [Hh Hp].
  constructor; auto using ids_wfb_sound.
  - apply List.Forall_forall. intros p Hin.
    rewrite forallb_forall in Hdesc. specialize (Hdesc p Hin).
    unfold description_ok. destruct (Power.description p); [|discriminate].
    by apply Nat.leb_le.
  - apply List.Forall_forall. intros hp Hin.
    rewrite forallb_forall in Hstr. specialize (Hstr hp Hin).
    apply existsb_exists in Hstr as [s [Hs Heq]]. apply String.eqb_eq in Heq. by subst.
Qed.

(** ** Validators *)

Lemma py_len_truthy v n : py_len v = Ok n -> 0 < n -> py_truthy v = true.
Proof.
  destruct v as [| | |s|l|kvs]; simpl; intros H Hn; inversion H; subst.
  - destruct s; [simpl in Hn; lia|done].
  - destruct l; [simpl in Hn; lia|done].
  - destruct kvs; [simpl in Hn; lia|done].
Qed.

(** [validate_description] on a string: it raises [ValueError] exactly
    when the string is shorter than 20 characters (the empty string
    included), and otherwise returns the string unchanged. *)
Lemma validate_description_str s :
  validate_description (JStr s) =
  if Nat.ltb (String.length s) 20 then Raise (ValueError description_error)
  else Ok (JStr s).
Proof.
  unfold validate_description; simpl.
  destruct (String.eqb_spec s ""); subst; reflexivity.
Qed.

(** [validate_description] accepts a value exactly when it has a length
    of at least 20, and then returns it unchanged. *)
Lemma validate_description_accepts v v' :
  validate_description v = Ok v' <->
  v' = v /\ exists n, py_len v = Ok n /\ 20 <= n.
Proof.
  unfold validate_description. split.
  - destruct (py_truthy v) eqn:Ht; simpl.
    + destruct (py_len v) as [n|e]; simpl; [|discriminate].
      destruct (Nat.ltb_spec n 20); intros Hr; inversion Hr; eauto.
    + discriminate.
  - intros (-> & n & Hn & Hge).
    rewrite (py_len_truthy v n Hn) by lia; simpl. rewrite Hn; simpl.
    destruct (Nat.ltb_spec n 20); [lia|done].
Qed.

(** Every exception [validate_description] raises is a [ValueError]
    (caught by the handler) or a [TypeError] ([len] of a number or a
    boolean, not caught). *)
Lemma validate_description_raise v e :
  validate_description v = Raise e ->
  e = ValueError description_error \/ exists m, e = TypeError m.
Proof.
  unfold validate_description.
  destruct (py_truthy v); simpl; [|intros Hr; inversion Hr; auto].
  destruct (py_len v) as [n|e'] eqn:E; simpl.
  - destruct (Nat.ltb n 20); intros Hr; inversion Hr; auto.
  - intros Hr; inversion Hr; subst. right. by eapply py_len_raise.
Qed.

(** C21: [validate_description] (the [@validates("description")] hook of
    [Power]) returns the value unchanged exactly when it has a length of
    at least 20; it raises [ValueError] exactly when the value is falsy
    or shorter than 20; on a truthy value without a length (a nonzero
    number, [True]) [len] raises [TypeError], which the handler does not
    catch. *)
Theorem validate_description_spec v :
  match validate_description v with
  | Ok v' => v' = v /\ exists n, py_len v = Ok n /\ 20 <= n
  | Raise e =>
      (e = ValueError description_error /\
       (py_truthy v = false \/ exists n, py_len v = Ok n /\ n < 20)) \/
      (exists m, e = TypeError m /\ py_truthy v = true /\ py_len v = Raise e)
  end.
Proof.
  unfold validate_description.
  destruct (py_truthy v) eqn:Ht; simpl; [|left; auto].
  destruct (py_len v) as [n|e] eqn:El; simpl.
  - destruct (Nat.ltb_spec n 20); [left; eauto|eauto].
  - right. destruct (py_len_raise v e El) as [m ->]. eauto.
Qed.

(** C22: [validate_strength] accepts exactly the three literals
    ["Strong"], ["Weak"], ["Average"] (compared case-sensitively), returns
    them unchanged, and raises [ValueError] on any other value. *)
Theorem validate_strength_spec v :
  (validate_strength v = Ok v <->
   exists s, v = JStr s /\ (s = "Strong" \/ s = "Weak" \/ s = "Average")) /\
  ((~ exists s, v = JStr s /\ (s = "Strong" \/ s = "Weak" \/ s = "Average")) ->
   validate_strength v = Raise (ValueError strength_error)).
Proof.
  assert (Hlit : forall s, In s valid_strengths <-> s = "Strong" \/ s = "Weak" \/ s = "Average")
    by (intros s; simpl; intuition congruence).
  setoid_rewrite <- Hlit. unfold validate_strength. rewrite <- py_in_strs_iff.
  destruct (py_in_strs v valid_strengths); simpl; split; done.
Qed.

Lemma validate_strength_valid s :
  In s valid_strengths -> validate_strength (JStr s) = Ok (JStr s).
Proof.
  intros Hin. unfold validate_strength.
  assert (py_in_strs (JStr s) valid_strengths = true) as -> by (apply py_in_strs_iff; eauto).
  reflexivity.
Qed.

Lemma validate_strength_invalid v :
  ~ (exists s, v = JStr s /\ In s valid_strengths) ->
  validate_strength v = Raise (ValueError strength_error).
Proof.
  intros Hv. unfold validate_strength.
  destruct (py_in_strs v valid_strengths) eqn:E; [|reflexivity].
  exfalso. apply Hv, py_in_strs_iff, E.
Qed.

Lemma validate_strength_Ok v v' :
  validate_strength v = Ok v' -> v' = v /\ exists s, v = JStr s /\ In s valid_strengths.
Proof.
  unfold validate_strength. rewrite <- py_in_strs_iff.
  destruct (py_in_strs v valid_strengths); simpl; intros Hr; inversion Hr; auto.
Qed.

(** ** Binding integers *)

Lemma bind_int_in z : in_int64 z -> bind_int z = Ok z.
Proof. intros H. unfold bind_int. by rewrite decide_True. Qed.

Lemma bind_int_out z : ~ in_int64 z -> bind_int z = Raise (OverflowError int64_error).
Proof. intros H. unfold bind_int. by rewrite decide_False. Qed.

(** A route id, a natural number, binds exactly when it is at most
    [max_rowid]. *)
Lemma in_int64_N (id : N) : in_int64 (Z.of_N id) <-> (Z.of_N id <= max_rowid)%Z.
Proof. unfold in_int64, min_int64. lia. Qed.

Lemma session_get_in {R} `{Row R} (t : list R) id :
  in_int64 id -> session_get t id = Ok (query_get t id).
Proof. intros Hid. unfold session_get. by rewrite bind_int_in. Qed.

Lemma session_get_out {R} `{Row R} (t : list R) id :
  ~ in_int64 id -> session_get t id = Raise (OverflowError int64_error).
Proof. intros Hid. unfold session_get. by rewrite bind_int_out. Qed.

Lemma session_get_N {R} `{Row R} (t : list R) (id : N) :
  (Z.of_N id <= max_rowid)%Z -> session_get t (Z.of_N id) = Ok (query_get t (Z.of_N id)).
Proof. intros Hid. by apply session_get_in, in_int64_N. Qed.

Lemma session_get_N_out {R} `{Row R} (t : list R) (id : N) :
  (max_rowid < Z.of_N id)%Z -> session_get t (Z.of_N id) = Raise (OverflowError int64_error).
Proof. intros Hid. apply session_get_out. rewrite in_int64_N. lia. Qed.

(** A foreign key that binds is one SQLite can hold. *)
Lemma bind_int_ref_range v o : bind_int_ref v = Ok o -> ref_in_int64 o.
Proof.
  destruct v as [|b|z| | |]; simpl; intros H; try discriminate.
  - by injection H as <-.
  - injection H as <-. unfold ref_in_int64, in_int64, min_int64, max_rowid. destruct b; lia.
  - unfold bind_int in H. case_decide; simpl in H; [|discriminate]. by injection H as <-.
Qed.

Lemma bind_int_ref_int z : in_int64 z -> bind_int_ref (JInt z) = Ok (Some z).
Proof. intros Hz. simpl. by rewrite bind_int_in. Qed.

(** ** Cascading deletes *)

Lemma delete_hero_found id st h :
  query_get (heroes st) id = Some h ->
  delete_hero id st =
  {| heroes := delete_id (heroes st) id; powers := powers st;
     hero_powers := delete_where (fun hp => fk_is (HeroPower.hero_id hp) id)
                                 (hero_powers st) |}.
Proof. unfold delete_hero. by intros ->. Qed.

(** C11: deleting an existing hero removes the hero and exactly the
    [hero_powers] rows that reference it ([cascade="all, delete-orphan"]):
    the hero is gone, its [hero_powers] collection is empty, and the
    other rows of [hero_powers] are kept in order. *)
Theorem delete_hero_cascade id st h :
  query_get (heroes st) id = Some h ->
  query_get (heroes (delete_hero id st)) id = None /\
  Hero_hero_powers (delete_hero id st) h = [] /\
  hero_powers (delete_hero id st) =
    List.filter (fun hp => negb (fk_is (HeroPower.hero_id hp) id)) (hero_powers st).
Proof.
  intros Hh. pose proof (query_get_Some _ _ _ Hh) as [_ Hid].
  rewrite (delete_hero_found id st h Hh); simpl.
  split; [by rewrite query_get_delete_id, Z.eqb_refl|]. split; [|done].
  unfold Hero_hero_powers, delete_where; simpl.
  change (Hero.id h) with (row_id h). rewrite Hid. apply filter_negb_filter.
Qed.

(** ** The storage operations keep the invariant *)

Lemma db_wf_insert_hero_power cfg s hid pid st hp st' :
  db_wf st -> In s valid_strengths ->
  insert_hero_power cfg s hid pid st = Ok (hp, st') -> db_wf st'.
Proof.
  intros [Hh Hp Hhp Hd Hs] Hin. unfold insert_hero_power.
  destruct (_ && _); [discriminate|]. intros Hr; inversion Hr; subst; clear Hr.
  constructor; simpl; auto.
  - by apply ids_wf_insert.
  - unfold table_insert. apply Forall_app; split; [done|by constructor].
Qed.

Lemma db_wf_set_power_description id d st :
  db_wf st -> description_ok d -> db_wf (set_power_description id d st).
Proof.
  intros [Hh Hp Hhp Hd Hs] Hok. constructor; simpl; auto.
  - by apply ids_wf_update.
  - by apply Forall_update_row.
Qed.

Lemma db_wf_delete_hero id st : db_wf st -> db_wf (delete_hero id st).
Proof.
  intros [Hh Hp Hhp Hd Hs]. unfold delete_hero.
  destruct (query_get (heroes st) id); [|by constructor].
  constructor; simpl; auto with heroes.
Qed.

Lemma db_wf_delete_power id st : db_wf st -> db_wf (delete_power id st).
Proof.
  intros [Hh Hp Hhp Hd Hs]. unfold delete_power.
  destruct (query_get (powers st) id); [|by constructor].
  constructor; simpl; auto with heroes.
Qed.

Lemma db_wf_delete_hero_power id st : db_wf st -> db_wf (delete_hero_power id st).
Proof.
  intros [Hh Hp Hhp Hd Hs].
  constructor; simpl; auto with heroes.
Qed.

(** A foreign key that does not name the deleted row still resolves. *)
Lemma ref_ok_delete_id {R} `{Row R} (t : list R) id fk :
  fk_is fk id = false -> ref_ok (delete_id t id) fk = ref_ok t fk.
Proof.
  destruct fk as [k|]; simpl; [|done]. intros Hk.
  by rewrite query_get_delete_id, Hk.
Qed.

Lemma ref_ok_update {R} `{Row R} (t : list R) id f fk :
  (forall r, row_id (f r) = row_id r) -> ref_ok (update_row id f t) fk = ref_ok t fk.
Proof.
  intros Hf. destruct fk as [k|]; simpl; [|done].
  rewrite query_get_update by done. by destruct (Z.eqb k id), (query_get t k).
Qed.

Lemma refs_ok_delete_hero id st : refs_ok st -> refs_ok (delete_hero id st).
Proof.
  unfold refs_ok, delete_hero. destruct (query_get (heroes st) id); [|done].
  simpl. intros Hr. apply Forall_list_filter_iff.
  eapply Forall_impl; [exact Hr|]. intros hp [Hh Hp] Hk.
  rewrite ref_ok_delete_id; [done|]. by destruct (fk_is (HeroPower.hero_id hp) id).
Qed.

Lemma refs_ok_delete_power id st : refs_ok st -> refs_ok (delete_power id st).
Proof.
  unfold refs_ok, delete_power. destruct (query_get (powers st) id); [|done].
  simpl. intros Hr. apply Forall_list_filter_iff.
  eapply Forall_impl; [exact Hr|]. intros hp [Hh Hp] Hk.
  rewrite ref_ok_delete_id; [done|]. by destruct (fk_is (HeroPower.power_id hp) id).
Qed.

Lemma refs_ok_delete_hero_power id st : refs_ok st -> refs_ok (delete_hero_power id st).
Proof. unfold refs_ok; simpl. apply Forall_list_filter. Qed.

Lemma refs_ok_set_power_description id d st :
  refs_ok st -> refs_ok (set_power_description id d st).
Proof.
  unfold refs_ok; simpl. intros Hr. eapply Forall_impl; [exact Hr|].
  intros hp [Hh Hp]. split; [done|]. by rewrite ref_ok_update.
Qed.

(** With foreign keys enforced, a committed insert keeps every
    reference resolvable. *)
Lemma refs_ok_insert_hero_power cfg s hid pid st hp st' :
  foreign_keys cfg = true -> refs_ok st ->
  insert_hero_power cfg s hid pid st = Ok (hp, st') -> refs_ok st'.
Proof.
  intros Hfk Hr. unfold insert_hero_power. rewrite Hfk; simpl.
  destruct (ref_ok (heroes st) hid && ref_ok (powers st) pid) eqn:E; simpl; [|discriminate].
  intros Hi; inversion Hi; subst; clear Hi. apply andb_prop in E as [E1 E2].
  unfold refs_ok, table_insert; simpl. apply Forall_app; split; [done|by repeat constructor].
Qed.

(** ** Foreign keys within 64 bits *)

Lemma fks_in_int64_incl st st' :
  incl (hero_powers st') (hero_powers st) -> fks_in_int64 st -> fks_in_int64 st'.
Proof. unfold fks_in_int64. rewrite !List.Forall_forall. auto. Qed.

Lemma incl_delete_where {R} (p : R -> bool) t : incl (delete_where p t) t.
Proof. intros x Hx. by apply filter_In in Hx as [? _]. Qed.

Lemma fks_in_int64_delete_hero id st : fks_in_int64 st -> fks_in_int64 (delete_hero id st).
Proof.
  apply fks_in_int64_incl. unfold delete_hero.
  destruct (query_get _ _); [apply incl_delete_where|apply incl_refl].
Qed.

Lemma fks_in_int64_delete_power id st : fks_in_int64 st -> fks_in_int64 (delete_power id st).
Proof.
  apply fks_in_int64_incl. unfold delete_power.
  destruct (query_get _ _); [apply incl_delete_where|apply incl_refl].
Qed.

Lemma fks_in_int64_delete_hero_power id st :
  fks_in_int64 st -> fks_in_int64 (delete_hero_power id st).
Proof. apply fks_in_int64_incl, incl_delete_where. Qed.

Lemma fks_in_int64_set_power_description id d st :
  fks_in_int64 st -> fks_in_int64 (set_power_description id d st).
Proof. apply fks_in_int64_incl, incl_refl. Qed.

Lemma fks_in_int64_insert_hero_power cfg s hid pid st hp st' :
  ref_in_int64 hid -> ref_in_int64 pid -> fks_in_int64 st ->
  insert_hero_power cfg s hid pid st = Ok (hp, st') -> fks_in_int64 st'.
Proof.
  intros Hh Hp Hst. unfold insert_hero_power. case_match; [discriminate|].
  intros Hi; injection Hi as <- <-. unfold fks_in_int64, table_insert; simpl.
  apply Forall_app; split; [done|by repeat constructor].
Qed.

(** C12: after deleting an existing hero, a power all of whose
    [hero_powers] rows referenced that hero has an empty [hero_powers]
    collection and an empty [heroes] association proxy. *)
Theorem delete_hero_power_heroes id st h p :
  query_get (heroes st) id = Some h ->
  Forall (fun hp => HeroPower.hero_id hp = Some id) (Power_hero_powers st p) ->
  Power_hero_powers (delete_hero id st) p = [] /\ Power_heroes (delete_hero id st) p = [].
Proof.
  intros Hh Hall. rewrite (delete_hero_found id st h Hh).
  unfold Power_heroes, Power_hero_powers, delete_where in *; simpl.
  assert (E : List.filter (fun hp => fk_is (HeroPower.power_id hp) (Power.id p))
                (List.filter (fun hp => negb (fk_is (HeroPower.hero_id hp) id)) (hero_powers st))
              = []).
  { apply Forall_list_filter_iff in Hall.
    induction (hero_powers st) as [|hp hps IH]; simpl; [done|].
    inversion Hall as [|? ? Hhp Hrest]; subst.
    destruct (fk_is (HeroPower.power_id hp) (Power.id p)) eqn:Ep; simpl.
    - rewrite (Hhp eq_refl); simpl. rewrite Z.eqb_refl; simpl. by apply IH.
    - destruct (negb (fk_is (HeroPower.hero_id hp) id)); simpl; [rewrite Ep|]; by apply IH. }
  by rewrite E.
Qed.

(** ** Witnesses *)

Lemma delete_hero_cascade_witness :
  query_get (heroes cycle_db) 1 = Some cycle_hero /\
  query_get (heroes (delete_hero 1 cycle_db)) 1 = None /\
  Hero_hero_powers (delete_hero 1 cycle_db) cycle_hero = [] /\
  hero_powers (delete_hero 1 cycle_db) =
    List.filter (fun hp => negb (fk_is (HeroPower.hero_id hp) 1)) (hero_powers cycle_db).
Proof. split; [reflexivity|]. apply delete_hero_cascade. reflexivity. Defined.

Lemma delete_hero_power_heroes_witness :
  query_get (heroes cycle_db) 1 = Some cycle_hero /\
  Power_hero_powers (delete_hero 1 cycle_db) cycle_power = [] /\
  Power_heroes (delete_hero 1 cycle_db) cycle_power = [].
Proof.
  split; [reflexivity|]. apply (delete_hero_power_heroes 1 cycle_db cycle_hero); [reflexivity|].
  repeat constructor.
Defined.

Lemma rowid_fresh_not_monotonic_witness :
  row_id (HeroPower.mk 2 "Weak" None None) = next_rowid (hero_powers cycle_db) /\
  query_get (hero_powers cycle_db) 2 = None /\
  next_rowid (delete_id (table_insert (hero_powers cycle_db) (HeroPower.mk 2 "Weak" None None)) 2) = 2%Z.
Proof.
  split; [reflexivity|].
  exact (rowid_fresh_not_monotonic (hero_powers cycle_db) (HeroPower.mk 2 "Weak" None None) eq_refl).
Defined.

