(* ===== verification/Names.v ===== *)
(** * Names and debug text of [models.py]

    The [MetaData] of [models.py] names every generated foreign-key
    constraint with the convention
    ["fk_%(table_name)s_%(column_0_name)s_%(referred_table_name)s"]:
    [fk_name] is that template and [constraint_names] the names of the
    two foreign keys of [hero_powers].  The [__repr__] methods print a
    row as [f"<Hero {self.id}>"]: [py_str_int] is Python's [str] of an
    [int] (decimal digits, a leading [-] when negative), built on the
    Standard Library's decimal representation [Z.to_int], and
    [parse_repr] reads the id back. *)

From Stdlib Require Import String Ascii ZArith List Lia DecimalZ.
From stdpp Require Import base list.
From S2P Require Import Prelude Models.

Open Scope string_scope.

(** ** Constraint names *)

(** [naming_convention={"fk": "fk_%(table_name)s_%(column_0_name)s_%(referred_table_name)s"}]. *)
Definition fk_name (table column referred : string) : string :=
  "fk_" ++ table ++ "_" ++ column ++ "_" ++ referred.

(** The foreign keys of [models.py]: table, column and referred table of
    [hero_id = db.Column(db.Integer, db.ForeignKey("heroes.id"))] and
    [power_id = db.Column(db.Integer, db.ForeignKey("powers.id"))]. *)
Definition foreign_key_columns : list (string * string * string) :=
  [("hero_powers", "hero_id", "heroes"); ("hero_powers", "power_id", "powers")].

Definition constraint_names : list string :=
  map (fun '(t, c, r) => fk_name t c r) foreign_key_columns.

(** ** [str] of an [int] *)

Fixpoint uint_to_string (u : Decimal.uint) : string :=
  match u with
  | Decimal.Nil => ""
  | Decimal.D0 u' => String "0" (uint_to_string u')
  | Decimal.D1 u' => String "1" (uint_to_string u')
  | Decimal.D2 u' => String "2" (uint_to_string u')
  | Decimal.D3 u' => String "3" (uint_to_string u')
  | Decimal.D4 u' => String "4" (uint_to_string u')
  | Decimal.D5 u' => String "5" (uint_to_string u')
  | Decimal.D6 u' => String "6" (uint_to_string u')
  | Decimal.D7 u' => String "7" (uint_to_string u')
  | Decimal.D8 u' => String "8" (uint_to_string u')
  | Decimal.D9 u' => String "9" (uint_to_string u')
  end.

(** [str(z)] for an [int] [z]. *)
Definition py_str_int (z : Z) : string :=
  match Z.to_int z with
  | Decimal.Pos u => uint_to_string u
  | Decimal.Neg u => String "-" (uint_to_string u)
  end.

(** ** [__repr__] *)

(** [Hero.__repr__]: [f"<Hero {self.id}>"]. *)
Definition Hero_repr (h : Hero.t) : string := "<Hero " ++ py_str_int (Hero.id h) ++ ">".

(** [Power.__repr__]: [f"<Power {self.id}>"]. *)
Definition Power_repr (p : Power.t) : string := "<Power " ++ py_str_int (Power.id p) ++ ">".

(** [HeroPower.__repr__]: [f"<HeroPower {self.id}>"]. *)
Definition HeroPower_repr (hp : HeroPower.t) : string :=
  "<HeroPower " ++ py_str_int (HeroPower.id hp) ++ ">".

(** ** Reading an id back *)

Definition char_digit (c : ascii) : option (Decimal.uint -> Decimal.uint) :=
  match c with
  | "0"%char => Some Decimal.D0 | "1"%char => Some Decimal.D1
  | "2"%char => Some Decimal.D2 | "3"%char => Some Decimal.D3
  | "4"%char => Some Decimal.D4 | "5"%char => Some Decimal.D5
  | "6"%char => Some Decimal.D6 | "7"%char => Some Decimal.D7
  | "8"%char => Some Decimal.D8 | "9"%char => Some Decimal.D9
  | _ => None
  end.

(** The longest prefix of decimal digits, and the rest. *)
Fixpoint string_to_uint (s : string) : Decimal.uint * string :=
  match s with
  | EmptyString => (Decimal.Nil, EmptyString)
  | String c s' =>
      match char_digit c with
      | Some d => let (u, r) := string_to_uint s' in (d u, r)
      | None => (Decimal.Nil, s)
      end
  end.

Definition parse_int (s : string) : Z * string :=
  match s with
  | String c s' =>
      if Ascii.eqb c "-" then let (u, r) := string_to_uint s' in (Z.of_int (Decimal.Neg u), r)
      else let (u, r) := string_to_uint s in (Z.of_int (Decimal.Pos u), r)
  | EmptyString => (Z.of_int (Decimal.Pos Decimal.Nil), EmptyString)
  end.

Fixpoint strip_prefix (p s : string) : option string :=
  match p, s with
  | EmptyString, _ => Some s
  | String c p', String c' s' => if Ascii.eqb c c' then strip_prefix p' s' else None
  | _, _ => None
  end.

(** The id in the text [prefix ++ str(id) ++ ">"]. *)
Definition parse_repr (prefix s : string) : option Z :=
  match strip_prefix prefix s with
  | Some s' => let (z, r) := parse_int s' in if String.eqb r ">" then Some z else None
  | None => None
  end.

(** ** Lemmas *)

Lemma string_to_uint_app u : string_to_uint (uint_to_string u ++ ">") = (u, ">").
Proof. induction u; simpl; try rewrite IHu; reflexivity. Qed.

Lemma parse_int_py_str z : parse_int (py_str_int z ++ ">") = (z, ">").
Proof.
  rewrite <- (DecimalZ.of_to z) at 2. unfold py_str_int.
  destruct (Z.to_int z) as [u|u]; [|simpl; by rewrite string_to_uint_app].
  destruct u; simpl; try rewrite string_to_uint_app; reflexivity.
Qed.

Lemma strip_prefix_app p s : strip_prefix p (p ++ s) = Some s.
Proof. induction p as [|c p IH]; simpl; [done|]. by rewrite Ascii.eqb_refl. Qed.

Lemma parse_repr_app prefix z : parse_repr prefix (prefix ++ py_str_int z ++ ">") = Some z.
Proof. unfold parse_repr. by rewrite strip_prefix_app, parse_int_py_str. Qed.

(** C33: the text [__repr__] prints for a row determines its id: reading
    the number back from [<Hero {id}>], [<Power {id}>] or
    [<HeroPower {id}>] gives the row's id, for every integer id,
    negative ids included ([str] prints a leading [-]). *)
Theorem repr_roundtrip h p hp :
  parse_repr "<Hero " (Hero_repr h) = Some (Hero.id h) /\
  parse_repr "<Power " (Power_repr p) = Some (Power.id p) /\
  parse_repr "<HeroPower " (HeroPower_repr hp) = Some (HeroPower.id hp).
Proof. split; [|split]; apply parse_repr_app. Qed.
