(* ===== verification/JsonText.v ===== *)
(** * JSON text: the encoder of CPython's [json] module and a reader

    Flask turns the [dict] or [list] a view returns into text with
    [json.dumps], which, given an [indent], runs the pure-Python encoder
    of [json/encoder.py] ([_make_iterencode]); a client such as
    [requests] calls [json.dumps] with the defaults.  [dumps_at lay lvl j]
    is that encoder for the [layout] [lay] (the [indent] and
    [separators] arguments, with their defaults in [dumps_layout]);
    [provider_layout] is the layout Flask's [DefaultJSONProvider] picks.
    Keys are sorted ([sort_keys=True]) and strings are escaped to ASCII
    ([ensure_ascii=True], [py_encode_basestring_ascii]).  The reader
    [loads] is the recursive-descent decoder of [json/decoder.py]
    ([scanner.py], [JSONObject], [JSONArray], [scanstring]) on the values
    the model has: integers, and strings whose code points are below 256.
    It runs on fuel, and the length of the text is enough fuel
    ([json_size_le_length]).  The lemmas show that [loads] reads the
    text of every value back, in every layout whose separators are a
    comma and a colon followed by whitespace ([loads_dumps], used by
    [Requests] for the bodies a client sends), that the text is
    printable ASCII ([dumps_printable]) and that it does not depend on
    the order of a [dict]'s entries ([sort_kvs_unique]). *)

From Stdlib Require Import String Ascii ZArith List Lia DecimalZ DecimalPos DecimalFacts.
From stdpp Require Import base list sorting strings.
From S2P Require Import Prelude Json Names.

Open Scope string_scope.

(** The encoder is text concatenation: let [simpl] compute it. *)
#[local] Arguments String.append : simpl nomatch.

(** ** Characters *)

Definition dq : ascii := "034"%char.
Definition bs : ascii := "092"%char.
Definition nl : ascii := "010"%char.

(** A lowercase hexadecimal digit, as ['\\u{0:04x}'] prints it. *)
Definition hex_digit (d : nat) : ascii :=
  if (d <? 10)%nat then ascii_of_nat (48 + d) else ascii_of_nat (87 + d).

(** [ESCAPE_DCT] and the replacement of [py_encode_basestring_ascii]:
    the characters outside [' '..'~'], the quote and the backslash are
    escaped. *)
Definition escape_char (c : ascii) : string :=
  let n := nat_of_ascii c in
  if Ascii.eqb c dq then String bs (String dq "")
  else if Ascii.eqb c bs then String bs (String bs "")
  else if Ascii.eqb c "008" then String bs "b"
  else if Ascii.eqb c "012" then String bs "f"
  else if Ascii.eqb c "010" then String bs "n"
  else if Ascii.eqb c "013" then String bs "r"
  else if Ascii.eqb c "009" then String bs "t"
  else if (32 <=? n)%nat && (n <=? 126)%nat then String c ""
  else String bs (String "u" (String "0" (String "0"
         (String (hex_digit (n / 16)) (String (hex_digit (n mod 16)) ""))))).

Fixpoint escape_string (s : string) : string :=
  match s with
  | EmptyString => ""
  | String c s' => escape_char c ++ escape_string s'
  end.

(** [py_encode_basestring_ascii(s)]: ['"' + ESCAPE_ASCII.sub(replace, s) + '"']. *)
Definition encode_str (s : string) : string := String dq (escape_string s ++ String dq "").

(** ** Sorted keys *)

(** [sorted(dct.items())]: Python orders [str] keys by code points,
    which is [String.leb]; the keys of a [dict] are distinct. *)
Fixpoint insert_kv {A} (kv : string * A) (l : list (string * A)) : list (string * A) :=
  match l with
  | [] => [kv]
  | kv' :: l' => if String.leb kv.1 kv'.1 then kv :: l else kv' :: insert_kv kv l'
  end.

Fixpoint sort_kvs {A} (l : list (string * A)) : list (string * A) :=
  match l with
  | [] => []
  | kv :: l' => insert_kv kv (sort_kvs l')
  end.

(** The order [sorted] leaves the entries in. *)
Definition key_le {A} (a b : string * A) : Prop := String.le a.1 b.1.

#[export] Instance key_le_trans {A} : Transitive (@key_le A).
Proof. intros a b c. unfold key_le. apply (transitivity (R := String.le)). Qed.

Fixpoint map_vals {A B} (f : A -> B) (kvs : list (string * A)) : list (string * B) :=
  match kvs with
  | [] => []
  | (k, v) :: kvs' => (k, f v) :: map_vals f kvs'
  end.

(** ** The encoder *)

(** [' ' * n]. *)
Fixpoint spaces (n : nat) : string :=
  match n with O => "" | S n' => String " " (spaces n') end.

(** The arguments of [json.dumps] that shape the text: [indent] and
    [separators = (item_separator, key_separator)]. *)
Record layout : Type := mk_layout {
  indent : option nat;
  item_sep : string;
  key_sep : string
}.

(** [JSONEncoder.__init__]: without [separators], [(', ', ': ')], or
    [(',', ': ')] when an [indent] is given. *)
Definition dumps_layout (ind : option nat) (separators : option (string * string)) : layout :=
  match separators with
  | Some (i, k) => mk_layout ind i k
  | None => mk_layout ind (match ind with Some _ => "," | None => ", " end) ": "
  end.

(** [newline_indent = '\n' + _indent * _current_indent_level] with
    [_indent = ' ' * indent], absent without an indent. *)
Definition newline (lay : layout) (lvl : nat) : string :=
  match indent lay with
  | Some k => String nl (spaces (k * lvl))
  | None => ""
  end.

(** The body of [_iterencode_list] and [_iterencode_dict] between the
    brackets: [newline_indent] before the first item, [separator =
    _item_separator + newline_indent] before the others. *)
Fixpoint join_items (lay : layout) (lvl : nat) (ts : list string) : string :=
  match ts with
  | [] => ""
  | t :: ts' =>
      newline lay (S lvl) ++ t ++
      match ts' with [] => "" | _ => item_sep lay ++ join_items lay lvl ts' end
  end.

(** [_encoder(key) + _key_separator + value]. *)
Definition member_text (lay : layout) (kt : string * string) : string :=
  encode_str kt.1 ++ key_sep lay ++ kt.2.

(** [_iterencode(o, _current_indent_level)]: [None], [True], [False],
    [int.__repr__], strings, [_iterencode_list] ([[]] when empty) and
    [_iterencode_dict] ([{}] when empty, [sorted(dct.items())]). *)
Fixpoint dumps_at (lay : layout) (lvl : nat) (j : json) : string :=
  match j with
  | JNull => "null"
  | JBool true => "true"
  | JBool false => "false"
  | JInt z => py_str_int z
  | JStr s => encode_str s
  | JArr l =>
      match l with
      | [] => "[]"
      | _ => "[" ++ join_items lay lvl (map (dumps_at lay (S lvl)) l) ++ newline lay lvl ++ "]"
      end
  | JObj kvs =>
      match kvs with
      | [] => "{}"
      | _ => "{" ++ join_items lay lvl
                      (map (member_text lay) (sort_kvs (map_vals (dumps_at lay (S lvl)) kvs)))
                 ++ newline lay lvl ++ "}"
      end
  end.

(** ** The reader *)

(** [WHITESPACE = r'[ \t\n\r]*']. *)
Definition is_ws (c : ascii) : bool :=
  Ascii.eqb c " " || Ascii.eqb c "009" || Ascii.eqb c "010" || Ascii.eqb c "013".

Fixpoint skip_ws (s : string) : string :=
  match s with
  | String c s' => if is_ws c then skip_ws s' else s
  | EmptyString => EmptyString
  end.

Definition hex_value (c : ascii) : option nat :=
  let n := nat_of_ascii c in
  (if (48 <=? n) && (n <=? 57) then Some (n - 48)
   else if (97 <=? n) && (n <=? 102) then Some (n - 87)
   else if (65 <=? n) && (n <=? 70) then Some (n - 55)
   else None)%nat.

(** [BACKSLASH] of [decoder.py]. *)
Definition unescape (e : ascii) : option ascii :=
  if Ascii.eqb e dq then Some dq
  else if Ascii.eqb e bs then Some bs
  else if Ascii.eqb e "/" then Some "/"%char
  else if Ascii.eqb e "b" then Some "008"%char
  else if Ascii.eqb e "f" then Some "012"%char
  else if Ascii.eqb e "n" then Some "010"%char
  else if Ascii.eqb e "r" then Some "013"%char
  else if Ascii.eqb e "t" then Some "009"%char
  else None.

(** The rest of [s] after the character [c], if [s] starts with it. *)
Definition expect (c : ascii) (s : string) : option string :=
  match s with
  | String c' r => if Ascii.eqb c' c then Some r else None
  | EmptyString => None
  end.

Definition cons_fst (c : ascii) (r : option (string * string)) : option (string * string) :=
  '(t, s) ← r; Some (String c t, s).

(** [scanstring(s, end, strict=True)] after the opening quote: a control
    character is an error, [\uXXXX] above 255 is outside the
    model. *)
Fixpoint parse_str (s : string) : option (string * string) :=
  match s with
  | EmptyString => None
  | String c s' =>
      if Ascii.eqb c dq then Some ("", s')
      else if Ascii.eqb c bs then
        match s' with
        | String e r =>
            if Ascii.eqb e "u" then
              match r with
              | String h1 (String h2 (String h3 (String h4 r'))) =>
                  match hex_value h1, hex_value h2, hex_value h3, hex_value h4 with
                  | Some a, Some b, Some d, Some e =>
                      let n := ((a * 16 + b) * 16 + d) * 16 + e in
                      if (n <? 256)%nat then cons_fst (ascii_of_nat n) (parse_str r') else None
                  | _, _, _, _ => None
                  end
              | _ => None
              end
            else ch ← unescape e; cons_fst ch (parse_str r)
        | EmptyString => None
        end
      else if (nat_of_ascii c <? 32)%nat then None
      else cons_fst c (parse_str s')
  end.

(** [NUMBER_RE] on integers: an optional [-], then [0] or a digit string
    not starting with [0]. *)
Definition parse_number (s : string) : option (Z * string) :=
  let '(neg, s1) := match expect "-" s with
                    | Some s' => (true, s')
                    | None => (false, s)
                    end in
  match expect "0" s1 with
  | Some r => Some (0%Z, r)
  | None =>
      match string_to_uint s1 with
      | (Decimal.Nil, _) => None
      | (u, r) => Some (Z.of_int (if neg then Decimal.Neg u else Decimal.Pos u), r)
      end
  end.

(** [scan_once] with its [JSONArray] ([parse_items], after the first
    item's position) and [JSONObject] ([parse_members]). *)
Fixpoint parse_value (n : nat) (s : string) : option (json * string) :=
  match n with
  | O => None
  | S n' =>
      match skip_ws s with
      | EmptyString => None
      | String c s' =>
          if Ascii.eqb c "[" then
            match expect "]" (skip_ws s') with
            | Some r => Some (JArr [], r)
            | None => '(l, r) ← parse_items n' s'; Some (JArr l, r)
            end
          else if Ascii.eqb c "{" then
            match expect "}" (skip_ws s') with
            | Some r => Some (JObj [], r)
            | None => '(kvs, r) ← parse_members n' s'; Some (JObj kvs, r)
            end
          else if Ascii.eqb c dq then '(t, r) ← parse_str s'; Some (JStr t, r)
          else if Ascii.eqb c "n" then r ← strip_prefix "ull" s'; Some (JNull, r)
          else if Ascii.eqb c "t" then r ← strip_prefix "rue" s'; Some (JBool true, r)
          else if Ascii.eqb c "f" then r ← strip_prefix "alse" s'; Some (JBool false, r)
          else '(z, r) ← parse_number (String c s'); Some (JInt z, r)
      end
  end
with parse_items (n : nat) (s : string) : option (list json * string) :=
  match n with
  | O => None
  | S n' =>
      '(v, r) ← parse_value n' s;
      match skip_ws r with
      | String c r' =>
          if Ascii.eqb c "," then '(vs, r'') ← parse_items n' r'; Some (v :: vs, r'')
          else if Ascii.eqb c "]" then Some ([v], r')
          else None
      | EmptyString => None
      end
  end
with parse_members (n : nat) (s : string) : option (list (string * json) * string) :=
  match n with
  | O => None
  | S n' =>
      match skip_ws s with
      | String c s1 =>
          if Ascii.eqb c dq then
            '(k, s2) ← parse_str s1;
            match skip_ws s2 with
            | String c' s3 =>
                if Ascii.eqb c' ":" then
                  '(v, s4) ← parse_value n' s3;
                  match skip_ws s4 with
                  | String d s5 =>
                      if Ascii.eqb d "," then '(kvs, s6) ← parse_members n' s5; Some ((k, v) :: kvs, s6)
                      else if Ascii.eqb d "}" then Some ([(k, v)], s5)
                      else None
                  | EmptyString => None
                  end
                else None
            | EmptyString => None
            end
          else None
      | EmptyString => None
      end
  end.

(** [json.loads(s)]: one value, then only whitespace. *)
Definition loads (s : string) : option json :=
  '(v, r) ← parse_value (String.length s) s;
  match skip_ws r with EmptyString => Some v | _ => None end.

(** ** Flask's [DefaultJSONProvider] *)

(** [DefaultJSONProvider.response]: [indent=2] when [compact] is [False],
    or [None] in debug mode, [separators=(",", ":")] otherwise. *)
Definition provider_layout (compact : option bool) (debug : bool) : layout :=
  let pretty := match compact with Some false => true | Some true => false | None => debug end in
  if pretty then dumps_layout (Some 2) None else dumps_layout None (Some (",", ":")).

(** The body of the response: [f"{self.dumps(obj, **dump_args)}\n"],
    where [dumps] adds [ensure_ascii=True] and [sort_keys=True]. *)
Definition provider_response_text (compact : option bool) (debug : bool) (j : json) : string :=
  dumps_at (provider_layout compact debug) 0 j ++ String nl "".

(** [app.json.compact = False]. *)
Definition app_json_compact : option bool := Some false.

(** ** What the reader gives back *)

(** The value with every object's entries sorted by key, as the text
    lists them. *)
Fixpoint json_normalize (j : json) : json :=
  match j with
  | JArr l => JArr (map json_normalize l)
  | JObj kvs => JObj (sort_kvs (map_vals json_normalize kvs))
  | _ => j
  end.

(** The fuel [parse_value] needs. *)
Fixpoint json_size (j : json) : nat :=
  match j with
  | JArr l => S (sum_list_with (fun v => S (json_size v)) l)
  | JObj kvs => S (sum_list_with (fun kv => S (json_size kv.2)) kvs)
  | _ => 1
  end.

(** Printable ASCII, and the newline. *)
Definition printable (c : ascii) : bool :=
  let n := nat_of_ascii c in ((32 <=? n) && (n <=? 126) || (n =? 10))%nat.

Fixpoint all_printable (s : string) : bool :=
  match s with
  | EmptyString => true
  | String c s' => printable c && all_printable s'
  end.

Fixpoint ws_only (s : string) : bool :=
  match s with
  | EmptyString => true
  | String c s' => is_ws c && ws_only s'
  end.

(** Separators the reader reads back: a comma, resp. a colon, followed
    by whitespace. *)
Definition layout_ok (lay : layout) : bool :=
  match expect "," (item_sep lay), expect ":" (key_sep lay) with
  | Some w1, Some w2 => ws_only w1 && ws_only w2
  | _, _ => false
  end.

(** The last character of the text, if any, is not a digit: an integer
    read before it ends there. *)
Definition no_digit_head (s : string) : bool :=
  match s with
  | String c _ => match char_digit c with Some _ => false | None => true end
  | EmptyString => true
  end.

(** ** Induction on nested values *)

Section json_ind_nested.
Variable P : json -> Prop.
Hypothesis HNull : P JNull.
Hypothesis HBool : forall b, P (JBool b).
Hypothesis HInt : forall z, P (JInt z).
Hypothesis HStr : forall s, P (JStr s).
Hypothesis HArr : forall l, Forall P l -> P (JArr l).
Hypothesis HObj : forall kvs, Forall (fun kv => P kv.2) kvs -> P (JObj kvs).

Fixpoint json_ind_nested (j : json) : P j :=
  match j with
  | JNull => HNull
  | JBool b => HBool b
  | JInt z => HInt z
  | JStr s => HStr s
  | JArr l =>
      HArr l ((fix go (l : list json) : Forall P l :=
                 match l with
                 | [] => List.Forall_nil _
                 | v :: l' => List.Forall_cons _ _ _ (json_ind_nested v) (go l')
                 end) l)
  | JObj kvs =>
      HObj kvs ((fix go (kvs : list (string * json)) : Forall (fun kv => P kv.2) kvs :=
                   match kvs with
                   | [] => List.Forall_nil _
                   | kv :: kvs' => List.Forall_cons _ _ _ (json_ind_nested kv.2) (go kvs')
                   end) kvs)
  end.
End json_ind_nested.

(** ** Lemmas: text *)

Lemma string_app_assoc (a b c : string) : (a ++ b) ++ c = a ++ b ++ c.
Proof. induction a as [|x a IH]; simpl; congruence. Qed.

Lemma string_app_nil_r (a : string) : a ++ "" = a.
Proof. induction a as [|x a IH]; simpl; congruence. Qed.

Lemma skip_ws_idem s : skip_ws (skip_ws s) = skip_ws s.
Proof.
  induction s as [|c s IH]; simpl; [done|].
  destruct (is_ws c) eqn:Hc; [done|]. simpl. by rewrite Hc.
Qed.

Lemma skip_ws_ws w s : ws_only w = true -> skip_ws (w ++ s) = skip_ws s.
Proof.
  induction w as [|c w IH]; simpl; [done|].
  intros [-> Hw]%andb_prop. by apply IH.
Qed.

Lemma ws_only_newline lay k : ws_only (newline lay k) = true.
Proof. unfold newline. destruct (indent lay) as [m|]; [|done]. simpl. by induction (m * k). Qed.

Lemma skip_ws_newline lay k s : skip_ws (newline lay k ++ s) = skip_ws s.
Proof. apply skip_ws_ws, ws_only_newline. Qed.

Lemma skip_ws_nonws c s : is_ws c = false -> skip_ws (String c s) = String c s.
Proof. simpl. by intros ->. Qed.

Lemma parse_value_skip n s : parse_value n (skip_ws s) = parse_value n s.
Proof. destruct n; [done|]. simpl. by rewrite skip_ws_idem. Qed.

Lemma parse_members_skip n s : parse_members n (skip_ws s) = parse_members n s.
Proof. destruct n; [done|]. simpl. by rewrite skip_ws_idem. Qed.

Lemma parse_value_ws n w s : ws_only w = true -> parse_value n (w ++ s) = parse_value n s.
Proof. intros Hw. by rewrite <- parse_value_skip, skip_ws_ws, parse_value_skip. Qed.

Lemma parse_members_ws n w s : ws_only w = true -> parse_members n (w ++ s) = parse_members n s.
Proof. intros Hw. by rewrite <- parse_members_skip, skip_ws_ws, parse_members_skip. Qed.

Lemma parse_items_ws n w s : ws_only w = true -> parse_items n (w ++ s) = parse_items n s.
Proof. intros Hw. destruct n; [done|]. simpl. by rewrite parse_value_ws. Qed.

Lemma parse_value_newline n lay k s : parse_value n (newline lay k ++ s) = parse_value n s.
Proof. apply parse_value_ws, ws_only_newline. Qed.

Lemma parse_members_newline n lay k s : parse_members n (newline lay k ++ s) = parse_members n s.
Proof. apply parse_members_ws, ws_only_newline. Qed.

(** The separators of a layout the reader reads back. *)
Lemma layout_ok_seps lay :
  layout_ok lay = true ->
  exists w1 w2, item_sep lay = String "," w1 /\ ws_only w1 = true /\
                key_sep lay = String ":" w2 /\ ws_only w2 = true.
Proof.
  unfold layout_ok. destruct (item_sep lay) as [|c1 w1]; [intros H; simpl in H; discriminate|].
  destruct (key_sep lay) as [|c2 w2]; simpl; [by destruct (Ascii.eqb c1 ",")|].
  destruct (Ascii.eqb_spec c1 ","), (Ascii.eqb_spec c2 ":"); subst; try done.
  intros [H1 H2]%andb_prop. by exists w1, w2.
Qed.

Lemma expect_nonmatch c c' s : Ascii.eqb c' c = false -> expect c (String c' s) = None.
Proof. simpl. by intros ->. Qed.

#[export] Hint Rewrite string_app_assoc skip_ws_newline parse_value_newline
  parse_members_newline : heroes.

(** ** Lemmas: integers *)

Lemma string_to_uint_digits u r :
  no_digit_head r = true -> string_to_uint (uint_to_string u ++ r) = (u, r).
Proof.
  intros Hr. induction u; simpl; try (rewrite IHu; reflexivity).
  destruct r as [|c r]; [done|]. simpl in *. by destruct (char_digit c).
Qed.

(** [str] of a positive number does not start with [0]. *)
Lemma pos_to_uint_not_D0 p u : Pos.to_uint p <> Decimal.D0 u.
Proof.
  intros E. pose proof (DecimalPos.Unsigned.to_of (Pos.to_uint p)) as H.
  rewrite DecimalPos.Unsigned.of_to in H. simpl in H. rewrite E in H.
  unfold Decimal.unorm in H. simpl in H.
  destruct (Decimal.nzhead u) eqn:Hz; try discriminate.
  - apply (DecimalPos.Unsigned.to_uint_nonzero p). rewrite E. by injection H as ->.
  - injection H as Hud. subst. exact (nzhead_nonzero _ _ Hz).
Qed.

Lemma parse_number_digits (neg : bool) u r :
  u <> Decimal.Nil -> (forall u', u <> Decimal.D0 u') -> no_digit_head r = true ->
  parse_number ((if neg then "-" else "") ++ uint_to_string u ++ r) =
    Some (Z.of_int (if neg then Decimal.Neg u else Decimal.Pos u), r).
Proof.
  intros Hnil Hd0 Hr. unfold parse_number.
  destruct u; try contradiction; try (exfalso; by eapply Hd0);
    destruct neg; simpl; by rewrite string_to_uint_digits.
Qed.

(** The reader reads back [int.__repr__]. *)
Lemma parse_number_py_str z r :
  no_digit_head r = true -> parse_number (py_str_int z ++ r) = Some (z, r).
Proof.
  intros Hr. destruct z as [|p|p]; [done| |].
  - pose proof (parse_number_digits false (Pos.to_uint p) r) as H. simpl in H.
    unfold py_str_int. simpl. rewrite H; [| apply DecimalPos.Unsigned.to_uint_nonnil
      | apply pos_to_uint_not_D0 | done].
    by rewrite <- (DecimalZ.of_to (Z.pos p)).
  - pose proof (parse_number_digits true (Pos.to_uint p) r) as H. simpl in H.
    unfold py_str_int. simpl. rewrite H; [| apply DecimalPos.Unsigned.to_uint_nonnil
      | apply pos_to_uint_not_D0 | done].
    by rewrite <- (DecimalZ.of_to (Z.neg p)).
Qed.

(** ** Lemmas: strings *)

Lemma hex_value_digit d : d < 16 -> hex_value (hex_digit d) = Some d.
Proof. intros Hd. do 16 (destruct d as [|d]; [reflexivity|]). lia. Qed.

Lemma parse_str_u h1 h2 a b t :
  hex_value h1 = Some a -> hex_value h2 = Some b -> a * 16 + b < 256 ->
  parse_str (String bs (String "u" (String "0" (String "0" (String h1 (String h2 t)))))) =
  cons_fst (ascii_of_nat (a * 16 + b)) (parse_str t).
Proof.
  intros Ha Hb Hlt. simpl. rewrite Ha, Hb. by rewrite (proj2 (Nat.ltb_lt _ _) Hlt).
Qed.

(** [scanstring] undoes one replacement of [py_encode_basestring_ascii]. *)
Lemma parse_str_escape_char c t : parse_str (escape_char c ++ t) = cons_fst c (parse_str t).
Proof.
  unfold escape_char; cbv zeta.
  destruct (Ascii.eqb_spec c dq) as [->|Hdq]; [reflexivity|].
  destruct (Ascii.eqb_spec c bs) as [->|Hbs]; [reflexivity|].
  repeat match goal with
    | |- context [Ascii.eqb c ?k] => destruct (Ascii.eqb_spec c k) as [->|_]; [reflexivity|]
    end.
  pose proof (nat_ascii_bounded c) as Hc.
  match goal with |- context [if ?b then String c "" else _] => destruct b eqn:Hp end.
  - apply andb_prop in Hp as [Hp _]. apply Nat.leb_le in Hp. simpl.
    rewrite (proj2 (Ascii.eqb_neq c dq) Hdq), (proj2 (Ascii.eqb_neq c bs) Hbs).
    by rewrite (proj2 (Nat.ltb_ge _ _) Hp).
  - pose proof (Nat.div_mod_eq (nat_of_ascii c) 16) as Hdm.
    pose proof (Nat.mod_upper_bound (nat_of_ascii c) 16 ltac:(lia)) as Hm.
    assert (nat_of_ascii c / 16 < 16) by (apply Nat.Div0.div_lt_upper_bound; lia).
    cbn [String.append]. rewrite (parse_str_u _ _ (nat_of_ascii c / 16) (nat_of_ascii c mod 16));
      [| apply hex_value_digit; lia.. | lia].
    f_equal. transitivity (ascii_of_nat (nat_of_ascii c)); [f_equal; lia|apply ascii_nat_embedding].
Qed.

Lemma parse_str_escape s r : parse_str (escape_string s ++ String dq r) = Some (s, r).
Proof.
  induction s as [|c s IH]; [reflexivity|]. simpl.
  by rewrite string_app_assoc, parse_str_escape_char, IH.
Qed.

Lemma encode_str_app s r : encode_str s ++ r = String dq (escape_string s ++ String dq r).
Proof. unfold encode_str. simpl. by rewrite string_app_assoc. Qed.

(** ** Lemmas: sorted keys *)

Lemma insert_kv_map_vals {A B} (f : A -> B) k v l :
  insert_kv (k, f v) (map_vals f l) = map_vals f (insert_kv (k, v) l).
Proof.
  induction l as [|[k' v'] l IH]; simpl; [done|].
  destruct (String.leb k k'); simpl; [done|]. by rewrite IH.
Qed.

Lemma sort_kvs_map_vals {A B} (f : A -> B) l : sort_kvs (map_vals f l) = map_vals f (sort_kvs l).
Proof. induction l as [|[k v] l IH]; simpl; [done|]. by rewrite IH, insert_kv_map_vals. Qed.

Lemma insert_kv_perm {A} (kv : string * A) l : insert_kv kv l ≡ₚ kv :: l.
Proof.
  induction l as [|kv' l IH]; simpl; [done|].
  destruct (String.leb _ _); [done|]. rewrite IH. apply perm_swap.
Qed.

Lemma sort_kvs_perm {A} (l : list (string * A)) : sort_kvs l ≡ₚ l.
Proof. induction l as [|kv l IH]; simpl; [done|]. by rewrite insert_kv_perm, IH. Qed.

Lemma map_vals_nil {A B} (f : A -> B) l : map_vals f l = [] <-> l = [].
Proof. destruct l as [|[k v] l]; simpl; split; congruence. Qed.

Lemma sort_kvs_nil {A} (l : list (string * A)) : sort_kvs l = [] <-> l = [].
Proof.
  split; [|by intros ->]. intros H.
  apply Permutation_nil_r. by rewrite <- (sort_kvs_perm l), H.
Qed.

(** ** Lemmas: the reader reads the encoder's text *)

Lemma to_int_nonnil z :
  match Z.to_int z with Decimal.Pos u | Decimal.Neg u => u <> Decimal.Nil end.
Proof. destruct z; simpl; [done|apply DecimalPos.Unsigned.to_uint_nonnil..]. Qed.

Lemma parse_value_int n z r :
  no_digit_head r = true -> parse_value (S n) (py_str_int z ++ r) = Some (JInt z, r).
Proof.
  intros Hr. pose proof (parse_number_py_str z r Hr) as Hp. pose proof (to_int_nonnil z) as Hnil.
  unfold py_str_int in *. destruct (Z.to_int z) as [u|u];
    [destruct u; try contradiction|]; cbn -[parse_number] in *; by rewrite Hp.
Qed.

Lemma parse_value_str n s r : parse_value (S n) (encode_str s ++ r) = Some (JStr s, r).
Proof. rewrite encode_str_app. cbn -[parse_str]. by rewrite parse_str_escape. Qed.

(** The first character of the encoder's text. *)
Lemma dumps_head lay lvl j :
  exists c t, dumps_at lay lvl j = String c t /\ is_ws c = false /\ Ascii.eqb c "]" = false.
Proof.
  destruct j as [|[]|z|s|[]|[]]; simpl; try (eexists _, _; repeat split; fail).
  pose proof (to_int_nonnil z) as Hnil. unfold py_str_int.
  destruct (Z.to_int z) as [u|u]; [destruct u; try contradiction|];
    eexists _, _; repeat split.
Qed.

Lemma expect_skip_join_items lay lvl (t : string) ts c rest :
  (exists c' t', t = String c' t' /\ is_ws c' = false /\ Ascii.eqb c' c = false) ->
  expect c (skip_ws (join_items lay lvl (t :: ts) ++ rest)) = None.
Proof.
  intros (c' & t' & -> & Hws & Hc). simpl. rewrite !string_app_assoc, skip_ws_newline.
  simpl. rewrite Hws. simpl. by rewrite Hc.
Qed.

Lemma parse_value_arr n s l r :
  expect "]" (skip_ws s) = None -> parse_items n s = Some (l, r) ->
  parse_value (S n) (String "[" s) = Some (JArr l, r).
Proof. intros He Hi. cbn. by rewrite He, Hi. Qed.

Lemma parse_value_obj n s kvs r :
  expect "}" (skip_ws s) = None -> parse_members n s = Some (kvs, r) ->
  parse_value (S n) (String "{" s) = Some (JObj kvs, r).
Proof. intros He Hm. cbn. by rewrite He, Hm. Qed.

Lemma join_items_one lay lvl t : join_items lay lvl [t] = newline lay (S lvl) ++ t.
Proof. simpl. by rewrite string_app_nil_r. Qed.

Lemma join_items_cons lay lvl t ts :
  ts <> [] -> join_items lay lvl (t :: ts) = newline lay (S lvl) ++ t ++ item_sep lay ++ join_items lay lvl ts.
Proof. by destruct ts. Qed.

Lemma dumps_at_arr lay lvl l :
  l <> [] -> dumps_at lay lvl (JArr l) =
    "[" ++ join_items lay lvl (map (dumps_at lay (S lvl)) l) ++ newline lay lvl ++ "]".
Proof. by destruct l. Qed.

Lemma dumps_at_obj lay lvl kvs :
  kvs <> [] -> dumps_at lay lvl (JObj kvs) =
    "{" ++ join_items lay lvl (map (member_text lay) (sort_kvs (map_vals (dumps_at lay (S lvl)) kvs)))
        ++ newline lay lvl ++ "}".
Proof. by destruct kvs. Qed.

Lemma parse_items_step n s v r :
  parse_value n s = Some (v, r) ->
  parse_items (S n) s =
    match skip_ws r with
    | String c r' =>
        if Ascii.eqb c "," then '(vs, r'') ← parse_items n r'; Some (v :: vs, r'')
        else if Ascii.eqb c "]" then Some ([v], r')
        else None
    | EmptyString => None
    end.
Proof. intros H. simpl. by rewrite H. Qed.

Lemma no_digit_head_newline lay lvl c r :
  char_digit c = None -> no_digit_head (newline lay lvl ++ String c r) = true.
Proof. intros Hc. unfold newline. destruct (indent lay); simpl; [done|]. by rewrite Hc. Qed.

Section reader.
Variable lay : layout.
Hypothesis Hlay : layout_ok lay = true.

Lemma parse_items_join lvl l n r :
  Forall (fun v => forall n r, json_size v <= n -> no_digit_head r = true ->
            parse_value n (dumps_at lay (S lvl) v ++ r) = Some (json_normalize v, r)) l ->
  l <> [] -> sum_list_with (fun v => S (json_size v)) l <= n ->
  parse_items n (join_items lay lvl (map (dumps_at lay (S lvl)) l) ++ newline lay lvl ++ "]" ++ r) =
    Some (map json_normalize l, r).
Proof.
  intros Hall. revert n. induction Hall as [|v l Hv Hall IH]; intros n Hne Hn; [done|].
  destruct n as [|n]; [simpl in Hn; lia|]. simpl in Hn.
  rewrite map_cons. destruct l as [|w l].
  - cbn [map]. rewrite join_items_one, !string_app_assoc.
    rewrite (parse_items_step _ _ (json_normalize v) (newline lay lvl ++ "]" ++ r)).
    + by rewrite skip_ws_newline.
    + rewrite parse_value_newline. apply Hv; [lia|by apply no_digit_head_newline].
  - destruct (layout_ok_seps lay Hlay) as (w1 & w2 & Hi & Hw1 & _).
    rewrite join_items_cons, Hi by done. rewrite !string_app_assoc. cbn [String.append].
    rewrite (parse_items_step _ _ (json_normalize v)
      (String "," (w1 ++ join_items lay lvl (map (dumps_at lay (S lvl)) (w :: l)) ++ newline lay lvl ++ "]" ++ r))).
    + simpl skip_ws. cbn -[parse_items]. rewrite parse_items_ws, IH; [done|done|simpl in *; lia|done].
    + rewrite parse_value_newline. apply Hv; [lia|done].
Qed.

Lemma parse_value_space n s : parse_value n (String " " s) = parse_value n s.
Proof. by rewrite <- parse_value_skip, <- (parse_value_skip n s). Qed.

Lemma map_vals_cons {A B} (f : A -> B) k v m : map_vals f ((k, v) :: m) = (k, f v) :: map_vals f m.
Proof. done. Qed.

Lemma parse_members_member n k s v r :
  parse_value n s = Some (v, r) ->
  parse_members (S n) (encode_str k ++ key_sep lay ++ s) =
    match skip_ws r with
    | String d s5 =>
        if Ascii.eqb d "," then '(kvs, s6) ← parse_members n s5; Some ((k, v) :: kvs, s6)
        else if Ascii.eqb d "}" then Some ([(k, v)], s5)
        else None
    | EmptyString => None
    end.
Proof.
  intros H. rewrite encode_str_app. cbn -[parse_str parse_value].
  destruct (layout_ok_seps lay Hlay) as (w1 & w2 & _ & _ & Hk & Hw2).
  rewrite parse_str_escape, Hk. simpl. by rewrite parse_value_ws, H.
Qed.

Lemma parse_members_join lvl m n r :
  Forall (fun kv => forall n r, json_size kv.2 <= n -> no_digit_head r = true ->
            parse_value n (dumps_at lay (S lvl) kv.2 ++ r) = Some (json_normalize kv.2, r)) m ->
  m <> [] -> sum_list_with (fun kv => S (json_size kv.2)) m <= n ->
  parse_members n (join_items lay lvl (map (member_text lay) (map_vals (dumps_at lay (S lvl)) m))
                   ++ newline lay lvl ++ "}" ++ r) =
    Some (map_vals json_normalize m, r).
Proof.
  intros Hall. revert n. induction Hall as [|[k v] m Hv Hall IH]; intros n Hne Hn; [done|].
  destruct n as [|n]; [simpl in Hn; lia|]. simpl in Hn, Hv.
  rewrite !map_vals_cons, map_cons. unfold member_text at 1. cbn [fst snd].
  destruct m as [|[k' v'] m].
  - cbn [map map_vals]. rewrite join_items_one, !string_app_assoc, parse_members_newline.
    rewrite (parse_members_member n k _ (json_normalize v) (newline lay lvl ++ "}" ++ r)).
    + by rewrite skip_ws_newline.
    + apply Hv; [lia|by apply no_digit_head_newline].
  - destruct (layout_ok_seps lay Hlay) as (w1 & w2 & Hi & Hw1 & _).
    rewrite join_items_cons, Hi by done. rewrite !string_app_assoc, parse_members_newline.
    cbn [String.append].
    rewrite (parse_members_member n k _ (json_normalize v)
      (String "," (w1 ++ join_items lay lvl (map (member_text lay) (map_vals (dumps_at lay (S lvl)) ((k', v') :: m)))
                   ++ newline lay lvl ++ "}" ++ r))).
    + simpl skip_ws. cbn -[parse_members map_vals].
      rewrite parse_members_ws, IH; [done|done|simpl in *; lia|done].
    + apply Hv; [lia|done].
Qed.

(** The reader gives back the value with sorted objects, whatever
    follows the text, as long as the fuel covers [json_size]. *)
Lemma parse_dumps j : forall lvl n r,
  json_size j <= n -> no_digit_head r = true ->
  parse_value n (dumps_at lay lvl j ++ r) = Some (json_normalize j, r).
Proof.
  induction j as [| b | z | s | l IH | kvs IH] using json_ind_nested; intros lvl n r Hn Hr;
    (destruct n as [|n]; [simpl in Hn; lia|]).
  - reflexivity.
  - by destruct b.
  - by apply parse_value_int.
  - apply parse_value_str.
  - destruct l as [|v l]; [reflexivity|]. rewrite dumps_at_arr by done.
    cbn [String.append]. rewrite !string_app_assoc. apply parse_value_arr.
    + rewrite map_cons. apply expect_skip_join_items, dumps_head.
    + apply parse_items_join; [|done|simpl in *; lia].
      eapply Forall_impl; [exact IH|]. intros ? H. apply H.
  - destruct kvs as [|[k v] kvs]; [reflexivity|]. rewrite dumps_at_obj by done.
    cbn [String.append json_normalize]. rewrite !string_app_assoc, !sort_kvs_map_vals.
    apply parse_value_obj.
    + destruct (sort_kvs ((k, v) :: kvs)) as [|[k' v'] m] eqn:Hs; [discriminate (proj1 (sort_kvs_nil _) Hs)|].
      rewrite map_vals_cons, map_cons. apply expect_skip_join_items.
      eexists _, _. unfold member_text. rewrite encode_str_app. by repeat split.
    + apply parse_members_join.
      * rewrite sort_kvs_perm. eapply Forall_impl; [exact IH|]. intros ? H. apply H.
      * by rewrite sort_kvs_nil.
      * rewrite sort_kvs_perm. simpl in *. lia.
Qed.

(** ** Lemmas: the length of the text is enough fuel *)

Lemma string_length_app (a b : string) : String.length (a ++ b) = String.length a + String.length b.
Proof. induction a as [|c a IH]; simpl; [done|]. by rewrite IH. Qed.

Lemma sum_list_with_mono {A} (f g : A -> nat) l :
  Forall (fun x => f x <= g x) l -> sum_list_with f l <= sum_list_with g l.
Proof. induction 1; simpl; lia. Qed.

Lemma join_items_length lvl ts :
  sum_list_with (fun t => S (String.length t)) ts <= S (String.length (join_items lay lvl ts)).
Proof.
  induction ts as [|t [|t' ts] IH]; [simpl; lia| |].
  - rewrite join_items_one, string_length_app. simpl. lia.
  - destruct (layout_ok_seps lay Hlay) as (w1 & w2 & Hi & _).
    rewrite join_items_cons, Hi by done. rewrite !string_length_app.
    revert IH. generalize (join_items lay lvl (t' :: ts)). intros j IH. simpl in *. lia.
Qed.

Lemma items_size_le_length lvl l :
  Forall (fun v => json_size v <= String.length (dumps_at lay lvl v)) l ->
  sum_list_with (fun v => S (json_size v)) l <=
  sum_list_with (fun t => S (String.length t)) (map (dumps_at lay lvl) l).
Proof. induction 1; simpl; lia. Qed.

Lemma members_size_le_length lvl m :
  Forall (fun kv => json_size kv.2 <= String.length (dumps_at lay lvl kv.2)) m ->
  sum_list_with (fun kv => S (json_size kv.2)) m <=
  sum_list_with (fun t => S (String.length t)) (map (member_text lay) (map_vals (dumps_at lay lvl) m)).
Proof.
  induction 1 as [|[k v] m Hv _ IH]; [simpl; lia|].
  rewrite map_vals_cons, map_cons. unfold member_text at 1. simpl in *.
  rewrite !string_length_app. lia.
Qed.

Lemma json_size_le_length j : forall lvl, json_size j <= String.length (dumps_at lay lvl j).
Proof.
  induction j as [| b | z | s | l IH | kvs IH] using json_ind_nested; intros lvl;
    try (match goal with
         | |- json_size ?j <= String.length (dumps_at ?lay ?lvl ?j) =>
             destruct (dumps_head lay lvl j) as (c & t & Ht & _); rewrite Ht; simpl; lia
         end).
  - destruct l as [|v l]; [simpl; lia|]. rewrite dumps_at_arr by done. rewrite !string_length_app.
    pose proof (join_items_length lvl (map (dumps_at lay (S lvl)) (v :: l))).
    pose proof (items_size_le_length (S lvl) (v :: l)
                  (Forall_impl _ _ _ IH (fun _ H => H (S lvl)))).
    change (json_size (JArr (v :: l))) with (S (sum_list_with (fun v => S (json_size v)) (v :: l))).
    cbn [String.length]. lia.
  - destruct kvs as [|kv kvs]; [simpl; lia|]. rewrite dumps_at_obj by done.
    rewrite !string_length_app, sort_kvs_map_vals.
    pose proof (join_items_length lvl
      (map (member_text lay) (map_vals (dumps_at lay (S lvl)) (sort_kvs (kv :: kvs))))).
    assert (Hall : Forall (fun kv => json_size kv.2 <= String.length (dumps_at lay (S lvl) kv.2))
                     (sort_kvs (kv :: kvs))).
    { rewrite sort_kvs_perm. exact (Forall_impl _ _ _ IH (fun _ H => H (S lvl))). }
    pose proof (members_size_le_length (S lvl) _ Hall).
    assert (Hs : sum_list_with (fun kv => S (json_size kv.2)) (sort_kvs (kv :: kvs)) =
                 sum_list_with (fun kv => S (json_size kv.2)) (kv :: kvs)) by (by rewrite sort_kvs_perm).
    change (json_size (JObj (kv :: kvs))) with (S (sum_list_with (fun kv => S (json_size kv.2)) (kv :: kvs))).
    cbn [String.length]. lia.
Qed.

(** [json.loads] reads back the encoder's text followed by whitespace. *)
Lemma no_digit_head_ws w : ws_only w = true -> no_digit_head w = true.
Proof. destruct w as [|c w]; [done|]. simpl. by destruct c as [[][][][][][][][]]. Qed.

Lemma loads_dumps j w : ws_only w = true -> loads (dumps_at lay 0 j ++ w) = Some (json_normalize j).
Proof.
  intros Hw. unfold loads. rewrite parse_dumps; [|rewrite string_length_app;
    pose proof (json_size_le_length j 0); lia|by apply no_digit_head_ws].
  simpl. rewrite <- (string_app_nil_r w), skip_ws_ws by done. done.
Qed.
End reader.

(** ** Lemmas: printable text *)

Lemma all_printable_app a b : all_printable (a ++ b) = all_printable a && all_printable b.
Proof. induction a as [|c a IH]; simpl; [done|]. by rewrite IH, andb_assoc. Qed.

#[export] Hint Rewrite all_printable_app : heroes.

Lemma hex_digit_printable d : d < 16 -> printable (hex_digit d) = true.
Proof. intros Hd. do 16 (destruct d as [|d]; [reflexivity|]). lia. Qed.

Lemma escape_char_printable c : all_printable (escape_char c) = true.
Proof.
  unfold escape_char; cbv zeta.
  repeat match goal with
    | |- context [if Ascii.eqb c ?k then _ else _] => destruct (Ascii.eqb c k); [reflexivity|]
    end.
  match goal with |- context [if ?b then String c "" else _] => destruct b eqn:Hp end.
  - simpl. unfold printable. by rewrite Hp.
  - pose proof (nat_ascii_bounded c).
    assert (nat_of_ascii c / 16 < 16) by (apply Nat.Div0.div_lt_upper_bound; lia).
    cbn [all_printable]. rewrite !hex_digit_printable; [reflexivity| |];
      first [lia|apply Nat.mod_upper_bound; lia].
Qed.

Lemma encode_str_printable s : all_printable (encode_str s) = true.
Proof.
  unfold encode_str. cbn [all_printable]. rewrite all_printable_app.
  induction s as [|c s IH]; [reflexivity|]. simpl. rewrite all_printable_app, escape_char_printable.
  exact IH.
Qed.

Lemma py_str_int_printable z : all_printable (py_str_int z) = true.
Proof.
  assert (Hu : forall u, all_printable (uint_to_string u) = true)
    by (induction u; [reflexivity|..]; cbn [uint_to_string all_printable]; by rewrite IHu).
  unfold py_str_int. destruct (Z.to_int z); [apply Hu|]. cbn [all_printable]. by rewrite Hu.
Qed.

Lemma newline_printable lay lvl : all_printable (newline lay lvl) = true.
Proof. unfold newline. destruct (indent lay) as [k|]; [|done]. cbn [all_printable]. by induction (k * lvl). Qed.

Section printing.
Variable lay : layout.
Hypothesis Hsep : all_printable (item_sep lay) && all_printable (key_sep lay) = true.

Lemma join_items_printable lvl ts :
  Forall (fun t => all_printable t = true) ts -> all_printable (join_items lay lvl ts) = true.
Proof.
  induction 1 as [|t [|t' ts] Ht _ IH]; [done|..];
    [rewrite join_items_one | rewrite join_items_cons by done];
    autorewrite with heroes; rewrite newline_printable, Ht; [done|].
  apply andb_prop in Hsep as [-> _]. exact IH.
Qed.

Lemma dumps_printable j : forall lvl, all_printable (dumps_at lay lvl j) = true.
Proof.
  induction j as [| [] | z | s | l IH | kvs IH] using json_ind_nested; intros lvl;
    try reflexivity; [apply py_str_int_printable|apply encode_str_printable|..].
  - destruct l as [|v l]; [done|]. rewrite dumps_at_arr by done.
    autorewrite with heroes. rewrite newline_printable, join_items_printable; [done|].
    apply Forall_map. eapply Forall_impl; [exact IH|]. intros ? H. apply H.
  - destruct kvs as [|kv kvs]; [done|]. rewrite dumps_at_obj by done.
    autorewrite with heroes. rewrite newline_printable, join_items_printable; [done|].
    rewrite sort_kvs_map_vals. apply Forall_map.
    assert (Hs : Forall (fun kv => forall lvl, all_printable (dumps_at lay lvl kv.2) = true)
                   (sort_kvs (kv :: kvs))) by (by rewrite sort_kvs_perm).
    induction Hs as [|[k v] m Hv _ IHm]; constructor; [|exact IHm].
    unfold member_text. cbn [fst snd] in *. autorewrite with heroes.
    apply andb_prop in Hsep as [_ ->]. by rewrite encode_str_printable, Hv.
Qed.
End printing.

(** ** Lemmas: the order of the entries *)

Lemma HdRel_insert_kv {A} (x kv : string * A) l :
  HdRel key_le x l -> key_le x kv -> HdRel key_le x (insert_kv kv l).
Proof.
  destruct l as [|y l]; simpl; [by constructor|]. intros Hy Hx.
  destruct (String.leb _ _); constructor; [done|by inversion Hy].
Qed.

Lemma insert_kv_sorted {A} (kv : string * A) l : Sorted key_le l -> Sorted key_le (insert_kv kv l).
Proof.
  induction 1 as [|y l Hl IH Hy]; simpl; [by repeat constructor|].
  destruct (String.leb kv.1 y.1) eqn:Hle.
  - constructor; [by constructor|]. constructor. unfold key_le, String.le. by rewrite Hle.
  - constructor; [done|]. apply HdRel_insert_kv; [done|]. unfold key_le, String.le.
    destruct (String.leb_total kv.1 y.1) as [H|H]; [congruence|by rewrite H].
Qed.

Lemma sort_kvs_sorted {A} (l : list (string * A)) : Sorted key_le (sort_kvs l).
Proof. induction l; simpl; [constructor|by apply insert_kv_sorted]. Qed.

Lemma NoDup_keys_unique {A} (l : list (string * A)) k v1 v2 :
  NoDup l.*1 -> (k, v1) ∈ l -> (k, v2) ∈ l -> v1 = v2.
Proof.
  induction l as [|[k' v'] l IH]; [by intros _ ?%elem_of_nil|].
  csimpl. intros [Hn Hnd]%NoDup_cons. rewrite !elem_of_cons.
  intros [?|H1] [?|H2]; simplify_eq; try done; try (by eapply IH);
    (destruct Hn; apply list_elem_of_fmap; eexists; split; [|eassumption]; reflexivity).
Qed.

(** Two orders of the entries of a [dict] sort to the same list. *)
Lemma sort_kvs_unique {A} (l l' : list (string * A)) :
  l ≡ₚ l' -> NoDup l.*1 -> sort_kvs l = sort_kvs l'.
Proof.
  intros Hp Hnd. apply (Sorted_unique_strong key_le); [|apply sort_kvs_sorted..|by rewrite !sort_kvs_perm].
  intros [k1 v1] [k2 v2] H1 H2 H12 H21.
  assert (k1 = k2) as <- by (apply String.leb_antisym; apply Is_true_true; [exact H12|exact H21]).
  rewrite sort_kvs_perm in H1. rewrite sort_kvs_perm, <- Hp in H2.
  f_equal. by eapply NoDup_keys_unique.
Qed.
