(* ===== verification/Config.v ===== *)
(** * The database configuration of [app.py]

    [app.py] reads the database URI from the environment variable
    [DB_URI] and falls back to the SQLite file [app.db] beside the
    program ([BASE_DIR], the directory of [app.py]).  [env_get] is
    [os.environ.get], [path_join] is [os.path.join] of a directory and a
    relative file name, [database_uri] is [DATABASE].  What the rest of
    the model needs of the database is [Models.config], whether it
    enforces foreign keys; the theorems take it as a parameter (SQLite,
    the default, enforces them only after [PRAGMA foreign_keys=ON], which
    the program never issues: [Models.sqlite_default]). *)

From Stdlib Require Import String Ascii List.
From stdpp Require Import base list.
From S2P Require Import Prelude Models.

Open Scope string_scope.

(** [os.environ.get(key, default)]; the environment has one entry per
    name. *)
Fixpoint env_get (env : list (string * string)) (key default : string) : string :=
  match env with
  | [] => default
  | (k, v) :: env' => if String.eqb k key then v else env_get env' key default
  end.

Fixpoint ends_with_slash (s : string) : bool :=
  match s with
  | EmptyString => false
  | String c EmptyString => Ascii.eqb c "/"
  | String _ s' => ends_with_slash s'
  end.

(** [os.path.join(dir, name)] for a relative [name]. *)
Definition path_join (dir name : string) : string :=
  if ends_with_slash dir then dir ++ name else dir ++ "/" ++ name.

(** [DATABASE = os.environ.get("DB_URI", f"sqlite:///{os.path.join(BASE_DIR, 'app.db')}")]. *)
Definition database_uri (env : list (string * string)) (base_dir : string) : string :=
  env_get env "DB_URI" ("sqlite:///" ++ path_join base_dir "app.db").

(** ** Lemmas *)

Lemma env_get_absent env key default :
  Forall (fun kv => fst kv <> key) env -> env_get env key default = default.
Proof.
  induction 1 as [|[k v] env Hk _ IH]; simpl; [done|].
  destruct (String.eqb_spec k key); [contradiction|done].
Qed.
