(* ===== verification/Serializer.v ===== *)
(** * [SerializerMixin.to_dict] over the store

    An [entity] is an instance of one of the three model classes.  Its
    serializable keys ([fields]) are its columns and its relationships, in
    declaration order; the association proxies are not serialized (they are
    neither columns nor relationships).  [to_dict_fuel cls n st sc e]
    serializes [e]: it adds the class rules [cls e] to the schema [sc]
    (the library merges [serialize_rules] at every nested model), keeps
    the keys [is_included] admits, and serializes the value of a
    relationship key with the schema [fork]ed into that key.  [n] bounds
    the nesting depth: at [0] the model raises [RecursionError], as
    CPython does at its recursion limit.  [to_dict] is the serializer of
    the program, with the class rules of [models.py] and the fuel
    [max_depth].

    The theorems show that with the [serialize_rules] of [models.py] every
    serialization terminates within nesting depth 3, whatever schema the
    caller passes, and that the result does not depend on the fuel beyond
    that. *)

From Stdlib Require Import String ZArith List Lia.
From stdpp Require Import base list strings.
From S2P Require Import Prelude Json Rules Tables Models.

Open Scope string_scope.

Inductive entity : Type :=
| EHero (h : Hero.t)
| EPower (p : Power.t)
| EHeroPower (hp : HeroPower.t).

(** The value of a serializable key: a column value, a scalar
    relationship ([None] when the row is missing) or a collection. *)
Inductive field : Type :=
| FVal (v : json)
| FOne (e : option entity)
| FMany (es : list entity).

Definition jstr_opt (o : option string) : json :=
  match o with Some s => JStr s | None => JNull end.

Definition jint_opt (o : option Z) : json :=
  match o with Some z => JInt z | None => JNull end.

(** The columns and relationships of each model class. *)
Definition fields (st : db) (e : entity) : list (string * field) :=
  match e with
  | EHero h =>
      [("id", FVal (JInt (Hero.id h)));
       ("name", FVal (jstr_opt (Hero.name h)));
       ("super_name", FVal (jstr_opt (Hero.super_name h)));
       ("hero_powers", FMany (map EHeroPower (Hero_hero_powers st h)))]
  | EPower p =>
      [("id", FVal (JInt (Power.id p)));
       ("name", FVal (jstr_opt (Power.name p)));
       ("description", FVal (jstr_opt (Power.description p)));
       ("hero_powers", FMany (map EHeroPower (Power_hero_powers st p)))]
  | EHeroPower hp =>
      [("id", FVal (JInt (HeroPower.id hp)));
       ("strength", FVal (JStr (HeroPower.strength hp)));
       ("hero_id", FVal (jint_opt (HeroPower.hero_id hp)));
       ("power_id", FVal (jint_opt (HeroPower.power_id hp)));
       ("hero", FOne (EHero <$> HeroPower_hero st hp));
       ("power", FOne (EPower <$> HeroPower_power st hp))]
  end.

(** The class attribute [serialize_rules] of each model. *)
Definition class_rules (e : entity) : list string :=
  match e with
  | EHero _ => Hero.serialize_rules
  | EPower _ => Power.serialize_rules
  | EHeroPower _ => HeroPower.serialize_rules
  end.

(** The value of one key [kf], nested models serialized by [rec] with
    the schema forked into the key. *)
Definition ser_field (rec : schema -> entity -> result json) (sc : schema)
    (kf : string * field) : result (string * json) :=
  v <- match snd kf with
       | FVal v => Ok v
       | FOne None => Ok JNull
       | FOne (Some e') => rec (fork sc (fst kf)) e'
       | FMany es => rmap JArr (mapR (rec (fork sc (fst kf))) es)
       end ;;
  Ok (fst kf, v).

Fixpoint to_dict_fuel (cls : entity -> list string) (n : nat) (st : db)
    (sc : schema) (e : entity) : result json :=
  match n with
  | O => Raise RecursionError
  | S n' =>
      let sc' := merge sc (cls e) in
      kvs <- mapR (ser_field (to_dict_fuel cls n' st) sc')
                  (List.filter (fun kf => is_included sc' (fst kf)) (fields st e)) ;;
      Ok (JObj kvs)
  end.

(** The nesting depth the model allows: CPython's default recursion limit
    is 1000 frames, and the library spends a few frames per level.  Every
    serialization of the program needs at most 3 levels
    and any bound from 3 on gives the same results. *)
Definition max_depth : nat := 100.

Definition to_dict (st : db) (sc : schema) (e : entity) : result json :=
  to_dict_fuel class_rules max_depth st sc e.

(** The value of a key can be serialized with the nested calls [n]. *)
Definition field_ok (cls : entity -> list string) (n : nat) (st : db)
    (sc : schema) (f : field) : Prop :=
  match f with
  | FVal _ | FOne None => True
  | FOne (Some e') => is_ok (to_dict_fuel cls n st sc e') = true
  | FMany es => Forall (fun e' => is_ok (to_dict_fuel cls n st sc e') = true) es
  end.

(** The flat object of a hero: its three columns. *)
Definition hero_summary (h : Hero.t) : json :=
  JObj [("id", JInt (Hero.id h)); ("name", jstr_opt (Hero.name h));
        ("super_name", jstr_opt (Hero.super_name h))].

(** The flat object of a power: its three columns. *)
Definition power_summary (p : Power.t) : json :=
  JObj [("id", JInt (Power.id p)); ("name", jstr_opt (Power.name p));
        ("description", jstr_opt (Power.description p))].

(** A [hero_powers] entry of [GET /heroes/<id>]: the row's columns and
    its power, without the hero. *)
Definition hero_power_in_hero (st : db) (hp : HeroPower.t) : json :=
  JObj [("id", JInt (HeroPower.id hp)); ("strength", JStr (HeroPower.strength hp));
        ("hero_id", jint_opt (HeroPower.hero_id hp));
        ("power_id", jint_opt (HeroPower.power_id hp));
        ("power", match HeroPower_power st hp with
                  | Some p => power_summary p | None => JNull end)].

(** ** Termination *)


(** A model serializes when the value of every emitted key does. *)
Lemma to_dict_fuel_ok cls n st sc e :
  Forall (fun kf => is_included (merge sc (cls e)) (fst kf) = true ->
                    field_ok cls n st (fork (merge sc (cls e)) (fst kf)) (snd kf))
         (fields st e) ->
  is_ok (to_dict_fuel cls (S n) st sc e) = true.
Proof.
  intros H. cbn [to_dict_fuel]. apply is_ok_rbind; [|done].
  apply mapR_Ok_Forall, Forall_list_filter_iff.
  eapply Forall_impl; [exact H|]. intros [k f] Hk Hinc. specialize (Hk Hinc).
  unfold ser_field; simpl in *. apply is_ok_rbind; [|done].
  destruct f as [v|[e'|]|es]; simpl in *; auto.
  apply is_ok_rbind; [|done]. by apply mapR_Ok_Forall.
Qed.

(** A hero whose [hero_powers] key is excluded is a flat object. *)
Lemma to_dict_hero_leaf cls n st sc h :
  excluded (merge sc (cls (EHero h))) "hero_powers" = true ->
  is_ok (to_dict_fuel cls (S n) st sc (EHero h)) = true.
Proof.
  intros Hx. apply to_dict_fuel_ok, List.Forall_forall. intros kf Hin Hinc.
  destruct_In Hin; simpl in *; try done.
  unfold is_included in Hinc. by rewrite Hx in Hinc.
Qed.

Lemma to_dict_power_leaf cls n st sc p :
  excluded (merge sc (cls (EPower p))) "hero_powers" = true ->
  is_ok (to_dict_fuel cls (S n) st sc (EPower p)) = true.
Proof.
  intros Hx. apply to_dict_fuel_ok, List.Forall_forall. intros kf Hin Hinc.
  destruct_In Hin; simpl in *; try done.
  unfold is_included in Hinc. by rewrite Hx in Hinc.
Qed.

(** A [HeroPower] serializes at depth 2 under any schema: its class rules
    cut [hero.hero_powers] and [power.hero_powers]. *)
Lemma to_dict_hero_power_ok n st sc hp :
  is_ok (to_dict_fuel class_rules (S (S n)) st sc (EHeroPower hp)) = true.
Proof.
  apply to_dict_fuel_ok, List.Forall_forall. intros kf Hin _.
  destruct_In Hin; cbn [fst snd]; try exact I.
  - destruct (HeroPower_hero st hp) as [h|]; [|exact I].
    apply (to_dict_hero_leaf class_rules n st), excluded_merge_l, excluded_fork_merge.
    simpl; auto.
  - destruct (HeroPower_power st hp) as [p|]; [|exact I].
    apply (to_dict_power_leaf class_rules n st), excluded_merge_l, excluded_fork_merge.
    simpl; auto.
Qed.

Lemma Forall_hero_power_ok n st sc hps :
  Forall (fun e' => is_ok (to_dict_fuel class_rules (S (S n)) st sc e') = true)
         (map EHeroPower hps).
Proof.
  apply List.Forall_map, List.Forall_forall. intros hp _. apply to_dict_hero_power_ok.
Qed.

(** With the class rules, every serialization finishes within depth 3. *)
Lemma to_dict_fuel_total n st sc e :
  3 <= n -> is_ok (to_dict_fuel class_rules n st sc e) = true.
Proof.
  intros Hn. destruct n as [|[|[|n]]]; try lia.
  destruct e as [h|p|hp].
  - apply to_dict_fuel_ok, List.Forall_forall. intros kf Hin _.
    destruct_In Hin; cbn [fst snd]; try exact I. apply Forall_hero_power_ok.
  - apply to_dict_fuel_ok, List.Forall_forall. intros kf Hin _.
    destruct_In Hin; cbn [fst snd]; try exact I. apply Forall_hero_power_ok.
  - apply to_dict_hero_power_ok.
Qed.

(** ** The result does not depend on the fuel *)

Lemma ser_field_mono (rec1 rec2 : schema -> entity -> result json) sc kf r :
  (forall sc' e j, rec1 sc' e = Ok j -> rec2 sc' e = Ok j) ->
  ser_field rec1 sc kf = Ok r -> ser_field rec2 sc kf = Ok r.
Proof.
  intros Hrec. unfold ser_field.
  destruct (snd kf) as [v|[e'|]|es]; simpl; try done.
  - destruct (rec1 _ e') eqn:E; simpl; [|discriminate]. by rewrite (Hrec _ _ _ E).
  - destruct (mapR (rec1 _) es) eqn:E; simpl; [|discriminate].
    by rewrite (mapR_Ok_mono _ _ _ _ (Hrec _) E).
Qed.

Lemma to_dict_fuel_S cls n st sc e j :
  to_dict_fuel cls n st sc e = Ok j -> to_dict_fuel cls (S n) st sc e = Ok j.
Proof.
  revert sc e j; induction n as [|n IH]; intros sc e j; [discriminate|].
  cbn [to_dict_fuel].
  destruct (mapR (ser_field (to_dict_fuel cls n st) _) _) eqn:E; simpl; [|discriminate].
  erewrite mapR_Ok_mono; [done| |exact E].
  intros kf r. apply ser_field_mono, IH.
Qed.

Lemma to_dict_fuel_le cls n m st sc e j :
  n <= m -> to_dict_fuel cls n st sc e = Ok j -> to_dict_fuel cls m st sc e = Ok j.
Proof. induction 1; auto using to_dict_fuel_S. Qed.

Lemma to_dict_fuel_ge3 n st sc e :
  3 <= n -> to_dict_fuel class_rules n st sc e = to_dict_fuel class_rules 3 st sc e.
Proof.
  intros Hn. destruct (is_ok_true _ (to_dict_fuel_total 3 st sc e (le_n 3))) as [j Hj].
  rewrite Hj. by apply (to_dict_fuel_le _ 3).
Qed.

(** C13: with the [serialize_rules] of [models.py], serializing any hero,
    power or hero-power row of any store, under any rules or [only] list
    the caller passes, finishes within nesting depth 3 (it never raises
    [RecursionError] once 3 levels are allowed), and its result does not
    depend on the recursion bound beyond 3. *)
Theorem to_dict_terminates n st sc e :
  3 <= n ->
  exists j, to_dict_fuel class_rules n st sc e = Ok j /\
            to_dict_fuel class_rules 3 st sc e = Ok j.
Proof.
  intros Hn. destruct (is_ok_true _ (to_dict_fuel_total 3 st sc e (le_n 3))) as [j Hj].
  exists j. split; [|done]. by rewrite to_dict_fuel_ge3.
Qed.

Lemma to_dict_terminates_witness :
  3 <= 100 /\ exists j, to_dict_fuel class_rules 100 cycle_db (schema_of [] []) (EHero cycle_hero) = Ok j /\
            to_dict_fuel class_rules 3 cycle_db (schema_of [] []) (EHero cycle_hero) = Ok j.
Proof. split; [lia|]. apply to_dict_terminates. lia. Defined.

Lemma to_dict_depth3 st sc e : to_dict st sc e = to_dict_fuel class_rules 3 st sc e.
Proof. apply to_dict_fuel_ge3. unfold max_depth. lia. Qed.

Lemma to_dict_ok st sc e : exists j, to_dict st sc e = Ok j.
Proof. apply is_ok_true, to_dict_fuel_total. unfold max_depth. lia. Qed.

(** ** Payload shapes *)



(** The payload of [POST /hero_powers]: the columns of the new row and
    the hero and power it references, without their [hero_powers]. *)
Lemma to_dict_hero_power_post st hp :
  to_dict st (schema_of [] ["-hero.hero_powers"; "-power.hero_powers"]) (EHeroPower hp) =
  Ok (JObj [("id", JInt (HeroPower.id hp)); ("strength", JStr (HeroPower.strength hp));
            ("hero_id", jint_opt (HeroPower.hero_id hp));
            ("power_id", jint_opt (HeroPower.power_id hp));
            ("hero", match HeroPower_hero st hp with
                     | Some h => hero_summary h | None => JNull end);
            ("power", match HeroPower_power st hp with
                      | Some p => power_summary p | None => JNull end)]).
Proof.
  rewrite to_dict_depth3. cbn [to_dict_fuel]. unfold fields.
  destruct (HeroPower_hero st hp) as [h|], (HeroPower_power st hp) as [p|];
    simpl; unfold ser_field; simpl; reflexivity.
Qed.

(** The payload of [GET /heroes] for one hero: exactly its three columns. *)
Lemma to_dict_hero_only st h :
  to_dict st (schema_of ["id"; "name"; "super_name"] []) (EHero h) = Ok (hero_summary h).
Proof. rewrite to_dict_depth3. cbn [to_dict_fuel]. unfold fields. simpl. reflexivity. Qed.

(** The payload of [GET /powers] for one power: exactly its three columns. *)
Lemma to_dict_power_only st p :
  to_dict st (schema_of ["id"; "name"; "description"] []) (EPower p) = Ok (power_summary p).
Proof. rewrite to_dict_depth3. cbn [to_dict_fuel]. unfold fields. simpl. reflexivity. Qed.

Lemma to_dict_fuel_S_eq cls n st sc e :
  to_dict_fuel cls (S n) st sc e =
  (kvs <- mapR (ser_field (to_dict_fuel cls n st) (merge sc (cls e)))
               (List.filter (fun kf => is_included (merge sc (cls e)) (fst kf)) (fields st e)) ;;
   Ok (JObj kvs)).
Proof. reflexivity. Qed.

#[local] Arguments to_dict_fuel : simpl never.


Lemma to_dict_hero_power_in_hero n st hp :
  to_dict_fuel class_rules (S (S n)) st (mk_schema [] [Exclude ["hero"]; Exclude ["hero"]])
    (EHeroPower hp) = Ok (hero_power_in_hero st hp).
Proof.
  rewrite to_dict_fuel_S_eq. unfold fields, hero_power_in_hero.
  destruct (HeroPower_power st hp) as [p|]; simpl; unfold ser_field; simpl; reflexivity.
Qed.

(** The payload of [GET /heroes/<id>]: the hero's columns and its
    [hero_powers], each without its hero. *)
Lemma to_dict_get_hero st h :
  to_dict st (schema_of [] ["-hero_powers.hero"]) (EHero h) =
  Ok (JObj [("id", JInt (Hero.id h)); ("name", jstr_opt (Hero.name h));
            ("super_name", jstr_opt (Hero.super_name h));
            ("hero_powers", JArr (map (hero_power_in_hero st) (Hero_hero_powers st h)))]).
Proof.
  rewrite to_dict_depth3, to_dict_fuel_S_eq. unfold fields. simpl. unfold ser_field; simpl.
  match goal with |- context [mapR (to_dict_fuel class_rules 2 st ?sc)] =>
    replace sc with (mk_schema [] [Exclude ["hero"]; Exclude ["hero"]]) by reflexivity end.
  rewrite mapR_map, (mapR_ext _ (fun hp => Ok (hero_power_in_hero st hp)))
    by (intros; apply to_dict_hero_power_in_hero).
  by rewrite mapR_Ok_map.
Qed.

(** The payload of [GET /powers/<id>]: exactly the power's columns. *)
Lemma to_dict_get_power st p :
  to_dict st (schema_of [] ["-hero_powers"]) (EPower p) = Ok (power_summary p).
Proof. rewrite to_dict_depth3, to_dict_fuel_S_eq. unfold fields. simpl. reflexivity. Qed.
