(* ===== verification/Payloads.v ===== *)
(** * The answer shapes of the routes

    The specification (section 9) describes each answer of the service
    as a hand-written projection of the rows it shows, one per endpoint;
    the program instead calls the generic [SerializerMixin.to_dict] with
    [only=] or [rules=] and the class [serialize_rules].  This file holds
    the projections the program's calls amount to ([hero_detail] for
    [GET /heroes/<id>], [power_full] for the answer of [PATCH],
    [hero_power_detail] for [POST /hero_powers]; the flat
    [hero_summary] and [power_summary] are in [Serializer]), the proof
    that each call of [app.py] computes its projection, and the JSON
    types [jty] of the answers with the boolean check [has_type]. *)

From Stdlib Require Import String ZArith List Lia.
From stdpp Require Import base list strings.
From S2P Require Import Prelude Json Rules Tables Models Serializer.

Open Scope string_scope.
#[local] Set Warnings "-register-all".

(** ** Projections *)

Definition opt_summary {A} (f : A -> json) (o : option A) : json :=
  match o with Some a => f a | None => JNull end.

(** A [hero_powers] entry of a power's full shape: the row's columns and
    its hero, without the power. *)
Definition hero_power_in_power (st : db) (hp : HeroPower.t) : json :=
  JObj [("id", JInt (HeroPower.id hp)); ("strength", JStr (HeroPower.strength hp));
        ("hero_id", jint_opt (HeroPower.hero_id hp));
        ("power_id", jint_opt (HeroPower.power_id hp));
        ("hero", opt_summary hero_summary (HeroPower_hero st hp))].

(** [power.to_dict()] of [update_power]: the columns and the
    [hero_powers], each with its hero. *)
Definition power_full (st : db) (p : Power.t) : json :=
  JObj [("id", JInt (Power.id p)); ("name", jstr_opt (Power.name p));
        ("description", jstr_opt (Power.description p));
        ("hero_powers", JArr (map (hero_power_in_power st) (Power_hero_powers st p)))].

(** [hero.to_dict(rules=("-hero_powers.hero",))] of [get_hero]. *)
Definition hero_detail (st : db) (h : Hero.t) : json :=
  JObj [("id", JInt (Hero.id h)); ("name", jstr_opt (Hero.name h));
        ("super_name", jstr_opt (Hero.super_name h));
        ("hero_powers", JArr (map (hero_power_in_hero st) (Hero_hero_powers st h)))].

(** [hero_power.to_dict(rules=("-hero.hero_powers", "-power.hero_powers"))]
    of [create_hero_power]. *)
Definition hero_power_detail (st : db) (hp : HeroPower.t) : json :=
  JObj [("id", JInt (HeroPower.id hp)); ("strength", JStr (HeroPower.strength hp));
        ("hero_id", jint_opt (HeroPower.hero_id hp));
        ("power_id", jint_opt (HeroPower.power_id hp));
        ("hero", opt_summary hero_summary (HeroPower_hero st hp));
        ("power", opt_summary power_summary (HeroPower_power st hp))].

(** ** JSON types *)

Inductive jty : Type :=
| TInt
| TStr
| TOpt (t : jty)
| TList (t : jty)
| TObj (fs : list (string * jty)).

(** [j] has type [t]; an object has exactly the keys of [t], in order. *)
Fixpoint has_type (t : jty) (j : json) {struct t} : bool :=
  match t, j with
  | TInt, JInt _ => true
  | TStr, JStr _ => true
  | TOpt _, JNull => true
  | TOpt t', _ => has_type t' j
  | TList t', JArr l => forallb (has_type t') l
  | TObj fs, JObj kvs =>
      (fix fields_have (fs : list (string * jty)) (kvs : list (string * json)) : bool :=
         match fs, kvs with
         | [], [] => true
         | (k, t') :: fs', (k', v) :: kvs' =>
             String.eqb k k' && has_type t' v && fields_have fs' kvs'
         | _, _ => false
         end) fs kvs
  | _, _ => false
  end.

Definition hero_summary_ty : jty :=
  TObj [("id", TInt); ("name", TOpt TStr); ("super_name", TOpt TStr)].

(** A power of a store where every description was validated. *)
Definition power_summary_ty : jty :=
  TObj [("id", TInt); ("name", TOpt TStr); ("description", TStr)].

Definition hero_power_cols_ty : list (string * jty) :=
  [("id", TInt); ("strength", TStr); ("hero_id", TOpt TInt); ("power_id", TOpt TInt)].

Definition hero_detail_ty : jty :=
  TObj [("id", TInt); ("name", TOpt TStr); ("super_name", TOpt TStr);
        ("hero_powers", TList (TObj (hero_power_cols_ty ++
                                     [("power", TOpt power_summary_ty)])))].

Definition power_full_ty : jty :=
  TObj [("id", TInt); ("name", TOpt TStr); ("description", TStr);
        ("hero_powers", TList (TObj (hero_power_cols_ty ++
                                     [("hero", TOpt hero_summary_ty)])))].

Definition hero_power_detail_ty : jty :=
  TObj (hero_power_cols_ty ++ [("hero", TOpt hero_summary_ty);
                               ("power", TOpt power_summary_ty)]).

Definition not_found_ty : jty := TObj [("error", TStr)].

Definition errors_ty : jty := TObj [("errors", TList TStr)].

(** ** Each call of [app.py] computes its projection *)

#[local] Arguments to_dict_fuel : simpl never.

Lemma to_dict_hero_power_in_power n st hp :
  to_dict_fuel class_rules (S (S n)) st (mk_schema [] [Exclude ["power"]]) (EHeroPower hp) =
  Ok (hero_power_in_power st hp).
Proof.
  rewrite to_dict_fuel_S_eq. unfold fields, hero_power_in_power.
  destruct (HeroPower_hero st hp) as [h|]; simpl; unfold ser_field; simpl; reflexivity.
Qed.

Lemma to_dict_power_full st p : to_dict st (schema_of [] []) (EPower p) = Ok (power_full st p).
Proof.
  rewrite to_dict_depth3, to_dict_fuel_S_eq. unfold fields. simpl. unfold ser_field; simpl.
  match goal with |- context [mapR (to_dict_fuel class_rules 2 st ?sc)] =>
    replace sc with (mk_schema [] [Exclude ["power"]]) by reflexivity end.
  rewrite mapR_map, (mapR_ext _ (fun hp => Ok (hero_power_in_power st hp)))
    by (intros; apply to_dict_hero_power_in_power).
  by rewrite mapR_Ok_map.
Qed.

Lemma to_dict_hero_detail st h :
  to_dict st (schema_of [] ["-hero_powers.hero"]) (EHero h) = Ok (hero_detail st h).
Proof. apply to_dict_get_hero. Qed.

Lemma to_dict_hero_power_detail st hp :
  to_dict st (schema_of [] ["-hero.hero_powers"; "-power.hero_powers"]) (EHeroPower hp) =
  Ok (hero_power_detail st hp).
Proof.
  rewrite to_dict_hero_power_post. unfold hero_power_detail, opt_summary.
  by destruct (HeroPower_hero st hp), (HeroPower_power st hp).
Qed.

(** ** Typing lemmas *)

Lemma has_type_TObj_nil : has_type (TObj []) (JObj []) = true.
Proof. reflexivity. Qed.

Lemma has_type_TObj_cons k t fs k' v kvs :
  has_type (TObj ((k, t) :: fs)) (JObj ((k', v) :: kvs)) =
  String.eqb k k' && has_type t v && has_type (TObj fs) (JObj kvs).
Proof. reflexivity. Qed.

Lemma has_type_TOpt t j :
  has_type (TOpt t) j = match j with JNull => true | _ => has_type t j end.
Proof. by destruct j. Qed.

Lemma has_type_TList t l : has_type (TList t) (JArr l) = forallb (has_type t) l.
Proof. reflexivity. Qed.

Lemma has_type_jstr_opt o : has_type (TOpt TStr) (jstr_opt o) = true.
Proof. by destruct o. Qed.

Lemma has_type_jint_opt o : has_type (TOpt TInt) (jint_opt o) = true.
Proof. by destruct o. Qed.

Lemma has_type_opt_summary {A} t (f : A -> json) o :
  (forall a, o = Some a -> has_type t (f a) = true) ->
  has_type (TOpt t) (opt_summary f o) = true.
Proof.
  destruct o as [a|]; intros Hf; [|reflexivity]. cbn [opt_summary].
  rewrite has_type_TOpt. specialize (Hf a eq_refl). by destruct (f a).
Qed.

Lemma has_type_map {A} t (f : A -> json) l :
  (forall a, In a l -> has_type t (f a) = true) ->
  has_type (TList t) (JArr (map f l)) = true.
Proof.
  intros Hf. rewrite has_type_TList. apply forallb_forall.
  intros j (a & <- & Hin)%in_map_iff. auto.
Qed.

#[export] Hint Rewrite has_type_TObj_cons String.eqb_refl has_type_jstr_opt
  has_type_jint_opt : heroes.

(** Check the keys of an object type one by one. *)
Ltac type_fields :=
  repeat (rewrite has_type_TObj_cons, String.eqb_refl; cbn [andb]);
  rewrite ?has_type_jstr_opt, ?has_type_jint_opt; cbn [andb];
  try reflexivity.

Lemma has_type_hero_summary h : has_type hero_summary_ty (hero_summary h) = true.
Proof. unfold hero_summary_ty, hero_summary. type_fields. Qed.

Lemma has_type_power_summary p :
  description_ok (Power.description p) -> has_type power_summary_ty (power_summary p) = true.
Proof.
  unfold power_summary_ty, power_summary. type_fields.
  by destruct (Power.description p).
Qed.

Section Typed.
Variable st : db.
(** Every power of the store has a validated description. *)
Hypothesis Hdesc : Forall (fun p => description_ok (Power.description p)) (powers st).

Lemma HeroPower_power_description hp p :
  HeroPower_power st hp = Some p -> description_ok (Power.description p).
Proof.
  unfold HeroPower_power. destruct (HeroPower.power_id hp); [|discriminate].
  intros (Hin & _)%query_get_Some. exact (proj1 (List.Forall_forall _ _) Hdesc p Hin).
Qed.

Lemma has_type_hero_power_in_hero hp :
  has_type (TObj (hero_power_cols_ty ++ [("power", TOpt power_summary_ty)]))
           (hero_power_in_hero st hp) = true.
Proof.
  unfold hero_power_in_hero, hero_power_cols_ty. cbn [app]. type_fields.
  change (match HeroPower_power st hp with Some p => power_summary p | None => JNull end)
    with (opt_summary power_summary (HeroPower_power st hp)).
  rewrite has_type_opt_summary; [reflexivity|].
  intros p Hp. by apply has_type_power_summary, (HeroPower_power_description hp).
Qed.

Lemma has_type_hero_power_in_power hp :
  has_type (TObj (hero_power_cols_ty ++ [("hero", TOpt hero_summary_ty)]))
           (hero_power_in_power st hp) = true.
Proof.
  unfold hero_power_in_power, hero_power_cols_ty. cbn [app]. type_fields.
  rewrite has_type_opt_summary; [reflexivity|]. intros h _. apply has_type_hero_summary.
Qed.

Lemma has_type_hero_detail h : has_type hero_detail_ty (hero_detail st h) = true.
Proof.
  unfold hero_detail_ty, hero_detail. type_fields.
  rewrite has_type_map; [reflexivity|]. intros hp _. apply has_type_hero_power_in_hero.
Qed.

Lemma has_type_power_full p :
  description_ok (Power.description p) -> has_type power_full_ty (power_full st p) = true.
Proof.
  intros Hp. unfold power_full_ty, power_full. type_fields.
  destruct (Power.description p) as [d|]; [|contradiction]. cbn [jstr_opt].
  rewrite has_type_map; [reflexivity|]. intros hp _. apply has_type_hero_power_in_power.
Qed.

Lemma has_type_hero_power_detail hp :
  has_type hero_power_detail_ty (hero_power_detail st hp) = true.
Proof.
  unfold hero_power_detail_ty, hero_power_detail, hero_power_cols_ty. cbn [app]. type_fields.
  rewrite !has_type_opt_summary; [reflexivity| |].
  - intros p Hp. by apply has_type_power_summary, (HeroPower_power_description hp).
  - intros h _. apply has_type_hero_summary.
Qed.
End Typed.

(** ** The program's serializations are the endpoint projections *)

(** C26: each of the six [to_dict] calls of [app.py], run by the generic
    serializer with the [serialize_rules] of [models.py], computes the
    hand-written projection of its endpoint (the flat rows of the list
    routes, [hero_detail] for [GET /heroes/<id>], the columns of
    [GET /powers/<id>], [power_full] for [PATCH /powers/<id>],
    [hero_power_detail] for [POST /hero_powers]), for every store and
    row. *)
Theorem app_calls_equal_projections st h p hp :
  to_dict st (schema_of ["id"; "name"; "super_name"] []) (EHero h) = Ok (hero_summary h) /\
  to_dict st (schema_of ["id"; "name"; "description"] []) (EPower p) = Ok (power_summary p) /\
  to_dict st (schema_of [] ["-hero_powers.hero"]) (EHero h) = Ok (hero_detail st h) /\
  to_dict st (schema_of [] ["-hero_powers"]) (EPower p) = Ok (power_summary p) /\
  to_dict st (schema_of [] []) (EPower p) = Ok (power_full st p) /\
  to_dict st (schema_of [] ["-hero.hero_powers"; "-power.hero_powers"]) (EHeroPower hp) =
    Ok (hero_power_detail st hp).
Proof.
  split; [apply to_dict_hero_only|]. split; [apply to_dict_power_only|].
  split; [apply to_dict_hero_detail|]. split; [apply to_dict_get_power|].
  split; [apply to_dict_power_full|]. apply to_dict_hero_power_detail.
Qed.
