(* ===== verification/App.v ===== *)
(** * The routes of [app.py]

    Each view function is a handler [db -> result (response * db)]: it
    reads the store, may assign a validated attribute and commit, and
    serializes its answer with [to_dict]; a Python exception it does not
    catch is a [Raise].  [try_except_ValueError] is the
    [try: ... except ValueError:] block of [update_power] and
    [create_hero_power].  [handle] is Flask's dispatch: an uncaught
    exception becomes a 500 response, and the store is the one before the
    request (the session is rolled back when the request ends; nothing
    was committed), and an [HTTPException] raised by [request.json] is
    answered with its own status.  Route ids are the [<int:id>]
    converter's values, natural numbers with no upper bound;
    [Model.query.get] binds them as SQLite integers ([session_get]), so
    an id above [2^63 - 1] raises [OverflowError], answered 500.  A request with a body carries
    the raw [body]; the view decodes it with [request_json] where
    [app.py] reads [request.json]. *)

From Stdlib Require Import String ZArith List Lia.
From stdpp Require Import base list strings.
From S2P Require Import Prelude Json Rules Tables Models Serializer.

Open Scope string_scope.

Inductive request : Type :=
| Index                                (** GET / *)
| GetHeroes                            (** GET /heroes *)
| GetHero (id : N)                     (** GET /heroes/<int:id> *)
| GetPowers                            (** GET /powers *)
| GetPower (id : N)                    (** GET /powers/<int:id> *)
| PatchPower (id : N) (b : body)       (** PATCH /powers/<int:id> *)
| PostHeroPower (b : body).            (** POST /hero_powers *)

Inductive content : Type :=
| BHtml (s : string)
| BJson (j : json)
| BServerError (e : exn)                 (** Flask's 500 page *)
| BHttpError (code : Z) (name : string).  (** Flask's page of an HTTP error *)

Record response : Type := mk_response { status_code : Z; content_of : content }.

(** [make_response(j, code)] with a JSON body. *)
Definition make_response (j : json) (code : Z) : response := mk_response code (BJson j).

Definition not_found (what : string) : response :=
  make_response (JObj [("error", JStr what)]) 404.

Definition validation_errors : response :=
  make_response (JObj [("errors", JArr [JStr "validation errors"])]) 400.

(** [try: c except ValueError: h]. *)
Definition try_except_ValueError {A} (c : result A) (h : string -> result A) : result A :=
  match c with
  | Raise (ValueError msg) => h msg
  | _ => c
  end.

(** [index]. *)
Definition index (st : db) : result (response * db) :=
  Ok (mk_response 200 (BHtml "<h1>Code challenge</h1>"), st).

(** [get_heroes]. *)
Definition get_heroes (st : db) : result (response * db) :=
  hs <- mapR (fun hero => to_dict st (schema_of ["id"; "name"; "super_name"] []) (EHero hero))
             (heroes st) ;;
  Ok (make_response (JArr hs) 200, st).

(** [get_hero]. *)
Definition get_hero (id : Z) (st : db) : result (response * db) :=
  hero <- session_get (heroes st) id ;;
  match hero with
  | None => Ok (not_found "Hero not found", st)
  | Some hero =>
      j <- to_dict st (schema_of [] ["-hero_powers.hero"]) (EHero hero) ;;
      Ok (make_response j 200, st)
  end.

(** [get_powers]. *)
Definition get_powers (st : db) : result (response * db) :=
  ps <- mapR (fun power => to_dict st (schema_of ["id"; "name"; "description"] []) (EPower power))
             (powers st) ;;
  Ok (make_response (JArr ps) 200, st).

(** [get_power]. *)
Definition get_power (id : Z) (st : db) : result (response * db) :=
  power <- session_get (powers st) id ;;
  match power with
  | None => Ok (not_found "Power not found", st)
  | Some power =>
      j <- to_dict st (schema_of [] ["-hero_powers"]) (EPower power) ;;
      Ok (make_response j 200, st)
  end.

(** [power.description = data["description"]]: the validator runs on the
    value, then the column is bound when the session flushes at commit. *)
Definition assign_description (power : Power.t) (data : json) (st : db)
    : result (Power.t * db) :=
  d <- py_getitem data "description" ;;
  v <- validate_description d ;;
  col <- bind_string v ;;
  Ok (Power.mk (Power.id power) (Power.name power) col,
      set_power_description (Power.id power) col st).

(** [update_power]. *)
Definition update_power (id : Z) (b : body) (st : db) : result (response * db) :=
  power <- session_get (powers st) id ;;
  match power with
  | None => Ok (not_found "Power not found", st)
  | Some power =>
      data <- request_json b ;;
      try_except_ValueError
        (has <- py_contains "description" data ;;
         res <- (if has then assign_description power data st else Ok (power, st)) ;;
         let (power', st') := res in
         j <- to_dict st' (schema_of [] []) (EPower power') ;;
         Ok (make_response j 200, st'))
        (fun _ => Ok (validation_errors, st))
  end.

(** The [strength] column is [nullable=False]. *)
Definition bind_strength (v : json) : result string :=
  col <- bind_string v ;;
  match col with
  | Some s => Ok s
  | None => Raise (IntegrityError "NOT NULL constraint failed: hero_powers.strength")
  end.

(** [create_hero_power]: the three keyword arguments are evaluated before
    [HeroPower(...)] runs the strength validator; the row is bound and
    inserted at commit. *)
Definition create_hero_power (cfg : config) (b : body) (st : db) : result (response * db) :=
  data <- request_json b ;;
  try_except_ValueError
    (strength <- py_getitem data "strength" ;;
     hero_id <- py_getitem data "hero_id" ;;
     power_id <- py_getitem data "power_id" ;;
     v <- validate_strength strength ;;
     s <- bind_strength v ;;
     hid <- bind_int_ref hero_id ;;
     pid <- bind_int_ref power_id ;;
     res <- insert_hero_power cfg s hid pid st ;;
     let (hero_power, st') := res in
     j <- to_dict st' (schema_of [] ["-hero.hero_powers"; "-power.hero_powers"])
                  (EHeroPower hero_power) ;;
     Ok (make_response j 200, st'))
    (fun _ => Ok (validation_errors, st)).

(** The view function of a request. *)
Definition route (cfg : config) (req : request) (st : db) : result (response * db) :=
  match req with
  | Index => index st
  | GetHeroes => get_heroes st
  | GetHero id => get_hero (Z.of_N id) st
  | GetPowers => get_powers st
  | GetPower id => get_power (Z.of_N id) st
  | PatchPower id b => update_power (Z.of_N id) b st
  | PostHeroPower b => create_hero_power cfg b st
  end.

(** Flask: an [HTTPException] is answered with its status, any other
    uncaught exception is a 500 response; the session is rolled back, so
    the store is the one before the request. *)
Definition handle (cfg : config) (req : request) (st : db) : response * db :=
  match route cfg req st with
  | Ok (resp, st') => (resp, st')
  | Raise (HTTPException code name) => (mk_response code (BHttpError code name), st)
  | Raise e => (mk_response 500 (BServerError e), st)
  end.

(** ** Read-only routes *)

(** C6: [GET /heroes/<id>] for an id with no hero leaves the store
    unchanged and answers 404 with body [{"error": "Hero not found"}]
    when the id is at most [2^63 - 1]; above that, [Hero.query.get]
    cannot bind the id and the answer is a 500, although the
    specification promises 404 for every missing id. *)
Theorem get_hero_not_found cfg id st :
  query_get (heroes st) (Z.of_N id) = None ->
  handle cfg (GetHero id) st =
  (if Z.leb (Z.of_N id) max_rowid
   then make_response (JObj [("error", JStr "Hero not found")]) 404
   else mk_response 500 (BServerError (OverflowError int64_error)), st).
Proof.
  intros H. unfold handle, route, get_hero.
  destruct (Z.leb_spec (Z.of_N id) max_rowid) as [Hb|Hb].
  - rewrite session_get_N by exact Hb. cbn [rbind]. by rewrite H.
  - by rewrite session_get_N_out by exact Hb.
Qed.

Lemma get_hero_not_found_witness :
  query_get (heroes cycle_db) (Z.of_N 7) = None /\
  handle sqlite_default (GetHero 7) cycle_db =
  (make_response (JObj [("error", JStr "Hero not found")]) 404, cycle_db) /\
  handle sqlite_default (GetHero 9223372036854775808) cycle_db =
  (mk_response 500 (BServerError (OverflowError int64_error)), cycle_db).
Proof.
  split; [reflexivity|]. split.
  - exact (get_hero_not_found sqlite_default 7 cycle_db eq_refl).
  - exact (get_hero_not_found sqlite_default 9223372036854775808 cycle_db eq_refl).
Defined.

(** C7: [GET /powers/<id>] for an id with no power leaves the store
    unchanged and answers 404 with body [{"error": "Power not found"}]
    when the id is at most [2^63 - 1], and 500 above ([Power.query.get]
    raises [OverflowError] binding the id). *)
Theorem get_power_not_found cfg id st :
  query_get (powers st) (Z.of_N id) = None ->
  handle cfg (GetPower id) st =
  (if Z.leb (Z.of_N id) max_rowid
   then make_response (JObj [("error", JStr "Power not found")]) 404
   else mk_response 500 (BServerError (OverflowError int64_error)), st).
Proof.
  intros H. unfold handle, route, get_power.
  destruct (Z.leb_spec (Z.of_N id) max_rowid) as [Hb|Hb].
  - rewrite session_get_N by exact Hb. cbn [rbind]. by rewrite H.
  - by rewrite session_get_N_out by exact Hb.
Qed.

Lemma get_power_not_found_witness :
  query_get (powers cycle_db) (Z.of_N 3) = None /\
  handle sqlite_default (GetPower 3) cycle_db =
  (make_response (JObj [("error", JStr "Power not found")]) 404, cycle_db) /\
  handle sqlite_default (GetPower 18446744073709551616) cycle_db =
  (mk_response 500 (BServerError (OverflowError int64_error)), cycle_db).
Proof.
  split; [reflexivity|]. split.
  - exact (get_power_not_found sqlite_default 3 cycle_db eq_refl).
  - exact (get_power_not_found sqlite_default 18446744073709551616 cycle_db eq_refl).
Defined.

(** ** PATCH /powers/<id> *)

(** C1: [PATCH /powers/<id>] on an existing power with a [description]
    shorter than 20 characters answers 400 with body
    [{"errors": ["validation errors"]}] and does not change the store. *)
Theorem update_power_short_description cfg id kvs s st p :
  query_get (powers st) (Z.of_N id) = Some p -> (Z.of_N id <= max_rowid)%Z ->
  obj_lookup "description" kvs = Some (JStr s) ->
  String.length s < 20 ->
  handle cfg (PatchPower id (BodyJson (JObj kvs))) st = (validation_errors, st).
Proof.
  intros Hp Hb Hd Hlen. unfold handle, route, update_power.
  rewrite session_get_N, Hp by exact Hb. cbn [request_json rbind].
  rewrite (py_contains_lookup _ _ _ Hd); simpl rbind.
  unfold assign_description. rewrite (py_getitem_lookup _ _ _ Hd); simpl rbind.
  rewrite validate_description_str.
  destruct (Nat.ltb_spec (String.length s) 20); [reflexivity|lia].
Qed.

Lemma update_power_short_description_witness :
  query_get (powers cycle_db) (Z.of_N 1) = Some cycle_power /\
  handle sqlite_default (PatchPower 1 (BodyJson (JObj [("description", JStr "too short")]))) cycle_db =
  (validation_errors, cycle_db).
Proof.
  split; [reflexivity|].
  apply (update_power_short_description _ _ _ "too short" _ cycle_power);
    [reflexivity|unfold max_rowid; lia|reflexivity|simpl; lia].
Defined.

(** C2: [PATCH /powers/<id>] on an existing power with a [description] of
    at least 20 characters answers 200 with the serialized updated power,
    and afterwards the stored description is the new value (the other
    columns and tables unchanged). *)
Theorem update_power_valid_description cfg id kvs s st p :
  query_get (powers st) (Z.of_N id) = Some p -> (Z.of_N id <= max_rowid)%Z ->
  obj_lookup "description" kvs = Some (JStr s) ->
  20 <= String.length s ->
  let p' := Power.mk (Power.id p) (Power.name p) (Some s) in
  let st' := set_power_description (Z.of_N id) (Some s) st in
  query_get (powers st') (Z.of_N id) = Some p' /\
  exists j, to_dict st' (schema_of [] []) (EPower p') = Ok j /\
            handle cfg (PatchPower id (BodyJson (JObj kvs))) st = (make_response j 200, st').
Proof.
  intros Hp Hb Hd Hlen p' st'.
  pose proof (query_get_Some _ _ _ Hp) as [_ Hid].
  split.
  - unfold st', set_power_description; simpl.
    rewrite query_get_update by reflexivity. by rewrite Z.eqb_refl, Hp.
  - destruct (to_dict_ok st' (schema_of [] []) (EPower p')) as [j Hj].
    exists j; split; [done|].
    unfold handle, route, update_power. rewrite session_get_N, Hp by exact Hb.
    cbn [request_json rbind].
    rewrite (py_contains_lookup _ _ _ Hd); simpl rbind.
    unfold assign_description. rewrite (py_getitem_lookup _ _ _ Hd); simpl rbind.
    rewrite validate_description_str.
    destruct (Nat.ltb_spec (String.length s) 20); [lia|]. simpl rbind.
    assert (Hst : set_power_description (Power.id p) (Some s) st = st')
      by (unfold st'; f_equal; exact Hid).
    rewrite Hst. fold p'. by rewrite Hj.
Qed.

Lemma update_power_valid_description_witness :
  query_get (powers cycle_db) (Z.of_N 1) = Some cycle_power /\ (Z.of_N 1 <= max_rowid)%Z /\
  20 <= String.length "This is a valid description." /\
  query_get (powers (set_power_description 1 (Some "This is a valid description.") cycle_db)) 1 =
    Some (Power.mk 1 (Some "super strength") (Some "This is a valid description.")) /\
  exists j,
    to_dict (set_power_description 1 (Some "This is a valid description.") cycle_db)
      (schema_of [] []) (EPower (Power.mk 1 (Some "super strength")
                                          (Some "This is a valid description."))) = Ok j /\
    handle sqlite_default
      (PatchPower 1 (BodyJson (JObj [("description", JStr "This is a valid description.")]))) cycle_db =
    (make_response j 200, set_power_description 1 (Some "This is a valid description.") cycle_db).
Proof.
  assert (Hb : (Z.of_N 1 <= max_rowid)%Z) by (unfold max_rowid; lia).
  split; [reflexivity|]. split; [exact Hb|]. split; [simpl; lia|].
  exact (update_power_valid_description sqlite_default 1
           [("description", JStr "This is a valid description.")]
           "This is a valid description." cycle_db cycle_power
           eq_refl Hb eq_refl ltac:(simpl; lia)).
Defined.

(** ** POST /hero_powers *)

(** C3: [POST /hero_powers] whose [strength] is not one of ["Strong"],
    ["Weak"], ["Average"] answers 400 with body
    [{"errors": ["validation errors"]}] and creates no row, provided the
    body has the three keys [strength], [hero_id], [power_id]. *)
Theorem create_hero_power_invalid_strength cfg kvs v h p st :
  obj_lookup "strength" kvs = Some v ->
  obj_lookup "hero_id" kvs = Some h ->
  obj_lookup "power_id" kvs = Some p ->
  ~ (exists s, v = JStr s /\ In s valid_strengths) ->
  handle cfg (PostHeroPower (BodyJson (JObj kvs))) st = (validation_errors, st).
Proof.
  intros Hs Hh Hp Hv. unfold handle, route, create_hero_power. cbn [request_json rbind].
  rewrite (py_getitem_lookup _ _ _ Hs), (py_getitem_lookup _ _ _ Hh),
    (py_getitem_lookup _ _ _ Hp); simpl rbind.
  by rewrite (validate_strength_invalid v Hv).
Qed.

Lemma create_hero_power_invalid_strength_witness :
  handle sqlite_default
    (PostHeroPower (BodyJson (JObj [("strength", JStr "Medium"); ("hero_id", JInt 1); ("power_id", JInt 1)])))
    cycle_db = (validation_errors, cycle_db).
Proof.
  apply (create_hero_power_invalid_strength _ _ (JStr "Medium") (JInt 1) (JInt 1));
    try reflexivity.
  intros (s & Hs & Hin). injection Hs as <-. simpl in Hin.
  repeat (destruct Hin as [Hin|Hin]; [discriminate Hin|]). exact Hin.
Defined.

(** C19: a body without [power_id] makes [create_hero_power] raise
    [KeyError] before the strength is validated: the answer is a 500
    whatever the strength, not the 400 of an invalid strength. *)
Theorem create_hero_power_missing_key cfg kvs v h st :
  obj_lookup "strength" kvs = Some v ->
  obj_lookup "hero_id" kvs = Some h ->
  obj_lookup "power_id" kvs = None ->
  handle cfg (PostHeroPower (BodyJson (JObj kvs))) st =
  (mk_response 500 (BServerError (KeyError "power_id")), st).
Proof.
  intros Hs Hh Hp. unfold handle, route, create_hero_power. cbn [request_json rbind].
  rewrite (py_getitem_lookup _ _ _ Hs), (py_getitem_lookup _ _ _ Hh),
    (py_getitem_missing _ _ Hp). reflexivity.
Qed.

Lemma create_hero_power_missing_key_witness :
  handle sqlite_default
    (PostHeroPower (BodyJson (JObj [("strength", JStr "Medium"); ("hero_id", JInt 1)]))) cycle_db =
  (mk_response 500 (BServerError (KeyError "power_id")), cycle_db).
Proof. apply (create_hero_power_missing_key _ _ (JStr "Medium") (JInt 1)); reflexivity. Defined.

(** C4: [POST /hero_powers] with a valid strength and the ids of an
    existing hero and power answers 200; the body holds the new row's
    [id], [strength], [hero_id], [power_id] and the nested [hero] and
    [power] as flat objects without [hero_powers]; the store gains exactly
    that row, with the next rowid. *)
Theorem create_hero_power_ok cfg kvs s hid pid st h p :
  obj_lookup "strength" kvs = Some (JStr s) -> In s valid_strengths ->
  obj_lookup "hero_id" kvs = Some (JInt hid) ->
  obj_lookup "power_id" kvs = Some (JInt pid) ->
  query_get (heroes st) hid = Some h -> query_get (powers st) pid = Some p ->
  in_int64 hid -> in_int64 pid ->
  let hp := HeroPower.mk (next_rowid (hero_powers st)) s (Some hid) (Some pid) in
  handle cfg (PostHeroPower (BodyJson (JObj kvs))) st =
  (make_response (JObj [("id", JInt (HeroPower.id hp)); ("strength", JStr s);
                        ("hero_id", JInt hid); ("power_id", JInt pid);
                        ("hero", hero_summary h); ("power", power_summary p)]) 200,
   {| heroes := heroes st; powers := powers st;
      hero_powers := table_insert (hero_powers st) hp |}).
Proof.
  intros Hs Hin Hhid Hpid Hh Hp Hhb Hpb hp. unfold handle, route, create_hero_power.
  cbn [request_json rbind].
  rewrite (py_getitem_lookup _ _ _ Hs), (py_getitem_lookup _ _ _ Hhid),
    (py_getitem_lookup _ _ _ Hpid); simpl rbind.
  rewrite (validate_strength_valid s Hin); simpl rbind.
  rewrite (bind_int_in hid Hhb), (bind_int_in pid Hpb); simpl rbind.
  unfold insert_hero_power, ref_ok. rewrite Hh, Hp, andb_false_r. simpl rbind.
  rewrite to_dict_hero_power_post. unfold HeroPower_hero, HeroPower_power; simpl.
  by rewrite Hh, Hp.
Qed.

Lemma create_hero_power_ok_witness :
  handle sqlite_default
    (PostHeroPower (BodyJson (JObj [("strength", JStr "Strong"); ("hero_id", JInt 1); ("power_id", JInt 1)])))
    cycle_db =
  (make_response (JObj [("id", JInt 2); ("strength", JStr "Strong");
                        ("hero_id", JInt 1); ("power_id", JInt 1);
                        ("hero", hero_summary cycle_hero); ("power", power_summary cycle_power)]) 200,
   {| heroes := heroes cycle_db; powers := powers cycle_db;
      hero_powers := table_insert (hero_powers cycle_db)
                       (HeroPower.mk 2 "Strong" (Some 1%Z) (Some 1%Z)) |}).
Proof.
  exact (create_hero_power_ok sqlite_default
           [("strength", JStr "Strong"); ("hero_id", JInt 1); ("power_id", JInt 1)]
           "Strong" 1 1 cycle_db cycle_hero cycle_power
           eq_refl (or_introl eq_refl) eq_refl eq_refl eq_refl eq_refl
           ltac:(unfold in_int64, min_int64, max_rowid; lia)
           ltac:(unfold in_int64, min_int64, max_rowid; lia)).
Defined.

(** C18: [POST /hero_powers] naming a hero id that has no row (a 64-bit
    integer) is not answered with 400.  Under SQLite's default (foreign
    keys not enforced) it answers 200 with ["hero": null] and stores a
    row whose [hero_id] refers to no hero, breaking referential
    integrity; with foreign keys enforced the commit fails and it
    answers 500. *)
Theorem create_hero_power_dangling_hero cfg kvs s hid pid st p :
  obj_lookup "strength" kvs = Some (JStr s) -> In s valid_strengths ->
  obj_lookup "hero_id" kvs = Some (JInt hid) ->
  obj_lookup "power_id" kvs = Some (JInt pid) ->
  query_get (heroes st) hid = None -> query_get (powers st) pid = Some p ->
  in_int64 hid -> in_int64 pid ->
  let hp := HeroPower.mk (next_rowid (hero_powers st)) s (Some hid) (Some pid) in
  let st' := {| heroes := heroes st; powers := powers st;
                hero_powers := table_insert (hero_powers st) hp |} in
  handle cfg (PostHeroPower (BodyJson (JObj kvs))) st =
  if foreign_keys cfg
  then (mk_response 500 (BServerError (IntegrityError "FOREIGN KEY constraint failed")), st)
  else (make_response (JObj [("id", JInt (HeroPower.id hp)); ("strength", JStr s);
                             ("hero_id", JInt hid); ("power_id", JInt pid);
                             ("hero", JNull); ("power", power_summary p)]) 200, st').
Proof.
  intros Hs Hin Hhid Hpid Hh Hp Hhb Hpb hp st'. unfold handle, route, create_hero_power.
  cbn [request_json rbind].
  rewrite (py_getitem_lookup _ _ _ Hs), (py_getitem_lookup _ _ _ Hhid),
    (py_getitem_lookup _ _ _ Hpid); simpl rbind.
  rewrite (validate_strength_valid s Hin); simpl rbind.
  rewrite (bind_int_in hid Hhb), (bind_int_in pid Hpb); simpl rbind.
  unfold insert_hero_power, ref_ok. rewrite Hh, Hp. simpl andb.
  destruct (foreign_keys cfg); simpl rbind; [reflexivity|].
  rewrite to_dict_hero_power_post. unfold HeroPower_hero, HeroPower_power; simpl.
  by rewrite Hh, Hp.
Qed.

Lemma refs_ok_dangling st hp :
  ref_ok (heroes st) (HeroPower.hero_id hp) = false ->
  ~ refs_ok {| heroes := heroes st; powers := powers st;
               hero_powers := table_insert (hero_powers st) hp |}.
Proof.
  intros Hbad Hok. unfold refs_ok, table_insert in Hok; simpl in Hok.
  apply Forall_app in Hok as [_ Hlast]. inversion Hlast as [|? ? [Hh _] _]. congruence.
Qed.

Lemma create_hero_power_dangling_hero_witness :
  let kvs := [("strength", JStr "Weak"); ("hero_id", JInt 7); ("power_id", JInt 1)] in
  let hp := HeroPower.mk 2 "Weak" (Some 7%Z) (Some 1%Z) in
  let st' := {| heroes := heroes cycle_db; powers := powers cycle_db;
                hero_powers := table_insert (hero_powers cycle_db) hp |} in
  handle sqlite_default (PostHeroPower (BodyJson (JObj kvs))) cycle_db =
  (make_response (JObj [("id", JInt 2); ("strength", JStr "Weak");
                        ("hero_id", JInt 7); ("power_id", JInt 1);
                        ("hero", JNull); ("power", power_summary cycle_power)]) 200, st') /\
  ~ refs_ok st'.
Proof.
  intros kvs hp st'. split.
  - exact (create_hero_power_dangling_hero sqlite_default kvs "Weak" 7 1 cycle_db cycle_power
             eq_refl (or_intror (or_introl eq_refl)) eq_refl eq_refl eq_refl eq_refl
             ltac:(unfold in_int64, min_int64, max_rowid; lia)
             ltac:(unfold in_int64, min_int64, max_rowid; lia)).
  - apply refs_ok_dangling. reflexivity.
Defined.

(** C14: [POST /hero_powers] with a valid strength and a [hero_id] that
    is an integer outside SQLite's signed 64 bits answers 500 and stores
    nothing, whatever the [power_id], the store and the foreign-key
    setting: the [sqlite3] module raises [OverflowError] when the commit
    binds the parameter, and the handler catches only [ValueError].  The
    specification answers an invalid reference with 400. *)
Theorem create_hero_power_id_overflow cfg kvs s hid pv st :
  obj_lookup "strength" kvs = Some (JStr s) -> In s valid_strengths ->
  obj_lookup "hero_id" kvs = Some (JInt hid) -> obj_lookup "power_id" kvs = Some pv ->
  ~ in_int64 hid ->
  handle cfg (PostHeroPower (BodyJson (JObj kvs))) st =
  (mk_response 500 (BServerError (OverflowError int64_error)), st).
Proof.
  intros Hs Hin Hhid Hpid Hb. unfold handle, route, create_hero_power. cbn [request_json rbind].
  rewrite (py_getitem_lookup _ _ _ Hs), (py_getitem_lookup _ _ _ Hhid),
    (py_getitem_lookup _ _ _ Hpid); simpl rbind.
  rewrite (validate_strength_valid s Hin); simpl rbind.
  by rewrite (bind_int_out hid Hb).
Qed.

Lemma create_hero_power_id_overflow_witness :
  ~ in_int64 9223372036854775808 /\
  handle {| foreign_keys := true |}
    (PostHeroPower (BodyJson (JObj [("strength", JStr "Strong"); ("hero_id", JInt 9223372036854775808);
                                    ("power_id", JInt 1)]))) cycle_db =
  (mk_response 500 (BServerError (OverflowError int64_error)), cycle_db).
Proof.
  assert (Hb : ~ in_int64 9223372036854775808) by (unfold in_int64, min_int64, max_rowid; lia).
  split; [exact Hb|].
  exact (create_hero_power_id_overflow {| foreign_keys := true |}
           [("strength", JStr "Strong"); ("hero_id", JInt 9223372036854775808); ("power_id", JInt 1)]
           "Strong" 9223372036854775808 (JInt 1) cycle_db
           eq_refl (or_introl eq_refl) eq_refl eq_refl Hb).
Defined.

(** ** List routes *)

(** C8: [GET /heroes] and [GET /powers] answer 200 with the list of all
    rows in table order, each object holding exactly the allow-listed
    columns ([id], [name], [super_name] / [id], [name], [description]) and
    no nested relationship. *)
Theorem list_routes_flat cfg st :
  handle cfg GetHeroes st = (make_response (JArr (map hero_summary (heroes st))) 200, st) /\
  handle cfg GetPowers st = (make_response (JArr (map power_summary (powers st))) 200, st).
Proof.
  unfold handle, route, get_heroes, get_powers. split.
  - rewrite (mapR_ext _ (fun h => Ok (hero_summary h))) by (intros; apply to_dict_hero_only).
    by rewrite mapR_Ok_map.
  - rewrite (mapR_ext _ (fun p => Ok (power_summary p))) by (intros; apply to_dict_power_only).
    by rewrite mapR_Ok_map.
Qed.

(** ** Failed requests do not change the store *)

Lemma try_except_ValueError_Ok {A} (c : result A) h x :
  try_except_ValueError c h = Ok x -> c = Ok x \/ exists m, h m = Ok x.
Proof. destruct c as [a|[]]; simpl; eauto. Qed.

(** A view function either answers 200 or leaves the store as it was. *)
Lemma route_200_or_unchanged cfg req st r st' :
  route cfg req st = Ok (r, st') -> st' = st \/ status_code r = 200%Z.
Proof.
  destruct req as [| |id| |id|id data|data]; simpl.
  - intros H; injection H as <- <-; auto.
  - unfold get_heroes; intros H; peel H; auto.
  - unfold get_hero; intros H; peel H; destruct a; peel H; auto.
  - unfold get_powers; intros H; peel H; auto.
  - unfold get_power; intros H; peel H; destruct a; peel H; auto.
  - unfold update_power; intros H; peel H; destruct a; [|peel H; auto].
    apply rbind_eq_Ok in H as (dj & Hdj & H).
    apply try_except_ValueError_Ok in H as [H|[m H]]; peel H; auto.
  - unfold create_hero_power; intros H.
    apply rbind_eq_Ok in H as (dj & Hdj & H).
    apply try_except_ValueError_Ok in H as [H|[m H]]; peel H; auto.
Qed.

(** C5: every request that is not answered with 200 (a 404, a 400 from a
    caught [ValueError], the 400 or 415 of a body [request.json] refuses,
    or a 500 from an uncaught exception) leaves the store exactly as it
    was: no partial write is ever committed. *)
Theorem handle_error_unchanged cfg req st :
  status_code (fst (handle cfg req st)) <> 200%Z -> snd (handle cfg req st) = st.
Proof.
  unfold handle. destruct (route cfg req st) as [[r st']|e] eqn:E; simpl; [|by destruct e].
  intros Hne. destruct (route_200_or_unchanged _ _ _ _ _ E); [done|contradiction].
Qed.

Lemma handle_error_unchanged_witness :
  status_code (fst (handle sqlite_default
    (PatchPower 1 (BodyJson (JObj [("description", JStr "too short")]))) cycle_db)) <> 200%Z /\
  snd (handle sqlite_default
    (PatchPower 1 (BodyJson (JObj [("description", JStr "too short")]))) cycle_db) = cycle_db.
Proof.
  assert (H : status_code (fst (handle sqlite_default
    (PatchPower 1 (BodyJson (JObj [("description", JStr "too short")]))) cycle_db)) <> 200%Z)
    by (vm_compute; discriminate).
  split; [exact H|]. exact (handle_error_unchanged _ _ _ H).
Defined.

(** ** Single-row routes *)

(** C9: [GET /heroes/<id>] for an existing hero answers 200 with the
    hero's columns and its [hero_powers], each entry holding the row's
    columns and its power but not the hero ([rules=("-hero_powers.hero",)]). *)
Theorem get_hero_found cfg id st h :
  query_get (heroes st) (Z.of_N id) = Some h -> (Z.of_N id <= max_rowid)%Z ->
  handle cfg (GetHero id) st =
  (make_response (JObj [("id", JInt (Hero.id h)); ("name", jstr_opt (Hero.name h));
                        ("super_name", jstr_opt (Hero.super_name h));
                        ("hero_powers", JArr (map (hero_power_in_hero st)
                                                  (Hero_hero_powers st h)))]) 200, st).
Proof.
  intros H Hb. unfold handle, route, get_hero.
  rewrite session_get_N, H by exact Hb. cbn [rbind]. by rewrite to_dict_get_hero.
Qed.

Lemma get_hero_found_witness :
  query_get (heroes cycle_db) (Z.of_N 1) = Some cycle_hero /\
  handle sqlite_default (GetHero 1) cycle_db =
  (make_response (JObj [("id", JInt 1); ("name", JStr "Kamala Khan");
                        ("super_name", JStr "Ms. Marvel");
                        ("hero_powers", JArr (map (hero_power_in_hero cycle_db)
                                                  (Hero_hero_powers cycle_db cycle_hero)))]) 200,
   cycle_db).
Proof.
  split; [reflexivity|]. apply (get_hero_found _ _ _ cycle_hero); [reflexivity|unfold max_rowid; lia].
Defined.

(** C10: [GET /powers/<id>] for an existing power answers 200 with exactly
    the power's three columns: [rules=("-hero_powers",)] drops the
    relationship, and the association proxy [heroes] is not serialized,
    so the answer never shows which heroes hold the power. *)
Theorem get_power_found cfg id st p :
  query_get (powers st) (Z.of_N id) = Some p -> (Z.of_N id <= max_rowid)%Z ->
  handle cfg (GetPower id) st = (make_response (power_summary p) 200, st).
Proof.
  intros H Hb. unfold handle, route, get_power.
  rewrite session_get_N, H by exact Hb. cbn [rbind]. by rewrite to_dict_get_power.
Qed.

Lemma get_power_found_witness :
  query_get (powers cycle_db) (Z.of_N 1) = Some cycle_power /\
  handle sqlite_default (GetPower 1) cycle_db =
  (make_response (power_summary cycle_power) 200, cycle_db).
Proof. split; [reflexivity|]. apply get_power_found; [reflexivity|unfold max_rowid; lia]. Defined.

(** C20: the description validator checks only [len], not the type: a
    [PATCH /powers/<id>] whose [description] is a JSON array of at least
    20 items passes [validate_description], and the commit then fails to
    bind the list to the [String] column, an exception the handler does
    not catch: the answer is a 500, not the 400 of a validation error. *)
Theorem update_power_list_description cfg id kvs l st p :
  query_get (powers st) (Z.of_N id) = Some p -> (Z.of_N id <= max_rowid)%Z ->
  obj_lookup "description" kvs = Some (JArr l) ->
  20 <= length l ->
  handle cfg (PatchPower id (BodyJson (JObj kvs))) st =
  (mk_response 500 (BServerError (InterfaceError "Error binding parameter")), st).
Proof.
  intros Hp Hb Hd Hlen. unfold handle, route, update_power.
  rewrite session_get_N, Hp by exact Hb. cbn [request_json rbind].
  rewrite (py_contains_lookup _ _ _ Hd); simpl rbind.
  unfold assign_description. rewrite (py_getitem_lookup _ _ _ Hd); simpl rbind.
  unfold validate_description. destruct l as [|x l]; [simpl in Hlen; lia|].
  simpl in Hlen |- *. destruct (Nat.ltb_spec (S (length l)) 20); [lia|]. reflexivity.
Qed.

Lemma update_power_list_description_witness :
  let l := repeat JNull 20 in
  handle sqlite_default (PatchPower 1 (BodyJson (JObj [("description", JArr l)]))) cycle_db =
  (mk_response 500 (BServerError (InterfaceError "Error binding parameter")), cycle_db).
Proof.
  intros l. apply (update_power_list_description _ _ _ l _ cycle_power);
    [reflexivity|unfold max_rowid; lia|reflexivity|unfold l; simpl; lia].
Defined.
