(* ===== verification/Bodies.v ===== *)
(** * Request bodies the specification's table does not describe

    [request.json] is whatever JSON the client sent; [app.py] applies
    Python's [in] and [[]] to it and binds the values to columns without
    checking their types.  The theorems of this file state what the
    handlers of [app.py] answer to bodies outside the table of section 6
    of the specification, and to the one it describes least precisely:
    a body that is not JSON, a [null] reference, a boolean reference, a
    [PATCH] body without [description] and a [PATCH] body that is not an
    object. *)

From Stdlib Require Import String ZArith List Lia.
From stdpp Require Import base list strings.
From S2P Require Import Prelude Json Rules Tables Models Serializer Payloads App.

Open Scope string_scope.

(** [POST /hero_powers] up to the insert: the answer once the row is
    stored. *)
Lemma create_hero_power_inserted cfg kvs s hv pv hid pid st :
  obj_lookup "strength" kvs = Some (JStr s) -> In s valid_strengths ->
  obj_lookup "hero_id" kvs = Some hv -> obj_lookup "power_id" kvs = Some pv ->
  bind_int_ref hv = Ok hid -> bind_int_ref pv = Ok pid ->
  ref_ok (powers st) pid = true -> ref_ok (heroes st) hid = true \/ foreign_keys cfg = false ->
  let hp := HeroPower.mk (next_rowid (hero_powers st)) s hid pid in
  let st' := {| heroes := heroes st; powers := powers st;
                hero_powers := table_insert (hero_powers st) hp |} in
  handle cfg (PostHeroPower (BodyJson (JObj kvs))) st = (make_response (hero_power_detail st' hp) 200, st').
Proof.
  intros Hs Hin Hh Hp Hhid Hpid Hpok Hhok hp st'. unfold handle, route, create_hero_power. cbn [request_json rbind].
  rewrite (py_getitem_lookup _ _ _ Hs), (py_getitem_lookup _ _ _ Hh),
    (py_getitem_lookup _ _ _ Hp); cbn [rbind].
  rewrite (validate_strength_valid s Hin); cbn [rbind bind_strength bind_string].
  rewrite Hhid, Hpid; cbn [rbind]. unfold insert_hero_power. rewrite Hpok, andb_true_r.
  destruct Hhok as [-> | ->]; rewrite ?andb_false_l; cbn [negb andb rbind];
    rewrite ?andb_false_r; cbn [rbind]; by rewrite to_dict_hero_power_detail.
Qed.

Lemma ref_ok_query_get {R} `{Row R} (t : list R) k r :
  query_get t k = Some r -> ref_ok t (Some k) = true.
Proof. simpl. by intros ->. Qed.

Lemma py_contains_array_absent k l :
  ~ In (JStr k) l -> py_contains k (JArr l) = Ok false.
Proof.
  intros Hn. simpl. f_equal. apply not_true_is_false. intros (v & Hin & Heq)%existsb_exists.
  destruct v; try discriminate. apply String.eqb_eq in Heq as ->. contradiction.
Qed.

(** ** A [null] reference *)

(** C30: [POST /hero_powers] with a valid strength, an existing power and
    ["hero_id": null] is answered 200 whether or not foreign keys are
    enforced (a NULL foreign key satisfies the constraint): the store
    gains a row that belongs to no hero, and the answer's [hero] is
    [null].  The specification says a [HeroPower] refers to an existing
    hero and that invalid references answer 400. *)
Theorem create_hero_power_null_hero cfg kvs s pid st p :
  obj_lookup "strength" kvs = Some (JStr s) -> In s valid_strengths ->
  obj_lookup "hero_id" kvs = Some JNull -> obj_lookup "power_id" kvs = Some (JInt pid) ->
  query_get (powers st) pid = Some p -> in_int64 pid ->
  let hp := HeroPower.mk (next_rowid (hero_powers st)) s None (Some pid) in
  let st' := {| heroes := heroes st; powers := powers st;
                hero_powers := table_insert (hero_powers st) hp |} in
  handle cfg (PostHeroPower (BodyJson (JObj kvs))) st = (make_response (hero_power_detail st' hp) 200, st') /\
  HeroPower_hero st' hp = None /\ In hp (hero_powers st').
Proof.
  intros Hs Hin Hh Hp Hpow Hpb hp st'.
  split; [|split; [reflexivity|apply in_or_app; right; left; done]].
  apply (create_hero_power_inserted _ _ _ JNull (JInt pid)); auto using bind_int_ref_int.
  by eapply ref_ok_query_get.
Qed.

Lemma create_hero_power_null_hero_witness :
  let hp := HeroPower.mk 2 "Average" None (Some 1%Z) in
  let st' := {| heroes := heroes cycle_db; powers := powers cycle_db;
                hero_powers := table_insert (hero_powers cycle_db) hp |} in
  handle {| foreign_keys := true |}
    (PostHeroPower (BodyJson (JObj [("strength", JStr "Average"); ("hero_id", JNull); ("power_id", JInt 1)])))
    cycle_db = (make_response (hero_power_detail st' hp) 200, st') /\
  HeroPower_hero st' hp = None /\ In hp (hero_powers st').
Proof.
  exact (create_hero_power_null_hero {| foreign_keys := true |}
           [("strength", JStr "Average"); ("hero_id", JNull); ("power_id", JInt 1)]
           "Average" 1 cycle_db cycle_power
           eq_refl (or_intror (or_intror (or_introl eq_refl))) eq_refl eq_refl eq_refl
           ltac:(unfold in_int64, min_int64, max_rowid; lia)).
Defined.

(** ** A boolean reference *)

(** Python's [bool] is an [int], and the DB-API binds [True] as [1]:
    a [POST /hero_powers] whose [hero_id] is the JSON [true] is the same
    request as one whose [hero_id] is [1], whatever the strength, the
    power and the store.  The specification describes ids as references,
    not booleans. *)
Theorem create_hero_power_bool_hero cfg sv pv st :
  handle cfg (PostHeroPower (BodyJson (JObj [("strength", sv); ("hero_id", JBool true); ("power_id", pv)]))) st =
  handle cfg (PostHeroPower (BodyJson (JObj [("strength", sv); ("hero_id", JInt 1); ("power_id", pv)]))) st.
Proof. reflexivity. Qed.

(** ** A [PATCH] body that is not an object *)

(** C32: a [PATCH /powers/<id>] of an existing power whose body is a JSON
    array without the string ["description"] passes [if "description" in
    data] (list membership), commits nothing and answers 200 with the
    unchanged power; the specification's body is an object
    [{description?}]. *)
Theorem update_power_array_body cfg id l st p :
  query_get (powers st) (Z.of_N id) = Some p -> (Z.of_N id <= max_rowid)%Z ->
  ~ In (JStr "description") l ->
  handle cfg (PatchPower id (BodyJson (JArr l))) st = (make_response (power_full st p) 200, st).
Proof.
  intros Hp Hb Hl. unfold handle, route, update_power.
  rewrite session_get_N, Hp by exact Hb. cbn [request_json rbind].
  rewrite (py_contains_array_absent _ _ Hl); cbn [rbind].
  by rewrite to_dict_power_full.
Qed.

Lemma update_power_array_body_witness :
  handle sqlite_default (PatchPower 1 (BodyJson (JArr [JStr "x"]))) cycle_db =
  (make_response (power_full cycle_db cycle_power) 200, cycle_db).
Proof.
  apply update_power_array_body; [reflexivity|unfold max_rowid; lia|].
  simpl. intros [H|[]]. discriminate.
Defined.

(** C34: a [PATCH /powers/<id>] of an existing power whose body is a
    JSON scalar: for a string, ["description" in data] is a substring
    test, so a string without that substring commits nothing and answers
    200 with the power unchanged, and a string containing it reaches
    [data["description"]], whose [TypeError] is answered 500; for
    [null], a number or a boolean, [in] itself raises [TypeError]: 500.
    The store is never changed. *)
Theorem update_power_scalar_body cfg id x st p :
  query_get (powers st) (Z.of_N id) = Some p -> (Z.of_N id <= max_rowid)%Z ->
  match x with
  | JStr s =>
      handle cfg (PatchPower id (BodyJson x)) st =
      if is_substring "description" s
      then (mk_response 500 (BServerError (TypeError "string indices must be integers")), st)
      else (make_response (power_full st p) 200, st)
  | JArr _ | JObj _ => True
  | _ => exists m, handle cfg (PatchPower id (BodyJson x)) st =
                   (mk_response 500 (BServerError (TypeError m)), st)
  end.
Proof.
  intros Hp Hb. destruct x as [| | |s| |]; try done;
    unfold handle, route, update_power; rewrite session_get_N, Hp by exact Hb;
    cbn [request_json rbind py_contains]; try (eexists; reflexivity).
  destruct (is_substring "description" s); cbn [rbind]; [reflexivity|].
  by rewrite to_dict_power_full.
Qed.

Lemma update_power_scalar_body_witness :
  handle sqlite_default (PatchPower 1 (BodyJson (JStr "a new description"))) cycle_db =
  (mk_response 500 (BServerError (TypeError "string indices must be integers")), cycle_db).
Proof.
  exact (update_power_scalar_body sqlite_default 1 (JStr "a new description") cycle_db cycle_power
           eq_refl ltac:(unfold max_rowid; lia)).
Defined.

(** ** A [PATCH] body without [description] *)

(** C24: a [PATCH /powers/<id>] of an existing power whose body is an
    object without the key [description] skips the assignment of
    [if "description" in data], commits nothing and answers 200 with the
    power as stored; every other key of the body (a [name], an [id]) is
    ignored. *)
Theorem update_power_no_description cfg id kvs st p :
  query_get (powers st) (Z.of_N id) = Some p -> (Z.of_N id <= max_rowid)%Z ->
  obj_lookup "description" kvs = None ->
  handle cfg (PatchPower id (BodyJson (JObj kvs))) st = (make_response (power_full st p) 200, st).
Proof.
  intros Hp Hb Hd. unfold handle, route, update_power.
  rewrite session_get_N, Hp by exact Hb. cbn [request_json rbind].
  rewrite (py_contains_lookup_None _ _ Hd); cbn [rbind].
  by rewrite to_dict_power_full.
Qed.

Lemma update_power_no_description_witness :
  handle sqlite_default (PatchPower 1 (BodyJson (JObj [("name", JStr "flight")]))) cycle_db =
  (make_response (power_full cycle_db cycle_power) 200, cycle_db).
Proof. apply update_power_no_description; [reflexivity|unfold max_rowid; lia|reflexivity]. Defined.

(** ** A body that is not JSON *)

(** C35: [request.json] is read after [Power.query.get] and its 404
    check in [update_power], and before everything else in
    [create_hero_power]: a [POST] whose body is not JSON answers 415
    (400 when the JSON does not parse), before any validation; a [PATCH]
    with such a body answers 404 for a missing power, 415 for an
    existing one, and 500 for an id above [2^63 - 1], which
    [Power.query.get] cannot bind; the store is unchanged. *)
Theorem undecodable_body cfg id st :
  handle cfg (PostHeroPower BodyNotJson) st =
    (mk_response 415 (BHttpError 415 "Unsupported Media Type"), st) /\
  handle cfg (PostHeroPower BodyBadJson) st = (mk_response 400 (BHttpError 400 "Bad Request"), st) /\
  handle cfg (PatchPower id BodyNotJson) st =
    if Z.leb (Z.of_N id) max_rowid then
      match query_get (powers st) (Z.of_N id) with
      | None => (not_found "Power not found", st)
      | Some _ => (mk_response 415 (BHttpError 415 "Unsupported Media Type"), st)
      end
    else (mk_response 500 (BServerError (OverflowError int64_error)), st).
Proof.
  split; [reflexivity|]. split; [reflexivity|].
  unfold handle, route, update_power. destruct (Z.leb_spec (Z.of_N id) max_rowid) as [Hb|Hb].
  - rewrite session_get_N by exact Hb. cbn [rbind]. by destruct (query_get _ _).
  - by rewrite session_get_N_out by exact Hb.
Qed.
