(* ===== verification/Machine.v ===== *)
(** * The service as a state machine

    A step of the service is either one request handled by [App.handle]
    or one administrative delete done through the ORM outside the routes
    of [app.py] (the specification's "deleting a Hero (administrative
    operation)"): [session.delete] of a hero, a power or a hero-power
    row, with the cascades of [models.py].  [reachable cfg init st] holds
    when [st] is obtained from [init] by any sequence of steps; the
    invariants [db_wf], [fks_in_int64] and (with foreign keys enforced)
    [refs_ok] hold in every reachable store, by induction on the
    sequence. *)

From Stdlib Require Import String ZArith List Lia.
From stdpp Require Import base list strings.
From S2P Require Import Prelude Json Rules Tables Models Serializer App.

Open Scope string_scope.

Inductive admin : Type :=
| DeleteHero (id : Z)
| DeletePower (id : Z)
| DeleteHeroPower (id : Z).

Definition run_admin (a : admin) (st : db) : db :=
  match a with
  | DeleteHero id => delete_hero id st
  | DeletePower id => delete_power id st
  | DeleteHeroPower id => delete_hero_power id st
  end.

Section Machine.
Variable cfg : config.

Inductive step : db -> db -> Prop :=
| step_request req st : step st (snd (handle cfg req st))
| step_admin a st : step st (run_admin a st).

Inductive reachable (init : db) : db -> Prop :=
| reach_init : reachable init init
| reach_step st st' : reachable init st -> step st st' -> reachable init st'.

(** An invariant of every step holds in every reachable store. *)
Lemma reachable_ind_inv (P : db -> Prop) init st :
  P init -> (forall s s', P s -> step s s' -> P s') -> reachable init st -> P st.
Proof. intros Hinit Hstep. induction 1; eauto. Qed.
End Machine.

(** ** Each write keeps the invariant *)

Lemma assign_description_wf power data st p' st' :
  db_wf st -> assign_description power data st = Ok (p', st') -> db_wf st'.
Proof.
  intros Hwf H. unfold assign_description in H. peel H.
  apply validate_description_accepts in Ha0 as [-> (n & Hn & Hge)].
  destruct a as [| | |s| |]; simpl in Hn, Ha1; try discriminate.
  inversion Ha1; inversion Hn; subst.
  apply db_wf_set_power_description; [done|]. simpl; lia.
Qed.

Lemma route_wf cfg req st r st' :
  db_wf st -> route cfg req st = Ok (r, st') -> db_wf st'.
Proof.
  intros Hwf. destruct req as [| |id| |id|id data|data]; simpl.
  - intros H; injection H as <- <-; auto.
  - unfold get_heroes; intros H; peel H; auto.
  - unfold get_hero; intros H; peel H; destruct a; peel H; auto.
  - unfold get_powers; intros H; peel H; auto.
  - unfold get_power; intros H; peel H; destruct a; peel H; auto.
  - unfold update_power; intros H; peel H; destruct a; clear Ha; [|peel H; auto].
    apply rbind_eq_Ok in H as (dj & Hdj & H).
    apply try_except_ValueError_Ok in H as [H|[m H]]; peel H; auto.
    destruct a; [|by injection Ha0 as <- <-]. by eapply assign_description_wf.
  - unfold create_hero_power; intros H.
    apply rbind_eq_Ok in H as (dj & Hdj & H).
    apply try_except_ValueError_Ok in H as [H|[m H]]; peel H; auto.
    apply validate_strength_Ok in Ha2 as [-> (s & -> & Hin)].
    unfold bind_strength in Ha3; simpl in Ha3. injection Ha3 as <-.
    by eapply db_wf_insert_hero_power.
Qed.

Lemma step_wf cfg st st' : db_wf st -> step cfg st st' -> db_wf st'.
Proof.
  intros Hwf Hs. destruct Hs as [req s|a s].
  - unfold handle. destruct (route cfg req s) as [[r s']|e] eqn:E; simpl; [|by destruct e].
    by eapply route_wf.
  - destruct a; simpl;
      auto using db_wf_delete_hero, db_wf_delete_power, db_wf_delete_hero_power.
Qed.

(** C15: the store invariant holds in every store the service can reach
    from a well-formed one: ids of each table positive and strictly
    increasing (hence unique), every power's description at least 20
    characters long, every strength one of the three literals. *)
Theorem reachable_wf cfg init st :
  db_wf init -> reachable cfg init st -> db_wf st.
Proof. intros Hinit. apply reachable_ind_inv; [done|]. intros s s'. apply step_wf. Qed.

(** ** Referential integrity *)

Lemma route_refs_ok cfg req st r st' :
  foreign_keys cfg = true -> refs_ok st -> route cfg req st = Ok (r, st') -> refs_ok st'.
Proof.
  intros Hfk Hok. destruct req as [| |id| |id|id data|data]; simpl.
  - intros H; injection H as <- <-; auto.
  - unfold get_heroes; intros H; peel H; auto.
  - unfold get_hero; intros H; peel H; destruct a; peel H; auto.
  - unfold get_powers; intros H; peel H; auto.
  - unfold get_power; intros H; peel H; destruct a; peel H; auto.
  - unfold update_power; intros H; peel H; destruct a; clear Ha; [|peel H; auto].
    apply rbind_eq_Ok in H as (dj & Hdj & H).
    apply try_except_ValueError_Ok in H as [H|[m H]]; peel H; auto.
    destruct a; [|by injection Ha0 as <- <-].
    unfold assign_description in Ha0. peel Ha0. by apply refs_ok_set_power_description.
  - unfold create_hero_power; intros H.
    apply rbind_eq_Ok in H as (dj & Hdj & H).
    apply try_except_ValueError_Ok in H as [H|[m H]]; peel H; auto.
    by eapply refs_ok_insert_hero_power.
Qed.

Lemma step_refs_ok cfg st st' :
  foreign_keys cfg = true -> refs_ok st -> step cfg st st' -> refs_ok st'.
Proof.
  intros Hfk Hok Hs. destruct Hs as [req s|a s].
  - unfold handle. destruct (route cfg req s) as [[r s']|e] eqn:E; simpl; [|by destruct e].
    by eapply route_refs_ok.
  - destruct a; simpl;
      auto using refs_ok_delete_hero, refs_ok_delete_power, refs_ok_delete_hero_power.
Qed.

(** C16: when the database enforces foreign keys, every store reachable
    from one with resolvable references keeps them resolvable: the
    cascades of [models.py] remove the rows of a deleted hero or power,
    and an insert naming a missing row is refused. *)
Theorem reachable_refs_ok cfg init st :
  foreign_keys cfg = true -> refs_ok init -> reachable cfg init st -> refs_ok st.
Proof.
  intros Hfk Hinit. apply reachable_ind_inv; [done|]. intros s s'. by apply step_refs_ok.
Qed.

Lemma reachable_refs_ok_witness :
  foreign_keys {| foreign_keys := true |} = true /\ refs_ok cycle_db /\
  refs_ok (snd (handle {| foreign_keys := true |}
    (PostHeroPower (BodyJson (JObj [("strength", JStr "Weak"); ("hero_id", JInt 7); ("power_id", JInt 1)])))
    cycle_db)).
Proof.
  assert (Hok : refs_ok cycle_db) by (repeat constructor).
  split; [reflexivity|]. split; [exact Hok|].
  apply (reachable_refs_ok {| foreign_keys := true |} cycle_db); [reflexivity|exact Hok|].
  eapply reach_step; [apply reach_init|apply step_request].
Defined.

(** C17: under SQLite's default, where foreign keys are not enforced,
    referential integrity is not an invariant of the service: from a store
    whose references all resolve, one [POST /hero_powers] naming a
    missing hero reaches a store with a dangling [hero_id]. *)
Theorem refs_ok_not_invariant_sqlite :
  refs_ok cycle_db /\ exists st, reachable sqlite_default cycle_db st /\ ~ refs_ok st.
Proof.
  split; [repeat constructor|].
  eexists; split.
  - eapply reach_step; [apply reach_init|].
    apply (step_request sqlite_default
      (PostHeroPower (BodyJson (JObj [("strength", JStr "Weak"); ("hero_id", JInt 7); ("power_id", JInt 1)])))).
  - match goal with |- ~ refs_ok (snd ?r) =>
      replace (snd r) with
        {| heroes := heroes cycle_db; powers := powers cycle_db;
           hero_powers := table_insert (hero_powers cycle_db)
                            (HeroPower.mk 2 "Weak" (Some 7%Z) (Some 1%Z)) |}
        by (vm_compute; reflexivity) end.
    apply refs_ok_dangling. reflexivity.
Qed.

Lemma reachable_wf_witness :
  db_wf cycle_db /\
  db_wf (snd (handle sqlite_default
    (PatchPower 1 (BodyJson (JObj [("description", JStr "This is a valid description.")]))) cycle_db)).
Proof.
  assert (Hwf : db_wf cycle_db) by (apply db_wfb_sound; reflexivity).
  split; [exact Hwf|].
  apply (reachable_wf sqlite_default cycle_db); [exact Hwf|].
  eapply reach_step; [apply reach_init|apply step_request].
Defined.

(** ** Foreign keys within 64 bits *)




