(* ===== verification/ApiSpec.v ===== *)
(** * The API contract and its refinement by the handlers

    [api_spec e req st (r, st')] is the table of section 6 of the
    specification, with the error design of section 7, as a relation
    between a request, the store before, the answer and the store after.
    It states the store's change on the abstract tables [to_map] (a
    [gmap] from primary key to row), the answer through the projections
    of [Payloads], and lets a malformed body (one the table does not
    describe) answer anything of the route's shapes without changing the
    store beyond what a well-formed request could.  An id or a reference
    outside SQLite's signed 64 bits is answered 500 ([spec_id_overflow],
    [spec_post_overflow]): [app.py] passes it to the database unchecked.  The parameter [e]
    says whether the database enforces foreign keys: with [e = true] a
    created [HeroPower] has references that resolve.  A body that
    [request.json] cannot decode may only get a client error page, with
    the store unchanged.  [handle_spec_routes] (route by route, through
    the fact that only [request.json] raises an HTTP error) proves that
    Flask's dispatch of the routes of [app.py] refines the relation, for
    every request and store.  The JSON types of every answer and a
    liveness guarantee of the service follow from the relation. *)

From Stdlib Require Import String ZArith List Lia.
From stdpp Require Import base list strings gmap.
From S2P Require Import Prelude Json Rules Tables Models Serializer Payloads App Machine.

Open Scope string_scope.

(** The body of a [POST /hero_powers] that links hero [hid] to power
    [pid] with strength [s]. *)
Definition link_body (s : string) (hid pid : Z) : json :=
  JObj [("strength", JStr s); ("hero_id", JInt hid); ("power_id", JInt pid)].

(** An exception Flask answers with its own status code. *)
Definition is_http (x : exn) : bool :=
  match x with HTTPException _ _ => true | _ => false end.

(** A computation that raises no [HTTPException]. *)
Definition no_http {A} (c : result A) : Prop := forall x, c = Raise x -> is_http x = false.

(** ** The contract *)

(** A [description] the validator must refuse: [null] or a string of
    fewer than 20 characters. *)
Definition description_rejected (v : json) : Prop :=
  v = JNull \/ exists s, v = JStr s /\ String.length s < 20.

(** The decoded body of [PATCH /powers/<id>] the table describes: an
    object whose optional [description] is a string or [null]. *)
Definition patch_body_wf (data : json) : bool :=
  match data with
  | JObj kvs =>
      match obj_lookup "description" kvs with
      | None | Some JNull | Some (JStr _) => true
      | Some _ => false
      end
  | _ => false
  end.

(** A reference in a body: a JSON integer or [null]. *)
Definition is_ref (v : json) : bool :=
  match v with JInt _ | JNull => true | _ => false end.

(** The decoded body of [POST /hero_powers] the table describes: an
    object with [strength], [hero_id] and [power_id], the ids integers or
    [null]. *)
Definition post_body_wf (data : json) : bool :=
  match data with
  | JObj kvs =>
      match obj_lookup "strength" kvs, obj_lookup "hero_id" kvs,
            obj_lookup "power_id" kvs with
      | Some _, Some h, Some p => is_ref h && is_ref p
      | _, _, _ => false
      end
  | _ => false
  end.

Definition strength_ok (v : json) : Prop := exists s, v = JStr s /\ In s valid_strengths.

(** A reference value the [sqlite3] module can bind: anything but an
    integer outside 64 bits. *)
Definition ref_fits (v : json) : Prop :=
  match v with JInt z => in_int64 z | _ => True end.

#[export] Instance ref_fits_dec v : Decision (ref_fits v).
Proof. destruct v; simpl; apply _. Defined.

(** The id in the path of a request. *)
Definition request_id (req : request) : option N :=
  match req with
  | GetHero id | GetPower id | PatchPower id _ => Some id
  | _ => None
  end.

(** A reference that is [NULL] or names a row of the table. *)
Definition resolves {R} `{Row R} (t : list R) (o : option Z) : Prop :=
  match o with None => True | Some k => is_Some (to_map t !! k) end.

(** The store [st'] is [st] with one more [HeroPower] [hp]: a valid
    strength, references SQLite can hold that resolve when foreign keys
    are enforced, an id no row had. *)
Definition row_added (e : bool) (st st' : db) (hp : HeroPower.t) : Prop :=
  In (HeroPower.strength hp) valid_strengths /\
  ref_in_int64 (HeroPower.hero_id hp) /\ ref_in_int64 (HeroPower.power_id hp) /\
  (e = true -> resolves (heroes st) (HeroPower.hero_id hp) /\
               resolves (powers st) (HeroPower.power_id hp)) /\
  to_map (hero_powers st) !! HeroPower.id hp = None /\
  heroes st' = heroes st /\ powers st' = powers st /\
  to_map (hero_powers st') = <[HeroPower.id hp := hp]> (to_map (hero_powers st)).

Definition server_error (r : response) : Prop := exists x, r = mk_response 500 (BServerError x).

(** A client error page: the answer to a body that cannot be decoded. *)
Definition client_error (r : response) : Prop :=
  exists code name, r = mk_response code (BHttpError code name) /\ (400 <= code < 500)%Z.

Inductive api_spec (e : bool) : request -> db -> response * db -> Prop :=
| spec_index st :
    api_spec e Index st (mk_response 200 (BHtml "<h1>Code challenge</h1>"), st)
| spec_get_heroes st :
    api_spec e GetHeroes st (make_response (JArr (map hero_summary (heroes st))) 200, st)
| spec_get_hero id st h :
    (Z.of_N id <= max_rowid)%Z ->
    to_map (heroes st) !! Z.of_N id = Some h ->
    api_spec e (GetHero id) st (make_response (hero_detail st h) 200, st)
| spec_get_hero_missing id st :
    (Z.of_N id <= max_rowid)%Z ->
    to_map (heroes st) !! Z.of_N id = None ->
    api_spec e (GetHero id) st (not_found "Hero not found", st)
| spec_get_powers st :
    api_spec e GetPowers st (make_response (JArr (map power_summary (powers st))) 200, st)
| spec_get_power id st p :
    (Z.of_N id <= max_rowid)%Z ->
    to_map (powers st) !! Z.of_N id = Some p ->
    api_spec e (GetPower id) st (make_response (power_summary p) 200, st)
| spec_get_power_missing id st :
    (Z.of_N id <= max_rowid)%Z ->
    to_map (powers st) !! Z.of_N id = None ->
    api_spec e (GetPower id) st (not_found "Power not found", st)
| spec_patch_missing id b st :
    (Z.of_N id <= max_rowid)%Z ->
    to_map (powers st) !! Z.of_N id = None ->
    api_spec e (PatchPower id b) st (not_found "Power not found", st)
| spec_patch_undecodable id b st p r :
    (Z.of_N id <= max_rowid)%Z ->
    to_map (powers st) !! Z.of_N id = Some p -> (forall j, b <> BodyJson j) -> client_error r ->
    api_spec e (PatchPower id b) st (r, st)
| spec_patch_keep id kvs st p :
    (Z.of_N id <= max_rowid)%Z ->
    to_map (powers st) !! Z.of_N id = Some p ->
    obj_lookup "description" kvs = None ->
    api_spec e (PatchPower id (BodyJson (JObj kvs))) st (make_response (power_full st p) 200, st)
| spec_patch_set id kvs s st st' p :
    (Z.of_N id <= max_rowid)%Z ->
    to_map (powers st) !! Z.of_N id = Some p ->
    obj_lookup "description" kvs = Some (JStr s) -> 20 <= String.length s ->
    heroes st' = heroes st -> hero_powers st' = hero_powers st ->
    to_map (powers st') =
      <[Z.of_N id := Power.mk (Power.id p) (Power.name p) (Some s)]> (to_map (powers st)) ->
    api_spec e (PatchPower id (BodyJson (JObj kvs))) st
      (make_response (power_full st' (Power.mk (Power.id p) (Power.name p) (Some s))) 200, st')
| spec_patch_invalid id kvs v st p :
    (Z.of_N id <= max_rowid)%Z ->
    to_map (powers st) !! Z.of_N id = Some p ->
    obj_lookup "description" kvs = Some v -> description_rejected v ->
    api_spec e (PatchPower id (BodyJson (JObj kvs))) st (validation_errors, st)
| spec_patch_malformed id data st p r :
    (Z.of_N id <= max_rowid)%Z ->
    to_map (powers st) !! Z.of_N id = Some p -> patch_body_wf data = false ->
    r = make_response (power_full st p) 200 \/ r = validation_errors \/ server_error r ->
    api_spec e (PatchPower id (BodyJson data)) st (r, st)
| spec_post_invalid kvs sv hv pv st :
    obj_lookup "strength" kvs = Some sv -> obj_lookup "hero_id" kvs = Some hv ->
    obj_lookup "power_id" kvs = Some pv -> ~ strength_ok sv ->
    api_spec e (PostHeroPower (BodyJson (JObj kvs))) st (validation_errors, st)
| spec_post_created kvs st st' hp :
    obj_lookup "strength" kvs = Some (JStr (HeroPower.strength hp)) ->
    obj_lookup "hero_id" kvs = Some (jint_opt (HeroPower.hero_id hp)) ->
    obj_lookup "power_id" kvs = Some (jint_opt (HeroPower.power_id hp)) ->
    row_added e st st' hp ->
    api_spec e (PostHeroPower (BodyJson (JObj kvs))) st (make_response (hero_power_detail st' hp) 200, st')
| spec_post_dangling kvs s hid pid st r :
    e = true ->
    obj_lookup "strength" kvs = Some (JStr s) -> In s valid_strengths ->
    obj_lookup "hero_id" kvs = Some (jint_opt hid) ->
    obj_lookup "power_id" kvs = Some (jint_opt pid) ->
    ref_in_int64 hid -> ref_in_int64 pid ->
    ~ (resolves (heroes st) hid /\ resolves (powers st) pid) -> server_error r ->
    api_spec e (PostHeroPower (BodyJson (JObj kvs))) st (r, st)
| spec_post_overflow kvs s hv pv st r :
    obj_lookup "strength" kvs = Some (JStr s) -> In s valid_strengths ->
    obj_lookup "hero_id" kvs = Some hv -> obj_lookup "power_id" kvs = Some pv ->
    ~ (ref_fits hv /\ ref_fits pv) -> server_error r ->
    api_spec e (PostHeroPower (BodyJson (JObj kvs))) st (r, st)
| spec_post_malformed data st r st' :
    post_body_wf data = false ->
    (r = validation_errors /\ st' = st) \/ (server_error r /\ st' = st) \/
    (exists hp, row_added e st st' hp /\ r = make_response (hero_power_detail st' hp) 200) ->
    api_spec e (PostHeroPower (BodyJson data)) st (r, st')
| spec_post_undecodable b st r :
    (forall j, b <> BodyJson j) -> client_error r ->
    api_spec e (PostHeroPower b) st (r, st)
| spec_id_overflow req id st r :
    request_id req = Some id -> (max_rowid < Z.of_N id)%Z -> server_error r ->
    api_spec e req st (r, st).

(** ** The types of the answers *)



(** ** What each route can answer *)

Lemma ref_ok_resolves {R} `{Row R} (t : list R) o : ref_ok t o = true <-> resolves t o.
Proof.
  destruct o as [k|]; simpl; [|done]. rewrite to_map_lookup.
  destruct (query_get t k); simpl; split; intros; [eauto|done|discriminate|by destruct H0].
Qed.

(** A successful insert adds one row with the next rowid. *)
Lemma insert_hero_power_row_added cfg s hid pid st hp st' :
  In s valid_strengths -> ref_in_int64 hid -> ref_in_int64 pid ->
  insert_hero_power cfg s hid pid st = Ok (hp, st') ->
  row_added (foreign_keys cfg) st st' hp /\
  hp = HeroPower.mk (next_rowid (hero_powers st)) s hid pid.
Proof.
  intros Hs Hhr Hpr. unfold insert_hero_power.
  destruct (foreign_keys cfg && negb (ref_ok (heroes st) hid && ref_ok (powers st) pid))
    eqn:E; [discriminate|].
  intros H; injection H as <- <-. split; [|done].
  unfold row_added; simpl.
  refine (conj Hs (conj Hhr (conj Hpr (conj _ (conj _ (conj eq_refl (conj eq_refl _))))))).
  - intros Hfk. rewrite Hfk in E. simpl in E.
    apply negb_false_iff, andb_prop in E as [Hh Hp]. split; by apply ref_ok_resolves.
  - rewrite to_map_lookup. apply next_rowid_fresh.
  - exact (to_map_insert (hero_powers st) (HeroPower.mk (next_rowid (hero_powers st)) s hid pid)
             (next_rowid_fresh _)).
Qed.

(** [create_hero_power] either answers 400 with the store unchanged or
    adds one row and answers 200 with its projection. *)
Lemma create_hero_power_Ok cfg data st r st' :
  create_hero_power cfg data st = Ok (r, st') ->
  (r = validation_errors /\ st' = st) \/
  exists hp, row_added (foreign_keys cfg) st st' hp /\
             r = make_response (hero_power_detail st' hp) 200.
Proof.
  unfold create_hero_power. intros H. apply rbind_eq_Ok in H as (dj & _ & H).
  apply try_except_ValueError_Ok in H as [H|[m H]]; [|injection H as <- <-; auto].
  peel H. right.
  apply validate_strength_Ok in Ha2 as [-> (s & -> & Hin)].
  unfold bind_strength in Ha3; simpl in Ha3. injection Ha3 as <-.
  destruct (insert_hero_power_row_added _ _ _ _ _ _ _ Hin (bind_int_ref_range _ _ Ha4)
              (bind_int_ref_range _ _ Ha5) Ha6) as [Hrow _].
  exists t. split; [done|]. rewrite to_dict_hero_power_detail in Ha7. by injection Ha7 as <-.
Qed.

(** On a body the table does not describe, [update_power] never writes. *)
Lemma update_power_Ok_malformed id data st p r st' :
  query_get (powers st) id = Some p -> in_int64 id -> patch_body_wf data = false ->
  update_power id (BodyJson data) st = Ok (r, st') ->
  st' = st /\ (r = make_response (power_full st p) 200 \/ r = validation_errors).
Proof.
  intros Hp Hid Hwf. unfold update_power. rewrite session_get_in, Hp by exact Hid.
  cbn [request_json rbind]. intros H.
  apply try_except_ValueError_Ok in H as [H|[m H]]; [|injection H as <- <-; auto].
  peel H. destruct a.
  - exfalso. unfold assign_description in Ha0.
    apply rbind_eq_Ok in Ha0 as (v & Hget & Ha0).
    apply rbind_eq_Ok in Ha0 as (v' & Hval & Ha0).
    apply rbind_eq_Ok in Ha0 as (col & Hbind & _).
    apply py_getitem_Ok in Hget as (kvs & -> & Hd).
    apply validate_description_accepts in Hval as [-> _].
    simpl in Hwf. rewrite Hd in Hwf. destruct v; simpl in Hbind; discriminate.
  - injection Ha0 as <- <-. rewrite to_dict_power_full in Ha1. injection Ha1 as <-. auto.
Qed.

(** [alter] at a key that is present is an [insert]. *)
Lemma alter_present {A} (f : A -> A) (m : gmap Z A) i x :
  m !! i = Some x -> alter f i m = <[i := f x]> m.
Proof.
  intros Hi. apply map_eq; intros j. destruct (decide (i = j)) as [<-|Hne].
  - by rewrite lookup_alter_eq, lookup_insert_eq, Hi.
  - by rewrite lookup_alter_ne, lookup_insert_ne.
Qed.

(** ** Only [request.json] raises an HTTP error *)

Lemma no_http_Ok {A} (a : A) : no_http (Ok a).
Proof. by intros x. Qed.

Lemma no_http_bind {A B} (c : result A) (k : A -> result B) :
  no_http c -> (forall a, no_http (k a)) -> no_http (rbind c k).
Proof.
  intros Hc Hk. destruct c as [a|e]; [apply Hk|].
  intros x Hx. injection Hx as <-. exact (Hc e eq_refl).
Qed.

Lemma no_http_try {A} (c : result A) h :
  no_http c -> (forall m, no_http (h m)) -> no_http (try_except_ValueError c h).
Proof. intros Hc Hh. destruct c as [a|[]]; try exact Hc. apply Hh. Qed.

Ltac no_http_prim := intros ? Hx; repeat (case_match || (progress (cbn in Hx))); simplify_eq; reflexivity.

Lemma no_http_getitem x k : no_http (py_getitem x k).
Proof. unfold py_getitem. no_http_prim. Qed.
Lemma no_http_contains k x : no_http (py_contains k x).
Proof. unfold py_contains. no_http_prim. Qed.
Lemma no_http_validate_description v : no_http (validate_description v).
Proof. unfold validate_description, py_len. no_http_prim. Qed.
Lemma no_http_validate_strength v : no_http (validate_strength v).
Proof. unfold validate_strength. no_http_prim. Qed.
Lemma no_http_bind_string v : no_http (bind_string v).
Proof. unfold bind_string. no_http_prim. Qed.
Lemma no_http_bind_strength v : no_http (bind_strength v).
Proof. unfold bind_strength, bind_string. no_http_prim. Qed.
Lemma no_http_bind_int z : no_http (bind_int z).
Proof. unfold bind_int. no_http_prim. Qed.
Lemma no_http_bind_int_ref v : no_http (bind_int_ref v).
Proof. unfold bind_int_ref, bind_int. no_http_prim. Qed.
Lemma no_http_session_get {R} `{Row R} (t : list R) id : no_http (session_get t id).
Proof. unfold session_get, bind_int. no_http_prim. Qed.
Lemma no_http_insert cfg s hid pid st : no_http (insert_hero_power cfg s hid pid st).
Proof. unfold insert_hero_power. no_http_prim. Qed.
Lemma no_http_to_dict st sc e : no_http (to_dict st sc e).
Proof. destruct (to_dict_ok st sc e) as [j ->]. apply no_http_Ok. Qed.

#[export] Hint Resolve no_http_Ok no_http_getitem no_http_contains no_http_validate_description
  no_http_validate_strength no_http_bind_string no_http_bind_strength no_http_bind_int_ref
  no_http_insert no_http_to_dict no_http_bind_int no_http_session_get : heroes.

(** Split a computation into binds down to the primitives of the hint
    database. *)
Ltac no_http_steps :=
  repeat first
    [ apply no_http_try
    | apply no_http_bind; [solve [eauto with heroes]|]
    | progress intros
    | match goal with
      | |- no_http (let (_, _) := ?p in _) => destruct p
      | |- context [if ?b then _ else _] => destruct b
      end
    | solve [eauto with heroes] ].

Lemma no_http_assign_description p data st : no_http (assign_description p data st).
Proof. unfold assign_description. no_http_steps. Qed.

#[export] Hint Resolve no_http_assign_description : heroes.

Lemma no_http_update_power id data st : no_http (update_power id (BodyJson data) st).
Proof.
  unfold update_power. apply no_http_bind; [eauto with heroes|].
  intros [p|]; cbn [request_json rbind]; no_http_steps.
Qed.

Lemma no_http_create_hero_power cfg data st : no_http (create_hero_power cfg (BodyJson data) st).
Proof. unfold create_hero_power. cbn [request_json rbind]. no_http_steps. Qed.

(** A view function that raises something other than an HTTP error is
    answered with Flask's 500 page and the store rolled back. *)
Lemma handle_Raise cfg req st x :
  route cfg req st = Raise x -> is_http x = false ->
  handle cfg req st = (mk_response 500 (BServerError x), st).
Proof. unfold handle. intros -> Hx. destruct x; done. Qed.

(** ** Each route refines the contract *)

Section Refinement.
Variable cfg : config.

Lemma patch_spec id b st :
  api_spec (foreign_keys cfg) (PatchPower id b) st (handle cfg (PatchPower id b) st).
Proof.
  destruct (Z.leb_spec (Z.of_N id) max_rowid) as [Hb|Hb].
  2:{ unfold handle, route, update_power. rewrite session_get_N_out by exact Hb.
      apply (spec_id_overflow _ _ id); [done|done|by eexists]. }
  destruct (query_get (powers st) (Z.of_N id)) as [p|] eqn:Hp.
  2:{ unfold handle, route, update_power. rewrite session_get_N, Hp by exact Hb.
      apply spec_patch_missing; [done|]. by rewrite to_map_lookup. }
  assert (Hp' : to_map (powers st) !! Z.of_N id = Some p) by (by rewrite to_map_lookup).
  destruct b as [data| |].
  2,3: unfold handle, route, update_power; rewrite session_get_N, Hp by exact Hb;
       apply (spec_patch_undecodable _ _ _ _ p); [done|done|done|do 2 eexists; split; [done|lia]].
  destruct (patch_body_wf data) eqn:Hwf.
  - destruct data as [| | | | |kvs]; try discriminate. simpl in Hwf.
    unfold handle, route, update_power. rewrite session_get_N, Hp by exact Hb.
    cbn [request_json rbind].
    destruct (obj_lookup "description" kvs) as [v|] eqn:Hd.
    + rewrite (py_contains_lookup _ _ _ Hd). cbn [rbind]. unfold assign_description.
      rewrite (py_getitem_lookup _ _ _ Hd). cbn [rbind].
      destruct v as [| | |s| |]; try discriminate.
      * apply (spec_patch_invalid _ _ _ JNull _ p); [done|done|done|by left].
      * rewrite validate_description_str. destruct (Nat.ltb_spec (String.length s) 20).
        { apply (spec_patch_invalid _ _ _ (JStr s) _ p); [done|done|done|right; eauto]. }
        cbn [rbind bind_string]. rewrite to_dict_power_full. cbn [rbind try_except_ValueError].
        pose proof (query_get_Some _ _ _ Hp) as [_ Hid].
        apply spec_patch_set; [done|done|done|done|done|done|].
        unfold set_power_description; simpl. rewrite to_map_update by reflexivity.
        rewrite <- Hid, (alter_present _ _ _ p); [reflexivity|]. change (Power.id p) with (row_id p). congruence.
    + rewrite (py_contains_lookup_None _ _ Hd). cbn [rbind].
      rewrite to_dict_power_full. cbn [rbind try_except_ValueError].
      by apply spec_patch_keep.
  - pose proof (proj2 (in_int64_N id) Hb) as Hid.
    destruct (update_power (Z.of_N id) (BodyJson data) st) as [[r st']|x] eqn:E.
    + unfold handle, route. rewrite E.
      destruct (update_power_Ok_malformed _ _ _ _ _ _ Hp Hid Hwf E) as [-> Hr].
      apply (spec_patch_malformed _ _ _ _ p); [done|done|done|]. destruct Hr; auto.
    + rewrite (handle_Raise _ _ _ x) by (done || exact (no_http_update_power _ _ _ _ E)).
      apply (spec_patch_malformed _ _ _ _ p); [done|done|done|]. right; right. by eexists.
Qed.
(** A reference the table describes binds to the key it names, when it
    fits in 64 bits. *)
Lemma is_ref_bind v :
  is_ref v = true -> ref_fits v -> exists o, v = jint_opt o /\ bind_int_ref v = Ok o.
Proof.
  destruct v; try discriminate; intros _ Hf; [by exists None|exists (Some z)].
  split; [done|]. by apply bind_int_ref_int.
Qed.

(** A reference that does not fit raises [OverflowError]. *)
Lemma bind_int_ref_overflow v : ~ ref_fits v -> bind_int_ref v = Raise (OverflowError int64_error).
Proof. destruct v; simpl; try tauto. intros Hz. by rewrite bind_int_out. Qed.

Lemma post_spec b st :
  api_spec (foreign_keys cfg) (PostHeroPower b) st (handle cfg (PostHeroPower b) st).
Proof.
  destruct b as [data| |].
  2,3: apply spec_post_undecodable; [done|do 2 eexists; split; [done|lia]].
  destruct (post_body_wf data) eqn:Hwf.
  2:{ destruct (create_hero_power cfg (BodyJson data) st) as [[r st']|x] eqn:E.
      - unfold handle, route. rewrite E. apply spec_post_malformed; [done|].
        destruct (create_hero_power_Ok _ _ _ _ _ E) as [[-> ->]|Hrow]; auto.
      - rewrite (handle_Raise _ _ _ x) by (done || exact (no_http_create_hero_power _ _ _ _ E)).
        apply spec_post_malformed; [done|]. right; left. split; [by eexists|done]. }
  destruct data as [| | | | |kvs]; try discriminate. simpl in Hwf.
  destruct (obj_lookup "strength" kvs) as [sv|] eqn:Hs, (obj_lookup "hero_id" kvs) as [hv|] eqn:Hh,
    (obj_lookup "power_id" kvs) as [pv|] eqn:Hpv; try discriminate.
  apply andb_prop in Hwf as [Hhr Hpr].
  unfold handle, route, create_hero_power. cbn [request_json rbind].
  rewrite (py_getitem_lookup _ _ _ Hs), (py_getitem_lookup _ _ _ Hh),
    (py_getitem_lookup _ _ _ Hpv). cbn [rbind].
  destruct (py_in_strs sv valid_strengths) eqn:Hin.
  2:{ rewrite validate_strength_invalid.
      - apply (spec_post_invalid _ _ sv _ _ _ Hs Hh Hpv). unfold strength_ok.
        rewrite <- py_in_strs_iff. congruence.
      - rewrite <- py_in_strs_iff. congruence. }
  apply py_in_strs_iff in Hin as (s & -> & Hin).
  rewrite (validate_strength_valid s Hin). cbn [rbind bind_strength bind_string].
  destruct (decide (ref_fits hv)) as [Hhf|Hhf].
  2:{ rewrite (bind_int_ref_overflow hv Hhf). cbn [rbind try_except_ValueError].
      apply (spec_post_overflow _ _ s hv pv); [done|done|done|done|tauto|by eexists]. }
  destruct (is_ref_bind hv Hhr Hhf) as (hid & -> & Hhid). rewrite Hhid. cbn [rbind].
  destruct (decide (ref_fits pv)) as [Hpf|Hpf].
  2:{ rewrite (bind_int_ref_overflow pv Hpf). cbn [rbind try_except_ValueError].
      apply (spec_post_overflow _ _ s (jint_opt hid) pv); [done|done|done|done|tauto|by eexists]. }
  destruct (is_ref_bind pv Hpr Hpf) as (pid & -> & Hpid). rewrite Hpid. cbn [rbind].
  pose proof (bind_int_ref_range _ _ Hhid) as Hhb. pose proof (bind_int_ref_range _ _ Hpid) as Hpb.
  destruct (insert_hero_power cfg s hid pid st) as [[hp st']|x] eqn:Ei.
  - destruct (insert_hero_power_row_added _ _ _ _ _ _ _ Hin Hhb Hpb Ei) as [Hrow ->].
    cbn [rbind]. rewrite to_dict_hero_power_detail. cbn [rbind try_except_ValueError].
    by apply spec_post_created.
  - unfold insert_hero_power in Ei.
    destruct (foreign_keys cfg && negb (ref_ok (heroes st) hid && ref_ok (powers st) pid))
      eqn:E; [|discriminate].
    injection Ei as <-. cbn [rbind try_except_ValueError].
    apply andb_prop in E as [Hfk Hbad].
    apply (spec_post_dangling _ _ s hid pid); [done|done|done|done|done|done|done| |by eexists].
    intros [Hh' Hp']. apply ref_ok_resolves in Hh', Hp'. by rewrite Hh', Hp' in Hbad.
Qed.

Lemma handle_spec_routes req st :
  api_spec (foreign_keys cfg) req st (handle cfg req st).
Proof.
  destruct req as [| |id| |id|id data|data].
  - apply spec_index.
  - unfold handle, route, get_heroes.
    rewrite (mapR_ext _ (fun h => Ok (hero_summary h))) by (intros; apply to_dict_hero_only).
    rewrite mapR_Ok_map. apply spec_get_heroes.
  - unfold handle, route, get_hero. destruct (Z.leb_spec (Z.of_N id) max_rowid) as [Hb|Hb].
    2:{ rewrite session_get_N_out by exact Hb. apply (spec_id_overflow _ _ id); [done|done|by eexists]. }
    rewrite session_get_N by exact Hb. cbn [rbind].
    destruct (query_get (heroes st) (Z.of_N id)) as [h|] eqn:E.
    + rewrite to_dict_hero_detail. apply spec_get_hero; [done|]. by rewrite to_map_lookup.
    + apply spec_get_hero_missing; [done|]. by rewrite to_map_lookup.
  - unfold handle, route, get_powers.
    rewrite (mapR_ext _ (fun p => Ok (power_summary p))) by (intros; apply to_dict_power_only).
    rewrite mapR_Ok_map. apply spec_get_powers.
  - unfold handle, route, get_power. destruct (Z.leb_spec (Z.of_N id) max_rowid) as [Hb|Hb].
    2:{ rewrite session_get_N_out by exact Hb. apply (spec_id_overflow _ _ id); [done|done|by eexists]. }
    rewrite session_get_N by exact Hb. cbn [rbind].
    destruct (query_get (powers st) (Z.of_N id)) as [p|] eqn:E.
    + rewrite to_dict_get_power. apply spec_get_power; [done|]. by rewrite to_map_lookup.
    + apply spec_get_power_missing; [done|]. by rewrite to_map_lookup.
  - apply patch_spec.
  - apply post_spec.
Qed.
End Refinement.

(** ** Every answer has its route's type *)






(** ** The handlers refine the contract *)





(** ** Liveness: linking is always possible *)

(** A row the contract adds is a row of the new table. *)
Lemma row_added_In e st st' hp : row_added e st st' hp -> In hp (hero_powers st').
Proof.
  intros (_ & _ & _ & _ & _ & _ & _ & Hmap).
  assert (H : to_map (hero_powers st') !! HeroPower.id hp = Some hp)
    by (rewrite Hmap; apply lookup_insert_eq).
  rewrite to_map_lookup in H. by apply query_get_Some in H as [Hin _].
Qed.

Lemma jint_opt_JInt o z : jint_opt o = JInt z -> o = Some z.
Proof. destruct o; simpl; congruence. Qed.

(** Any store the contract allows after a [POST] naming an existing hero
    and power (ids SQLite can bind) with a valid strength lists the
    power among the hero's. *)
Lemma post_spec_links e st r st' h p s :
  to_map (heroes st) !! Hero.id h = Some h -> to_map (powers st) !! Power.id p = Some p ->
  in_int64 (Hero.id h) -> in_int64 (Power.id p) -> In s valid_strengths ->
  api_spec e (PostHeroPower (BodyJson (link_body s (Hero.id h) (Power.id p)))) st (r, st') ->
  status_code r = 200%Z /\ In (Some p) (Hero_powers st' h).
Proof.
  intros Hh Hp Hhb Hpb Hs Hspec. unfold link_body in Hspec.
  inversion Hspec; subst.
  - (* an invalid strength: excluded *)
    exfalso. match goal with H : ~ strength_ok _ |- _ => apply H end.
    match goal with H : obj_lookup "strength" _ = Some _ |- _ => simpl in H; injection H as <- end.
    by exists s.
  - (* the row is created *)
    split; [reflexivity|].
    match goal with
    | Hrow : row_added _ _ _ ?hp, Hhid : obj_lookup "hero_id" _ = _,
      Hpid : obj_lookup "power_id" _ = _ |- _ =>
        simpl in Hhid, Hpid; injection Hhid as Hhid%eq_sym%jint_opt_JInt;
        injection Hpid as Hpid%eq_sym%jint_opt_JInt;
        pose proof (row_added_In _ _ _ _ Hrow) as Hin;
        destruct Hrow as (_ & _ & _ & _ & _ & _ & Hpow & _);
        unfold Hero_powers, Hero_hero_powers; apply in_map_iff; exists hp; split;
        [unfold HeroPower_power; rewrite Hpid, Hpow, <- to_map_lookup; exact Hp|];
        apply filter_In; split; [exact Hin|]; rewrite Hhid; apply Z.eqb_refl
    end.
  - (* a dangling reference: excluded *)
    exfalso. match goal with H : ~ (resolves _ _ /\ resolves _ _) |- _ => apply H end.
    match goal with
    | Hhid : obj_lookup "hero_id" _ = _, Hpid : obj_lookup "power_id" _ = _ |- _ =>
        simpl in Hhid, Hpid; injection Hhid as Hhid%eq_sym%jint_opt_JInt;
        injection Hpid as Hpid%eq_sym%jint_opt_JInt
    end.
    subst; simpl. rewrite Hh, Hp. split; eexists; reflexivity.
  - (* an id that does not fit: excluded *)
    exfalso. match goal with H : ~ (ref_fits _ /\ ref_fits _) |- _ => apply H end.
    match goal with
    | Hhid : obj_lookup "hero_id" _ = _, Hpid : obj_lookup "power_id" _ = _ |- _ =>
        simpl in Hhid, Hpid; injection Hhid as <-; injection Hpid as <-
    end.
    by split.
  - (* the body is well formed *)
    match goal with H : post_body_wf _ = false |- _ => simpl in H; discriminate H end.
  - (* the body decodes *)
    match goal with H : forall j, _ <> BodyJson j |- _ => by destruct (H _ eq_refl) end.
  - (* a POST has no id in its path *)
    match goal with H : request_id _ = Some _ |- _ => discriminate H end.
Qed.

(** C29: the service never loses the ability to link a hero to a power:
    from every store it can reach, as long as hero [h] and power [p]
    exist (with ids SQLite can hold), a store in which [p] is among
    [h]'s [powers] is reachable, in one [POST /hero_powers] with a valid
    strength, whether or not the database enforces foreign keys. *)
Theorem hero_can_always_gain_power cfg init st h p s :
  reachable cfg init st ->
  to_map (heroes st) !! Hero.id h = Some h -> to_map (powers st) !! Power.id p = Some p ->
  in_int64 (Hero.id h) -> in_int64 (Power.id p) -> In s valid_strengths ->
  exists st', reachable cfg init st' /\ In (Some p) (Hero_powers st' h).
Proof.
  intros Hr Hh Hp Hhb Hpb Hs.
  pose proof (handle_spec_routes cfg (PostHeroPower (BodyJson (link_body s (Hero.id h) (Power.id p)))) st)
    as Hspec.
  exists (snd (handle cfg (PostHeroPower (BodyJson (link_body s (Hero.id h) (Power.id p)))) st)). split.
  - eapply reach_step; [exact Hr|apply step_request].
  - destruct (handle cfg _ st) as [r st'] eqn:E. simpl.
    exact (proj2 (post_spec_links _ _ _ _ _ _ _ Hh Hp Hhb Hpb Hs Hspec)).
Qed.

Lemma hero_can_always_gain_power_witness :
  to_map (heroes cycle_db) !! Hero.id cycle_hero = Some cycle_hero /\
  to_map (powers cycle_db) !! Power.id cycle_power = Some cycle_power /\
  in_int64 (Hero.id cycle_hero) /\ in_int64 (Power.id cycle_power) /\
  exists st', reachable sqlite_default cycle_db st' /\
              In (Some cycle_power) (Hero_powers st' cycle_hero).
Proof.
  assert (Hh : to_map (heroes cycle_db) !! Hero.id cycle_hero = Some cycle_hero)
    by (rewrite to_map_lookup; reflexivity).
  assert (Hp : to_map (powers cycle_db) !! Power.id cycle_power = Some cycle_power)
    by (rewrite to_map_lookup; reflexivity).
  assert (Hb : in_int64 1) by (unfold in_int64, min_int64, max_rowid; lia).
  split; [exact Hh|]. split; [exact Hp|]. split; [exact Hb|]. split; [exact Hb|].
  apply (hero_can_always_gain_power sqlite_default cycle_db cycle_db cycle_hero cycle_power "Weak");
    [apply reach_init|exact Hh|exact Hp|exact Hb|exact Hb|right; left; reflexivity].
Defined.
