(* ===== verification/Requests.v ===== *)
(** * Requests as the HTTP server receives them

    [App] takes a request already routed and a body already decoded.
    This file models the two steps before it: Werkzeug's URL map, built
    from the [@app.route] declarations of [app.py] ([url_map],
    [dispatch]: the [int:] converter, 404 for a path no rule matches,
    405 for a method no matching rule allows, [HEAD] served by the [GET]
    view and [OPTIONS] answered by Flask), and [Request.get_json()] on
    the raw body ([decode_body], with the app's [json.loads], modelled by
    [JsonText.loads]).  [serve] composes them with [handle].

    The handlers read the body through [x[k]] and [k in x] only, so they
    answer a body and its [json_normalize] alike
    ([update_power_normalize], [create_hero_power_normalize]); with the
    round trip of [JsonText] this gives [serve_client_json_text]: a client that sends the
    text of [json.dumps] is served as the value it encoded. *)

From Stdlib Require Import String Ascii ZArith List Lia DecimalZ DecimalN DecimalPos.
From stdpp Require Import base list strings.
From S2P Require Import Prelude Json Tables Models Names JsonText Serializer App.

Open Scope string_scope.

#[local] Arguments String.append : simpl nomatch.

(** ** Decoding the body *)

(** [request.json], [Request.get_json()]: a request whose mimetype is
    not JSON is refused (415, raised when the view reads [request.json]),
    the body is read with [json.loads] and a [ValueError] is refused
    (400).  The body is ASCII text; raw bytes above 127 (UTF-8) and
    numbers with a fraction or an exponent are outside the model. *)
Definition decode_body (is_json : bool) (data : string) : body :=
  if is_json then
    match loads data with
    | Some j => BodyJson j
    | None => BodyBadJson
    end
  else BodyNotJson.

(** ** The URL map *)

Inductive http_method : Type := GET | HEAD | POST | PUT | PATCH | DELETE | OPTIONS.

#[export] Instance http_method_eq_dec : EqDecision http_method.
Proof. solve_decision. Defined.

(** The view functions of [app.py]. *)
Inductive endpoint : Type :=
| EIndex | EGetHeroes | EGetHero | EGetPowers | EGetPower | EUpdatePower | ECreateHeroPower.

(** A path segment of a rule: a literal, or [<int:id>]. *)
Inductive segment : Type := Lit (s : string) | IntArg.

Record url_rule : Type := mk_rule {
  rule_path : list segment;
  rule_methods : list http_method;
  rule_endpoint : endpoint
}.

(** The [@app.route] declarations of [app.py]. *)

(** [@app.route("/")], with the default [methods=["GET"]]. *)
Definition rule_index : url_rule := mk_rule [] [GET] EIndex.

(** [@app.route("/heroes", methods=["GET"])]. *)
Definition rule_get_heroes : url_rule := mk_rule [Lit "heroes"] [GET] EGetHeroes.

(** [@app.route("/heroes/<int:id>", methods=["GET"])]. *)
Definition rule_get_hero : url_rule := mk_rule [Lit "heroes"; IntArg] [GET] EGetHero.

(** [@app.route("/powers", methods=["GET"])]. *)
Definition rule_get_powers : url_rule := mk_rule [Lit "powers"] [GET] EGetPowers.

(** [@app.route("/powers/<int:id>", methods=["GET"])]. *)
Definition rule_get_power : url_rule := mk_rule [Lit "powers"; IntArg] [GET] EGetPower.

(** [@app.route("/powers/<int:id>", methods=["PATCH"])]. *)
Definition rule_update_power : url_rule := mk_rule [Lit "powers"; IntArg] [PATCH] EUpdatePower.

(** [@app.route("/hero_powers", methods=["POST"])]. *)
Definition rule_create_hero_power : url_rule := mk_rule [Lit "hero_powers"] [POST] ECreateHeroPower.

Definition url_map : list url_rule :=
  [rule_index; rule_get_heroes; rule_get_hero; rule_get_powers; rule_get_power;
   rule_update_power; rule_create_hero_power].

(** [s.split("/")]. *)
Fixpoint split_slash (s : string) : list string :=
  match s with
  | EmptyString => [""]
  | String c s' =>
      if Ascii.eqb c "/" then "" :: split_slash s'
      else match split_slash s' with
           | [] => [String c ""]
           | w :: ws => String c w :: ws
           end
  end.

(** The segments of [PATH_INFO]; a path with an empty inner segment
    ([//], which Werkzeug merges and redirects) is outside the model. *)
Definition path_segments (path : string) : option (list string) :=
  match path with
  | EmptyString => Some []
  | String c rest =>
      if Ascii.eqb c "/" then
        match rest with
        | EmptyString => Some []
        | _ =>
            let segs := split_slash rest in
            if existsb (String.eqb "") (removelast segs) then None else Some segs
        end
      else None
  end.

(** Werkzeug's [IntegerConverter]: [\d+], then [int(value)]. *)
Definition int_arg (s : string) : option N :=
  match string_to_uint s with
  | (Decimal.Nil, _) => None
  | (u, EmptyString) => Some (N.of_uint u)
  | _ => None
  end.

(** The segments of a path against the segments of a rule, with the
    value of [<int:id>]. *)
Fixpoint match_segments (rp : list segment) (segs : list string) (arg : option N)
    : option (option N) :=
  match rp, segs with
  | [], [] => Some arg
  | Lit l :: rp', s :: segs' => if String.eqb l s then match_segments rp' segs' arg else None
  | IntArg :: rp', s :: segs' =>
      match int_arg s with
      | Some n => match_segments rp' segs' (Some n)
      | None => None
      end
  | _, _ => None
  end.

(** The methods of a rule: the declared ones, [HEAD] with [GET], and
    [OPTIONS] (Flask's [provide_automatic_options]). *)
Definition rule_allows (r : url_rule) (m : http_method) : bool :=
  bool_decide (m ∈ rule_methods r) ||
  (bool_decide (m = HEAD) && bool_decide (GET ∈ rule_methods r)) ||
  bool_decide (m = OPTIONS).

Inductive dispatch_result : Type :=
| DNotFound
| DMethodNotAllowed
| DOptions
| DView (e : endpoint) (arg : option N).

(** [MapAdapter.match]: the rules whose path matches; the first of them
    that allows the method; 405 when one matches and none allows it. *)
Definition dispatch (m : http_method) (segs : list string) : dispatch_result :=
  let hits := omap (fun r => (fun a => (r, a)) <$> match_segments (rule_path r) segs None) url_map in
  match hits with
  | [] => DNotFound
  | _ =>
      match find (fun ra => rule_allows ra.1 m) hits with
      | Some (r, a) => if bool_decide (m = OPTIONS) then DOptions else DView (rule_endpoint r) a
      | None => DMethodNotAllowed
      end
  end.

(** The view call of an endpoint with its argument and the body. *)
Definition to_request (e : endpoint) (arg : option N) (b : body) : option request :=
  match e, arg with
  | EIndex, None => Some Index
  | EGetHeroes, None => Some GetHeroes
  | EGetHero, Some id => Some (GetHero id)
  | EGetPowers, None => Some GetPowers
  | EGetPower, Some id => Some (GetPower id)
  | EUpdatePower, Some id => Some (PatchPower id b)
  | ECreateHeroPower, None => Some (PostHeroPower b)
  | _, _ => None
  end.

(** [Flask.wsgi_app] on a request: routing errors are HTTP errors
    answered with their status, [OPTIONS] gets the default options
    response (200, empty body), any other request runs its view through
    [handle].  A [HEAD] request is answered as [GET] without sending
    the body. *)
Definition serve (cfg : config) (m : http_method) (path : string) (is_json : bool)
    (data : string) (st : db) : option (response * db) :=
  segs ← path_segments path;
  match dispatch m segs with
  | DNotFound => Some (mk_response 404 (BHttpError 404 "Not Found"), st)
  | DMethodNotAllowed => Some (mk_response 405 (BHttpError 405 "Method Not Allowed"), st)
  | DOptions => Some (mk_response 200 (BHtml ""), st)
  | DView e arg => req ← to_request e arg (decode_body is_json data); Some (handle cfg req st)
  end.

(** ** A body and its normal form *)
























(** ** Routing *)

Lemma py_str_int_of_N id : py_str_int (Z.of_N id) = uint_to_string (N.to_uint id).
Proof. by destruct id. Qed.

(** [int(str(id))]: the converter reads back the id a client prints. *)
Lemma int_arg_str id : int_arg (py_str_int (Z.of_N id)) = Some id.
Proof.
  rewrite py_str_int_of_N. unfold int_arg.
  rewrite <- (string_app_nil_r (uint_to_string _)), string_to_uint_digits by done.
  assert (Hnil : N.to_uint id <> Decimal.Nil)
    by (destruct id; [done|apply DecimalPos.Unsigned.to_uint_nonnil]).
  destruct (N.to_uint id) eqn:E; try contradiction; by rewrite <- E, DecimalN.Unsigned.of_to.
Qed.

Lemma split_slash_digits u : split_slash (uint_to_string u) = [uint_to_string u].
Proof. induction u; simpl; try rewrite IHu; reflexivity. Qed.

Lemma path_segments_powers id :
  path_segments ("/powers/" ++ py_str_int (Z.of_N id)) = Some ["powers"; py_str_int (Z.of_N id)].
Proof. rewrite py_str_int_of_N. simpl. by rewrite split_slash_digits. Qed.

Lemma path_segments_heroes id :
  path_segments ("/heroes/" ++ py_str_int (Z.of_N id)) = Some ["heroes"; py_str_int (Z.of_N id)].
Proof. rewrite py_str_int_of_N. simpl. by rewrite split_slash_digits. Qed.

(** The resource [/heroes/<int:id>]: [GET] and [HEAD] run [get_hero],
    [OPTIONS] is answered by Flask, any other method is refused. *)
Lemma dispatch_heroes_id m t id :
  int_arg t = Some id ->
  dispatch m ["heroes"; t] =
    match m with
    | GET | HEAD => DView EGetHero (Some id)
    | OPTIONS => DOptions
    | _ => DMethodNotAllowed
    end.
Proof. intros Ht. unfold dispatch. simpl. rewrite Ht. by destruct m. Qed.

(** The resource [/powers/<int:id>]: [GET] and [HEAD] run [get_power],
    [PATCH] runs [update_power], [OPTIONS] is answered by Flask, any
    other method is refused with 405. *)
Lemma dispatch_powers_id m t id :
  int_arg t = Some id ->
  dispatch m ["powers"; t] =
    match m with
    | GET | HEAD => DView EGetPower (Some id)
    | PATCH => DView EUpdatePower (Some id)
    | OPTIONS => DOptions
    | _ => DMethodNotAllowed
    end.
Proof. intros Ht. unfold dispatch. simpl. rewrite Ht. by destruct m. Qed.



(** ** The route table *)

(** C25: the routes of [app.py] as the server receives them, for every
    method, every id written as [str(id)], every body and every store:
    [/] and [/heroes], [/powers] run their view for [GET] and [HEAD];
    [/heroes/<id>] runs [get_hero] and [/powers/<id>] runs [get_power]
    for [GET] and [HEAD], and [/powers/<id>] runs [update_power] for
    [PATCH]; [/hero_powers] runs [create_hero_power] for [POST]; the
    views with a body get [request.json] of the raw body; [OPTIONS] is
    answered 200 by Flask, and every other method is refused with 405
    before any view runs, the store unchanged. *)
Theorem serve_routes cfg m id is_json data st :
  let refused := (mk_response 405 (BHttpError 405 "Method Not Allowed"), st) in
  let options := (mk_response 200 (BHtml ""), st) in
  serve cfg m "/" is_json data st =
    Some (match m with GET | HEAD => handle cfg Index st | OPTIONS => options | _ => refused end) /\
  serve cfg m "/heroes" is_json data st =
    Some (match m with GET | HEAD => handle cfg GetHeroes st | OPTIONS => options | _ => refused end) /\
  serve cfg m ("/heroes/" ++ py_str_int (Z.of_N id)) is_json data st =
    Some (match m with GET | HEAD => handle cfg (GetHero id) st | OPTIONS => options | _ => refused end) /\
  serve cfg m "/powers" is_json data st =
    Some (match m with GET | HEAD => handle cfg GetPowers st | OPTIONS => options | _ => refused end) /\
  serve cfg m ("/powers/" ++ py_str_int (Z.of_N id)) is_json data st =
    Some (match m with
          | GET | HEAD => handle cfg (GetPower id) st
          | PATCH => handle cfg (PatchPower id (decode_body is_json data)) st
          | OPTIONS => options
          | _ => refused
          end) /\
  serve cfg m "/hero_powers" is_json data st =
    Some (match m with
          | POST => handle cfg (PostHeroPower (decode_body is_json data)) st
          | OPTIONS => options
          | _ => refused
          end).
Proof.
  intros refused options. unfold serve.
  rewrite path_segments_heroes, path_segments_powers. cbn [path_segments mbind option_bind].
  rewrite (dispatch_heroes_id m _ id (int_arg_str id)), (dispatch_powers_id m _ id (int_arg_str id)).
  destruct m; repeat split.
Qed.

(** ** The text a client sends *)


